(** * Payment verification and budget ledger: a shallow embedding

    The repository holds several variants of one Express server.  Each
    variant is embedded in a module of its own, named after the file it
    comes from:

    - [PureApi]      src/budget-tracker-pure-api.js (first server of the file)
    - [ApiServer]    src/unnamed/part_000
    - [Dashboard]    src/unnamed/part_002
    - [RenderDeploy] src/razorpay-render-deploy/server.js
    - [Tracker]      src/budget-tracker-pure-api.js (second server of the
                     file, with a [budgetData] of its own)

    Conventions of the embedding.

    - The global [budgetData] object is an explicit state, threaded
      through every handler; a handler is a function from the state and
      the request to the new state and the HTTP response.
    - A JavaScript object used as a dictionary ([budgetData.users],
      [budgetData.budgets]) is a [gmap string _] of its own properties.
      A lookup that finds no own property goes on to the members every
      object inherits ([constructor], [toString], ...): see [foreign].
    - JavaScript numbers are doubles (type [num]): NaN, the two
      infinities, and the finite ones, each given by its exact rational
      value.  A sum, a difference, a product or a quotient is the exact
      result rounded to the nearest double, ties to even, as the
      language computes it ([JSNum.round_double]).  The sign of zero is
      not modelled.
    - A numeric request field holds a number, unless a handler is said
      to take the field as it is received (type [Value]).
    - An absent (undefined) request field is [None].
    - The system clock read by [new Date()] / [Date.now()] is an extra
      argument [now] (milliseconds since the epoch); a stored ISO date
      string is represented by that number.
    - HMAC-SHA256 and the payment gateway are parameters. *)

From Stdlib Require Import ZArith QArith Qround Qabs Sorted Lia Lqa.
From stdpp Require Import gmap strings list pretty.

(** ** JavaScript numbers *)

Module JSNum.

Inductive num : Type :=
  | NaN
  | NInf
  | Finite (q : Q)
  | PInf.

Definition zero : num := Finite 0%Q.
Definition of_Z (z : Z) : num := Finite (inject_Z z).

Definition neg (a : num) : num :=
  match a with
  | NaN => NaN
  | NInf => PInf
  | Finite q => Finite (- q)%Q
  | PInf => NInf
  end.

Definition Qsgn (q : Q) : comparison := (0 ?= q)%Q.

(** *** Rounding to the nearest double *)

(** [2 ^ e], also for a negative exponent. *)
Definition pow2 (e : Z) : Q :=
  if (0 <=? e)%Z then inject_Z (2 ^ e) else 1 # Z.to_pos (2 ^ (- e)).

(** The exponent of the leading bit of a positive rational. *)
Definition ilog2 (q : Q) : Z :=
  let e := (Z.log2 (Qnum q) - Z.log2 (Zpos (Qden q)))%Z in
  if Qle_bool (pow2 e) q then e else (e - 1)%Z.

(** The nearest integer, the even one on a tie. *)
Definition nearest_even (q : Q) : Z :=
  let f := Qfloor q in
  match (q - inject_Z f ?= 1 # 2)%Q with
  | Lt => f
  | Gt => (f + 1)%Z
  | Eq => if Z.even f then f else (f + 1)%Z
  end.

(** The exponent of the last place of the double nearest to a positive
    rational: 53 significant bits, and no exponent below -1074 (the
    subnormal numbers). *)
Definition ulp_exponent (q : Q) : Z := Z.max (ilog2 q - 52) (-1074).

(** The double nearest to a positive rational; there is no finite one
    from [2 ^ 1024] on. *)
Definition nearest_double (q : Q) : option Q :=
  let e := ulp_exponent q in
  let m := nearest_even (q / pow2 e) in
  let v := Qred (inject_Z m * pow2 e) in
  if Qle_bool (pow2 1024) v then None else Some v.

(** The double an exact result is rounded to. *)
Definition round_double (q : Q) : num :=
  match (0 ?= q)%Q with
  | Eq => Finite 0
  | Lt => match nearest_double q with Some v => Finite v | None => PInf end
  | Gt => match nearest_double (- q) with Some v => Finite (- v) | None => NInf end
  end.

Arguments round_double : simpl never.

(** The finite doubles are multiples of the smallest one. *)
Definition on_grid (q : Q) : Prop :=
  exists k : Z, (q == inject_Z k * pow2 (-1074))%Q.

(** [a + b] *)
Definition add (a b : num) : num :=
  match a, b with
  | NaN, _ | _, NaN => NaN
  | PInf, NInf | NInf, PInf => NaN
  | PInf, _ | _, PInf => PInf
  | NInf, _ | _, NInf => NInf
  | Finite x, Finite y => round_double (x + y)
  end.

(** [a - b] *)
Definition sub (a b : num) : num := add a (neg b).

(** [a * b] *)
Definition mul (a b : num) : num :=
  match a, b with
  | NaN, _ | _, NaN => NaN
  | Finite x, Finite y => round_double (x * y)
  | Finite x, PInf | PInf, Finite x =>
      match Qsgn x with Eq => NaN | Lt => PInf | Gt => NInf end
  | Finite x, NInf | NInf, Finite x =>
      match Qsgn x with Eq => NaN | Lt => NInf | Gt => PInf end
  | PInf, PInf | NInf, NInf => PInf
  | PInf, NInf | NInf, PInf => NInf
  end.

(** [a / b]; a zero divisor is the positive zero. *)
Definition div (a b : num) : num :=
  match a, b with
  | NaN, _ | _, NaN => NaN
  | Finite x, Finite y =>
      match Qsgn y with
      | Eq => match Qsgn x with Eq => NaN | Lt => PInf | Gt => NInf end
      | _ => round_double (x / y)
      end
  | Finite _, (PInf | NInf) => Finite 0%Q
  | PInf, Finite y => match Qsgn y with Gt => NInf | _ => PInf end
  | NInf, Finite y => match Qsgn y with Gt => PInf | _ => NInf end
  | (PInf | NInf), (PInf | NInf) => NaN
  end.

(** [a < b]; every comparison with NaN is false. *)
Definition ltb (a b : num) : bool :=
  match a, b with
  | NaN, _ | _, NaN => false
  | NInf, NInf => false
  | NInf, _ => true
  | _, NInf => false
  | PInf, _ => false
  | Finite _, PInf => true
  | Finite x, Finite y => match (x ?= y)%Q with Lt => true | _ => false end
  end.

(** [a <= b] *)
Definition leb (a b : num) : bool :=
  match a, b with
  | NaN, _ | _, NaN => false
  | NInf, _ => true
  | _, PInf => true
  | PInf, _ => false
  | _, NInf => false
  | Finite x, Finite y => match (x ?= y)%Q with Gt => false | _ => true end
  end.

Definition gtb (a b : num) : bool := ltb b a.
Definition geb (a b : num) : bool := leb b a.

(** Truthiness of a number: [0] and [NaN] are falsy. *)
Definition truthy (a : num) : bool :=
  match a with
  | NaN => false
  | Finite q => negb (Qeq_bool q 0%Q)
  | _ => true
  end.

(** [a || b] on numbers. *)
Definition or_else (a b : num) : num := if truthy a then a else b.

(** [isNaN(a)] *)
Definition isNaN (a : num) : bool :=
  match a with NaN => true | _ => false end.

(** The integer [n] for which [n / 100] is nearest to [q >= 0], the
    larger one on a tie: the digits [Number.prototype.toFixed(2)] prints. *)
Definition hundredths (q : Q) : Z := Qfloor (q * 100 + (1 # 2))%Q.

(** The number that [x.toFixed(2)] denotes for a finite [x]: the sign is
    split off first, as in the language definition. *)
Definition round2 (q : Q) : Q :=
  if Qle_bool 0%Q q then (hundredths q # 100)%Q else (- (hundredths (- q) # 100))%Q.

(** The number the string [a.toFixed(2)] denotes, a whole number of
    hundredths for a finite [a]; "NaN" and "Infinity" denote
    themselves. *)
Definition toFixed2 (a : num) : num :=
  match a with
  | Finite q => Finite (round2 q)
  | other => other
  end.

(** The double a printed number is read back as, by [parseFloat] or by
    a comparison with a number: the nearest one. *)
Definition read (a : num) : num :=
  match a with
  | Finite q => round_double q
  | other => other
  end.

(** [Math.round(a)]: nearest integer, ties towards plus infinity. *)
Definition round (a : num) : num :=
  match a with
  | Finite q => Finite (inject_Z (Qfloor (q + (1 # 2))%Q))
  | other => other
  end.

(** Equality of the denoted numbers. *)
Definition eqv (a b : num) : Prop :=
  match a, b with
  | NaN, NaN | NInf, NInf | PInf, PInf => True
  | Finite x, Finite y => (x == y)%Q
  | _, _ => False
  end.

(** The number is one a double can hold: rounding leaves it as it is. *)
Definition is_double (a : num) : Prop :=
  match a with
  | Finite q => eqv (round_double q) (Finite q)
  | _ => True
  end.

End JSNum.

Export JSNum (num, NaN, NInf, Finite, PInf).

(** ** Request fields and strings *)

(** [!s] is false: the field is present and not the empty string. *)
Definition truthy_str (o : option string) : bool :=
  match o with
  | Some s => negb (String.eqb s "")
  | None => false
  end.

(** [o || d] on an optional string field. *)
Definition str_or (o : option string) (d : string) : string :=
  match o with
  | Some s => if String.eqb s "" then d else s
  | None => d
  end.

(** String conversion of a field inside a concatenation. *)
Definition to_str (o : option string) : string := default "undefined" o.

(** [parseFloat(v)] of a numeric field; an absent field gives NaN. *)
Definition parseFloat (o : option num) : num := default NaN o.

(** [s.slice(-n)]: the last [n] characters. *)
Definition slice_last (n : nat) (s : string) : string :=
  let k := String.length s in
  String.substring (k - n)%nat (Nat.min k n) s.

(** [new Date(ms)] followed by [toISOString()]: the time value is clipped
    to the range of dates and truncated; outside that range (or for NaN)
    the date is invalid and [toISOString] throws, which is [None] here. *)
Definition max_time_value : Z := 8640000000000000.

Definition iso_date_of (ms : num) : option Z :=
  match ms with
  | Finite q =>
      let t := Z.quot (Qnum q) (Zpos (Qden q)) in
      if (Qle_bool (- inject_Z max_time_value) q
          && Qle_bool q (inject_Z max_time_value))%bool
      then Some t else None
  | _ => None
  end.

(** ** The data model: [budgetData] *)

(** A stored transaction.  The variants store different subsets of the
    properties; a property a variant does not write is [None]. *)
Record Transaction : Type := {
  tx_id : option string;
  tx_orderId : option string;
  tx_amount : num;
  tx_category : string;
  tx_description : string;
  tx_date : Z;
  tx_status : string;
  tx_verified : option bool;
  tx_method : option string }.

Record User : Type := {
  u_id : option string;
  u_name : option string;
  u_email : option string;
  totalSpent : num;
  transactions : list Transaction;
  createdAt : option Z;
  lastActive : option Z }.

(** An entry of the global payment log: [{ ...transaction, userId }]. *)
Record Payment : Type := {
  pay_tx : Transaction;
  pay_userId : option string }.

(** [budgetData.budgets[userId]]; the [categories] object and the
    timestamps of a budget play no part in what follows and are left out. *)
Record Budget : Type := {
  monthly : num;
  alerts : bool }.

Record Analytics : Type := {
  totalUsers : Z;
  totalTransactions : Z;
  totalAmount : num }.

Record BudgetData : Type := {
  users : gmap string User;
  payments : list Payment;
  budgets : gmap string Budget;
  analytics : Analytics }.

(** The initial value of [budgetData]. *)
Definition initial : BudgetData :=
  {| users := ∅; payments := []; budgets := ∅;
     analytics := {| totalUsers := 0; totalTransactions := 0;
                     totalAmount := JSNum.zero |} |}.

Definition set_users (f : gmap string User → gmap string User) (st : BudgetData)
  : BudgetData :=
  {| users := f (users st); payments := payments st;
     budgets := budgets st; analytics := analytics st |}.

Definition set_budgets (f : gmap string Budget → gmap string Budget)
  (st : BudgetData) : BudgetData :=
  {| users := users st; payments := payments st;
     budgets := f (budgets st); analytics := analytics st |}.

Definition push_payment (p : Payment) (st : BudgetData) : BudgetData :=
  {| users := users st; payments := payments st ++ [p];
     budgets := budgets st; analytics := analytics st |}.

Definition set_analytics (f : Analytics → Analytics) (st : BudgetData)
  : BudgetData :=
  {| users := users st; payments := payments st;
     budgets := budgets st; analytics := f (analytics st) |}.

(** [user.totalSpent += amount; user.transactions.push(transaction)] *)
Definition record_in (u : User) (t : Transaction) : User :=
  {| u_id := u_id u; u_name := u_name u; u_email := u_email u;
     totalSpent := JSNum.add (totalSpent u) (tx_amount t);
     transactions := transactions u ++ [t];
     createdAt := createdAt u; lastActive := lastActive u |}.

(** [user.lastActive = new Date().toISOString()] *)
Definition touch (now : Z) (u : User) : User :=
  {| u_id := u_id u; u_name := u_name u; u_email := u_email u;
     totalSpent := totalSpent u; transactions := transactions u;
     createdAt := createdAt u; lastActive := Some now |}.

(** *** Ledgers, running totals and their invariant *)

(** The statuses that count towards the running total. *)
Definition counted (t : Transaction) : bool :=
  (String.eqb (tx_status t) "success" || String.eqb (tx_status t) "captured")%bool.

(** Sum of the amounts of the counted transactions, in ledger order. *)
Definition ledger_sum (l : list Transaction) : num :=
  fold_left (fun acc t => JSNum.add acc (tx_amount t)) (filter counted l)
            JSNum.zero.

(** A user's ledger and running total; a user that does not exist has
    an empty ledger and has spent nothing. *)
Definition entries (st : BudgetData) (userId : string) : list Transaction :=
  from_option transactions [] (users st !! userId).

Definition spent_by (st : BudgetData) (userId : string) : num :=
  from_option totalSpent JSNum.zero (users st !! userId).

(** The invariant of the data model: every user's running total is the
    sum of the user's counted transactions. *)
Definition totals_consistent (st : BudgetData) : Prop :=
  ∀ userId, spent_by st userId = ledger_sum (entries st userId).

(** What one request may do to the ledger of one user: leave it as it
    is, or append one counted transaction and add its amount to the
    running total. *)
Inductive ledger_step (st st' : BudgetData) (userId : string) : Prop :=
  | ledger_kept :
      entries st' userId = entries st userId →
      spent_by st' userId = spent_by st userId →
      ledger_step st st' userId
  | ledger_recorded (t : Transaction) :
      counted t = true →
      entries st' userId = entries st userId ++ [t] →
      spent_by st' userId = JSNum.add (spent_by st userId) (tx_amount t) →
      ledger_step st st' userId.

(** The only change to the user table is at most one new record, put
    where there was none, with no transaction and nothing spent. *)
Definition adds_at_most_fresh_user (st st' : BudgetData) : Prop :=
  users st' = users st
  ∨ ∃ userId u,
      users st !! userId = None
      ∧ totalSpent u = JSNum.zero ∧ transactions u = []
      ∧ users st' = <[userId:=u]> (users st).

(** The transaction ids of a ledger. *)
Definition has_id (pid : string) (l : list Transaction) : bool :=
  existsb (fun t => bool_decide (tx_id t = Some pid)) l.

(** Whether a ledger holds a transaction whose id is [payment.id], which
    may be absent: [transactions.find(t => t.id === payment.id)]. *)
Definition holds_id (pid : option string) (l : list Transaction) : bool :=
  match pid with
  | Some id => has_id id l
  | None => existsb (fun t => bool_decide (tx_id t = None)) l
  end.

(** ** Plain objects used as dictionaries *)

(** The names of the members every object inherits from
    [Object.prototype]. *)
Definition prototype_names : list string :=
  ["__defineGetter__"; "__defineSetter__"; "__lookupGetter__";
   "__lookupSetter__"; "__proto__"; "constructor"; "hasOwnProperty";
   "isPrototypeOf"; "propertyIsEnumerable"; "toLocaleString"; "toString";
   "valueOf"].

Definition inherited (k : string) : bool :=
  bool_decide (k ∈ prototype_names).

(** [object[k]] finds no own property but an inherited member: a
    function, or the prototype itself for [__proto__].  Such a value is
    truthy and has none of the properties the handlers read:
    [value.transactions] is undefined, so pushing to it or searching it
    throws.  What a handler writes to the value before it throws
    ([value.totalSpent += amount], which leaves NaN there) is written
    outside [budgetData] and read by no handler. *)
Definition foreign {A : Type} (m : gmap string A) (k : string) : bool :=
  match m !! k with
  | Some _ => false
  | None => inherited k
  end.

(** set-budget stores under any [userId].  Stored under [__proto__], an
    entry becomes the prototype of the budgets object instead of a
    property of it; the map keeps it under that key, where a lookup of
    [__proto__] finds it again.  The lookup of another name that is no
    own property then finds the truthy members of that entry ([monthly],
    [categories], [updatedAt], and [alerts] when it is set) before those
    of [Object.prototype]; [categories] is taken to hold per-category
    limits only. *)
Definition budget_member (with_alerts : bool) (entry : Budget) (k : string)
  : bool :=
  (String.eqb k "monthly" && JSNum.truthy (monthly entry)
   || String.eqb k "categories" || String.eqb k "updatedAt"
   || with_alerts && String.eqb k "alerts" && alerts entry)%bool.

(** [budgetData.budgets[k]] is a truthy value that is no budget entry:
    its [monthly] is undefined. *)
Definition foreign_budget (with_alerts : bool) (m : gmap string Budget)
  (k : string) : bool :=
  match m !! k with
  | Some _ => false
  | None =>
      (inherited k
       || from_option (fun entry => budget_member with_alerts entry k) false
            (m !! "__proto__"))%bool
  end.

(** ** Request fields taken as they are received *)

(** A JSON value as a handler sees it that tests the value with [if] or
    [||] and computes with it without checking its type: through its
    truthiness and through the number it converts to.  The string "0"
    and the empty array are truthy and convert to 0; the string "abc" is
    truthy and converts to NaN. *)
Record Value : Type := { is_truthy : bool; as_number : num }.

(** A JSON number. *)
Definition number (n : num) : Value :=
  {| is_truthy := JSNum.truthy n; as_number := n |}.

(** ** HMAC-SHA256, as the code uses it:
    [crypto.createHmac('sha256', key).update(message).digest('hex')] *)
Class Hmac := hmac_sha256_hex : string → string → string.

(** ** The payment gateway: [razorpay.orders.create(options)] *)

Record OrderNotes : Type := {
  on_userId : string;
  on_category : string;
  on_description : string;
  on_createdBy : option string }.

Record OrderOptions : Type := {
  oo_amount : num;
  oo_currency : string;
  oo_receipt : string;
  oo_payment_capture : Z;
  oo_notes : option OrderNotes }.

Record Order : Type := {
  order_id : string;
  order_receipt : option string;
  order_created_at : option Z }.

(** The call either resolves to an order or rejects ([None]); the
    handler's [catch] turns a rejection into a 500 response. *)
Class Gateway := orders_create : OrderOptions → option Order.

(** ** Webhook payloads *)

Record Notes : Type := {
  n_userId : option string;
  n_category : option string;
  n_description : option string }.

(** [payload.payment.entity]; [id] and [order_id] are stored as they are
    received, present or not; an absent [amount] or [created_at] behaves
    as NaN in the arithmetic the handlers do with it. *)
Record PaymentEntity : Type := {
  p_id : option string;
  p_order_id : option string;
  p_amount : num;
  p_notes : option Notes;
  p_created_at : num }.

Record OrderEntity : Type := { oe_id : string }.

(** The parsed body of a webhook request together with the text
    [JSON.stringify(req.body)] and the [x-razorpay-signature] header.
    [wh_payment = None] stands for a payload without [payment.entity],
    [wh_order = None] for one without [order.entity]. *)
Record WebhookReq : Type := {
  wh_signature : option string;
  wh_body_text : string;
  wh_event : option string;
  wh_has_payload : bool;
  wh_payment : option PaymentEntity;
  wh_order : option OrderEntity }.

(** [payload.payment.entity] and [payload.order.entity]; reading either
    from an absent payload throws. *)
Definition payment_entity (r : WebhookReq) : option PaymentEntity :=
  if wh_has_payload r then wh_payment r else None.

Definition order_entity (r : WebhookReq) : option OrderEntity :=
  if wh_has_payload r then wh_order r else None.

(** [case name:] of a [switch (event)]. *)
Definition is_event (r : WebhookReq) (name : string) : bool :=
  bool_decide (wh_event r = Some name).

(** ** Requests of the JSON endpoints *)

Record CreateUserReq : Type := {
  cu_userId : option string;
  cu_name : option string;
  cu_email : option string;
  cu_initialBudget : option num }.

Record CreateOrderReq : Type := {
  co_amount : option num;
  co_userId : option string;
  co_category : option string;
  co_description : option string;
  co_currency : option string }.

Record VerifyReq : Type := {
  razorpay_order_id : option string;
  razorpay_payment_id : option string;
  razorpay_signature : option string;
  v_userId : option string;
  v_amount : option num;
  v_category : option string;
  v_description : option string }.

Record SetBudgetReq : Type := {
  sb_userId : option string;
  sb_monthlyLimit : option num;
  sb_alerts : option bool }.

(** The message the client's signature is checked against. *)
Definition signed_message (r : VerifyReq) : string :=
  to_str (razorpay_order_id r) +:+ "|" +:+ to_str (razorpay_payment_id r).

(** [!v || isNaN(v) || v <= 0] is false: the field holds a number the
    handlers accept as an amount or a limit. *)
Definition accepted_number (o : option num) : option num :=
  match o with
  | Some a =>
      if (negb (JSNum.truthy a) || JSNum.isNaN a || JSNum.leb a JSNum.zero)%bool
      then None else Some a
  | None => None
  end.

(** [!userId || typeof userId !== 'string'] is false. *)
Definition accepted_id (o : option string) : option string :=
  match o with
  | Some s => if String.eqb s "" then None else Some s
  | None => None
  end.

(** ** Arrays and query parameters *)

(** The index [array.slice] starts or ends at, for an integer argument:
    a negative argument counts from the end. *)
Definition slice_index (len : nat) (i : Z) : nat :=
  if (i <? 0)%Z then Z.to_nat (Z.max (Z.of_nat len + i) 0)
  else Nat.min (Z.to_nat i) len.

(** [l.slice(start, finish)] *)
Definition js_slice {A : Type} (start finish : Z) (l : list A) : list A :=
  let first := slice_index (length l) start in
  let final := slice_index (length l) finish in
  take (final - first) (drop first l).

(** [l.slice(start)] *)
Definition js_slice_from {A : Type} (start : Z) (l : list A) : list A :=
  drop (slice_index (length l) start) l.

(** [l.slice(-10).reverse()] *)
Definition recent {A : Type} (l : list A) : list A :=
  reverse (js_slice_from (-10) l).

(** [l.sort((a, b) => new Date(key(b)) - new Date(key(a)))], a stable
    sort: an element moves in front of an earlier one only when the
    comparator is positive, that is when it is strictly newer. *)
Fixpoint place_newer {A : Type} (key : A → Z) (x : A) (sorted : list A) : list A :=
  match sorted with
  | [] => [x]
  | y :: rest =>
      if (0 <? key x - key y)%Z
      then x :: y :: rest
      else y :: place_newer key x rest
  end.

Definition newest_first {A : Type} (key : A → Z) (l : list A) : list A :=
  fold_left (fun sorted x => place_newer key x sorted) l [].

(** A numeric query parameter after [parseInt]: the outer [None] is an
    absent parameter, which takes the default of the destructuring; the
    inner [None] is NaN. *)
Definition parseInt_or (d : Z) (o : option (option Z)) : option Z :=
  match o with
  | None => Some d
  | Some v => v
  end.

(** The query of GET /api/transactions/:userId *)
Record TransactionsQuery : Type := {
  tq_limit : option (option Z);
  tq_offset : option (option Z);
  tq_category : option string;
  tq_status : option string }.

(** [x && x !== 'all'] *)
Definition selects (o : option string) : bool :=
  (truthy_str o && negb (String.eqb (to_str o) "all"))%bool.

(** The two [filter] calls of the transaction listing. *)
Definition filtered (q : TransactionsQuery) (l : list Transaction)
  : list Transaction :=
  let by_category :=
    if selects (tq_category q)
    then List.filter (fun t => String.eqb (tx_category t) (to_str (tq_category q))) l
    else l in
  if selects (tq_status q)
  then List.filter (fun t => String.eqb (tx_status t) (to_str (tq_status q)))
         by_category
  else by_category.

(** The body of a transaction listing; a NaN limit or offset is [None]. *)
Record Page : Type := {
  pg_transactions : list Transaction;
  pg_total : nat;
  pg_limit : option Z;
  pg_offset : option Z;
  pg_hasMore : bool }.

(** * src/budget-tracker-pure-api.js *)

Module PureApi.

Inductive Body : Type :=
  | Failure (error : string)
  | UserCreated (user : User) (budget : Budget)
  | OrderCreated (orderId : string) (amount : num) (currency : string)
      (userId : string) (receipt : option string)
  | PaymentVerified (transaction : Transaction) (userId : string)
      (total : num) (transactionCount : nat)
  | WebhookReceived (event : option string)
  | BudgetUpdated (budget : Budget).

Record Response : Type := { code : nat; body : Body }.

Definition fail (c : nat) (msg : string) : Response :=
  {| code := c; body := Failure msg |}.

Definition placeholder_secret : string := "your_webhook_secret".

Section Server.

Context {hmac : Hmac} {gateway : Gateway}.

(** Loaded from the credentials file at start-up; the process exits when
    it is empty. *)
Variable RAZORPAY_KEY_SECRET : string.

(** [process.env.RAZORPAY_WEBHOOK_SECRET] *)
Variable RAZORPAY_WEBHOOK_SECRET : option string.

(** POST /api/users; [if (budgetData.users[userId])] also holds for a
    name that finds an inherited member. *)
Definition create_user (now : Z) (st : BudgetData) (r : CreateUserReq)
  : BudgetData * Response :=
  match accepted_id (cu_userId r) with
  | None => (st, fail 400 "Valid userId is required")
  | Some userId =>
      match users st !! userId with
      | Some _ => (st, fail 409 "User already exists")
      | None =>
          if inherited userId then (st, fail 409 "User already exists") else
          let newUser :=
            {| u_id := Some userId;
               u_name := Some (str_or (cu_name r) "Anonymous User");
               u_email := Some (str_or (cu_email r) "");
               totalSpent := JSNum.zero; transactions := [];
               createdAt := Some now; lastActive := Some now |} in
          let newBudget :=
            {| monthly := default (JSNum.of_Z 10000) (cu_initialBudget r);
               alerts := true |} in
          let st1 := set_users (insert userId newUser) st in
          let st2 := set_budgets (insert userId newBudget) st1 in
          let st3 :=
            set_analytics (fun a =>
              {| totalUsers := totalUsers a + 1;
                 totalTransactions := totalTransactions a;
                 totalAmount := totalAmount a |}) st2 in
          (st3, {| code := 200; body := UserCreated newUser newBudget |})
      end
  end.

(** The user record and budget that create-order and verify-payment
    make up for an unknown [userId]. *)
Definition auto_user (now : Z) (userId : string) : User :=
  {| u_id := Some userId;
     u_name := Some ("User " +:+ userId);
     u_email := Some (userId +:+ "@example.com");
     totalSpent := JSNum.zero; transactions := [];
     createdAt := Some now; lastActive := Some now |}.

Definition auto_budget : Budget :=
  {| monthly := JSNum.of_Z 10000; alerts := true |}.

Definition order_options (now : Z) (amount : num) (userId : string)
  (r : CreateOrderReq) : OrderOptions :=
  let shortTimestamp := slice_last 8 (pretty now) in
  let shortUserId := slice_last 10 userId in
  {| oo_amount := JSNum.round (JSNum.mul amount (JSNum.of_Z 100));
     oo_currency := default "INR" (co_currency r);
     oo_receipt := "rcpt_" +:+ shortUserId +:+ "_" +:+ shortTimestamp;
     oo_payment_capture := 1;
     oo_notes :=
       Some {| on_userId := userId;
               on_category := str_or (co_category r) "Other";
               on_description := str_or (co_description r) "Budget payment";
               on_createdBy := Some "budget_tracker_api" |} |}.

(** POST /api/create-order; no user is made up where
    [budgetData.users[userId]] finds an inherited member. *)
Definition create_order (now : Z) (st : BudgetData) (r : CreateOrderReq)
  : BudgetData * Response :=
  match accepted_number (co_amount r) with
  | None => (st, fail 400 "Valid amount is required")
  | Some amount =>
      match accepted_id (co_userId r) with
      | None => (st, fail 400 "Valid userId is required")
      | Some userId =>
          let st1 :=
            match users st !! userId with
            | Some _ => st
            | None =>
                if inherited userId then st else
                set_budgets (insert userId auto_budget)
                  (set_users (insert userId (auto_user now userId)) st)
            end in
          match orders_create (order_options now amount userId r) with
          | Some order =>
              (st1, {| code := 200;
                       body := OrderCreated (order_id order) amount
                                 (default "INR" (co_currency r)) userId
                                 (order_receipt order) |})
          | None => (st1, fail 500 "Failed to create payment order")
          end
      end
  end.

(** The transaction verify-payment builds. *)
Definition verified_transaction (now : Z) (r : VerifyReq) (paymentAmount : num)
  : Transaction :=
  {| tx_id := razorpay_payment_id r;
     tx_orderId := razorpay_order_id r;
     tx_amount := paymentAmount;
     tx_category := str_or (v_category r) "Other";
     tx_description := str_or (v_description r) "Payment";
     tx_date := now;
     tx_status := "success";
     tx_verified := Some true;
     tx_method := Some "razorpay" |}.

(** POST /api/verify-payment.  Where [budgetData.users[userId]] finds an
    inherited member, [user.transactions.push] throws before anything is
    stored, and the [catch] answers 500. *)
Definition verify_payment (now : Z) (st : BudgetData) (r : VerifyReq)
  : BudgetData * Response :=
  if negb (truthy_str (razorpay_order_id r) && truthy_str (razorpay_payment_id r)
           && truthy_str (razorpay_signature r))
  then (st, fail 400 "Missing required payment verification data")
  else
    match accepted_id (v_userId r) with
    | None => (st, fail 400 "UserId is required for payment verification")
    | Some userId =>
        let generated_signature :=
          hmac_sha256_hex RAZORPAY_KEY_SECRET (signed_message r) in
        if negb (bool_decide (Some generated_signature = razorpay_signature r))
        then (st, fail 400 "Payment verification failed - Invalid signature")
        else if foreign (users st) userId
        then (st, fail 500 "Internal server error during payment verification")
        else
          let user := default (auto_user now userId) (users st !! userId) in
          let paymentAmount :=
            JSNum.or_else (parseFloat (v_amount r)) JSNum.zero in
          let transaction := verified_transaction now r paymentAmount in
          let user' := touch now (record_in user transaction) in
          let st1 := set_users (insert userId user') st in
          let st2 :=
            push_payment {| pay_tx := transaction; pay_userId := Some userId |}
              st1 in
          let st3 :=
            set_analytics (fun a =>
              {| totalUsers := totalUsers a;
                 totalTransactions := totalTransactions a + 1;
                 totalAmount := JSNum.add (totalAmount a) paymentAmount |})
              st2 in
          (st3, {| code := 200;
                   body := PaymentVerified transaction userId
                             (totalSpent user') (length (transactions user')) |})
    end.

(** POST /api/webhook: the signature is checked only when a secret other
    than the placeholder is configured; the handler logs the event and
    answers, it never writes to [budgetData]. *)
Definition webhook (st : BudgetData) (r : WebhookReq) : BudgetData * Response :=
  let webhookSecret := str_or RAZORPAY_WEBHOOK_SECRET placeholder_secret in
  if (negb (String.eqb webhookSecret placeholder_secret)
      && negb (bool_decide
                 (wh_signature r
                  = Some (hmac_sha256_hex webhookSecret (wh_body_text r)))))%bool
  then (st, fail 400 "Invalid signature")
  else if wh_has_payload r
       then (st, {| code := 200; body := WebhookReceived (wh_event r) |})
       else (st, fail 500 "Webhook processing error").

(** POST /api/set-budget *)
Definition set_budget (st : BudgetData) (r : SetBudgetReq)
  : BudgetData * Response :=
  match accepted_id (sb_userId r) with
  | None => (st, fail 400 "Valid userId is required")
  | Some userId =>
      match accepted_number (sb_monthlyLimit r) with
      | None => (st, fail 400 "Valid monthly limit is required")
      | Some monthlyLimit =>
          let entry :=
            {| monthly := monthlyLimit; alerts := default true (sb_alerts r) |} in
          (set_budgets (insert userId entry) st,
           {| code := 200; body := BudgetUpdated entry |})
      end
  end.

(** The requests that can change [budgetData], with the clock reading
    taken while they are served. *)
Inductive Request : Type :=
  | CreateUser (now : Z) (r : CreateUserReq)
  | CreateOrder (now : Z) (r : CreateOrderReq)
  | VerifyPayment (now : Z) (r : VerifyReq)
  | Webhook (r : WebhookReq)
  | SetBudget (r : SetBudgetReq).

Definition handle (st : BudgetData) (q : Request) : BudgetData * Response :=
  match q with
  | CreateUser now r => create_user now st r
  | CreateOrder now r => create_order now st r
  | VerifyPayment now r => verify_payment now st r
  | Webhook r => webhook st r
  | SetBudget r => set_budget st r
  end.

(** The state after serving a sequence of requests, one at a time. *)
Definition run (st : BudgetData) (qs : list Request) : BudgetData :=
  fold_left (fun s q => fst (handle s q)) qs st.

End Server.


(** ** Read endpoints *)

(** GET /api/transactions/:userId; [None] is an error answer: 404 for
    a user that is not found, 500 where the lookup finds an inherited
    member, whose [transactions] cannot be spread. *)
Definition get_transactions (st : BudgetData) (userId : string)
  (q : TransactionsQuery) : option Page :=
  match users st !! userId with
  | None => None
  | Some user =>
      let transactions := newest_first tx_date (filtered q (transactions user)) in
      let startIndex :=
        match parseInt_or 0 (tq_offset q) with
        | Some n => n
        | None => 0%Z
        end in
      let limitNum :=
        match parseInt_or 50 (tq_limit q) with
        | Some n => if (n =? 0)%Z then 50%Z else n
        | None => 50%Z
        end in
      let endIndex := (startIndex + limitNum)%Z in
      Some {| pg_transactions := js_slice startIndex endIndex transactions;
              pg_total := length transactions;
              pg_limit := Some limitNum;
              pg_offset := Some startIndex;
              pg_hasMore := (endIndex <? Z.of_nat (length transactions))%Z |}
  end.

(** The [budget] part and the recent transactions of the answer of GET
    /api/user-data/:userId. *)
Record UserData : Type := {
  ud_totalSpent : num;
  ud_transactionCount : nat;
  ud_monthly : num;
  ud_remaining : num;
  ud_spendingPercentage : num;
  ud_alerts : bool;
  ud_recentTransactions : list Transaction }.

(** An inherited member read as a user record: every property is
    undefined. *)
Definition inherited_member : User :=
  {| u_id := None; u_name := None; u_email := None;
     totalSpent := NaN; transactions := [];
     createdAt := None; lastActive := None |}.

(** GET /api/user-data/:userId; [None] is the 404 answer.  The handler
    reads every property with a default, so it answers for an inherited
    member too; [budget?.monthly] and [budget?.alerts] are undefined for
    a missing entry and for a value that is no budget entry alike. *)
Definition user_data (st : BudgetData) (userId : string) : option UserData :=
  let found :=
    match users st !! userId with
    | Some user => Some user
    | None => if inherited userId then Some inherited_member else None
    end in
  match found with
  | None => None
  | Some user =>
      let budget := budgets st !! userId in
      let totalSpent := JSNum.or_else (totalSpent user) JSNum.zero in
      let budgetLimit :=
        JSNum.or_else (from_option monthly NaN budget) JSNum.zero in
      let remainingBudget := JSNum.sub budgetLimit totalSpent in
      let spendingPercentage :=
        if JSNum.gtb budgetLimit JSNum.zero
        then JSNum.mul (JSNum.div totalSpent budgetLimit) (JSNum.of_Z 100)
        else JSNum.zero in
      Some {| ud_totalSpent := totalSpent;
              ud_transactionCount := length (transactions user);
              ud_monthly := budgetLimit;
              ud_remaining := remainingBudget;
              ud_spendingPercentage :=
                JSNum.read (JSNum.toFixed2 spendingPercentage);
              ud_alerts := (from_option alerts false budget || true)%bool;
              ud_recentTransactions := recent (transactions user) |}
  end.

End PureApi.

(** * src/unnamed/part_000 *)

Module ApiServer.

(** ** The analyzer: [class AIBudgetAnalyzer] *)

(** [categories[category] = (categories[category] || 0) + amount] on an
    object whose properties keep their insertion order.  The tally is
    that of category names that are plain property names: not the name
    of an inherited member (for which the sum would start from a
    function, not from 0) and not an array index (which the object would
    list before the other names); see [plain_categories]. *)
Fixpoint bump (category : string) (amount : num) (categories : list (string * num))
  : list (string * num) :=
  match categories with
  | [] => [(category, JSNum.add JSNum.zero amount)]
  | (k, v) :: rest =>
      if String.eqb k category
      then (k, JSNum.add (JSNum.or_else v JSNum.zero) amount) :: rest
      else (k, v) :: bump category amount rest
  end.

(** The [forEach] loop of [getCategoryBreakdown]. *)
Definition tally (transactions : list Transaction) : list (string * num) :=
  fold_left
    (fun categories t =>
       bump (if String.eqb (tx_category t) "" then "Other" else tx_category t)
            (tx_amount t) categories)
    transactions [].

(** [categories.total]: the property named "total" of the tally. *)
Fixpoint property (name : string) (categories : list (string * num)) : option num :=
  match categories with
  | [] => None
  | (k, v) :: rest => if String.eqb k name then Some v else property name rest
  end.

(** [.sort(([,a], [,b]) => b - a)], a stable sort: an entry moves in
    front of an earlier one only when the comparator is positive. *)
Fixpoint place (x : string * num) (sorted : list (string * num))
  : list (string * num) :=
  match sorted with
  | [] => [x]
  | y :: rest =>
      if JSNum.gtb (JSNum.sub x.2 y.2) JSNum.zero
      then x :: y :: rest
      else y :: place x rest
  end.

Definition sort_desc (entries : list (string * num)) : list (string * num) :=
  fold_left (fun sorted x => place x sorted) entries [].

Record Share : Type := { share_amount : num; share_percentage : num }.

(** [Object.values(categories).reduce((a, b) => a + b, 0)] *)
Definition grand_total (categories : list (string * num)) : num :=
  fold_left (fun a kv => JSNum.add a kv.2) categories JSNum.zero.

Definition share_of (categories : list (string * num)) (value : num) : Share :=
  {| share_amount := value;
     share_percentage :=
       if JSNum.truthy (default NaN (property "total" categories))
       then JSNum.toFixed2
              (JSNum.mul (JSNum.div value (grand_total categories))
                         (JSNum.of_Z 100))
       else JSNum.zero |}.

(** [AIBudgetAnalyzer.getCategoryBreakdown(transactions)]; with plain
    category names the resulting object lists them in the order of the
    sort. *)
Definition getCategoryBreakdown (transactions : list Transaction)
  : list (string * Share) :=
  let categories := tally transactions in
  map (fun kv => (kv.1, share_of categories kv.2)) (sort_desc categories).

(** The analysis object; the recommendation text, the monthly projection
    and the time stamp are left out. *)
Record Analysis : Type := {
  an_userId : string;
  currentSpent : num;
  budgetLimit : num;
  remainingBudget : num;
  spendingPercentage : num;
  status : string;
  riskLevel : string;
  categoryBreakdown : list (string * Share) }.

(** [budget.monthly > 0 ? ((spent / budget.monthly) * 100).toFixed(2) : 0],
    as the number the result denotes: the quotient and the product are
    doubles, and [toFixed] prints the product to the nearest hundredth. *)
Definition percentage_of (spent limit : num) : num :=
  if JSNum.gtb limit JSNum.zero
  then JSNum.toFixed2 (JSNum.mul (JSNum.div spent limit) (JSNum.of_Z 100))
  else JSNum.zero.

(** The risk assessment: status and risk level for
    [parseFloat(analysis.spendingPercentage)]. *)
Definition assess (percentage : num) : string * string :=
  if JSNum.geb percentage (JSNum.of_Z 100) then ("over_budget", "critical")
  else if JSNum.geb percentage (JSNum.of_Z 90) then ("critical", "high")
  else if JSNum.geb percentage (JSNum.of_Z 75) then ("warning", "medium")
  else if JSNum.geb percentage (JSNum.of_Z 50) then ("moderate", "low")
  else ("excellent", "very_low").

Definition default_user : User :=
  {| u_id := None; u_name := None; u_email := None;
     totalSpent := JSNum.zero; transactions := [];
     createdAt := None; lastActive := None |}.

Definition default_budget : Budget :=
  {| monthly := JSNum.of_Z 10000; alerts := true |}.

(** [AIBudgetAnalyzer.analyzeBudget(userId)]; [None] when it throws.
    The two [||] fall back on the defaults only where the lookup finds
    nothing at all: an inherited member in the place of the user has no
    [transactions], and [getCategoryBreakdown(undefined)] throws; a value
    that is no budget entry has an undefined [monthly], which is NaN in
    the arithmetic. *)
Definition analyzeBudget (st : BudgetData) (userId : string) : option Analysis :=
  if foreign (users st) userId then None
  else
    let user := default default_user (users st !! userId) in
    let limit :=
      if foreign_budget true (budgets st) userId then NaN
      else monthly (default default_budget (budgets st !! userId)) in
    let percentage := percentage_of (totalSpent user) limit in
    let verdict := assess (JSNum.read percentage) in
    Some {| an_userId := userId;
            currentSpent := totalSpent user;
            budgetLimit := limit;
            remainingBudget := JSNum.sub limit (totalSpent user);
            spendingPercentage := percentage;
            status := verdict.1;
            riskLevel := verdict.2;
            categoryBreakdown := getCategoryBreakdown (transactions user) |}.

(** ** The endpoints *)

Inductive Body : Type :=
  | Failure (error : string)
  | UserCreated (user : User) (budget : Budget)
  | OrderCreated (orderId : string) (amount : num) (currency : string)
      (userId : string) (receipt : option string)
  | PaymentVerified (transaction : Transaction) (budgetAnalysis : Analysis)
      (userId : string) (total : num) (transactionCount : nat)
  | WebhookReceived
  | BudgetUpdated (budget : Budget) (budgetAnalysis : Analysis).

Record Response : Type := { code : nat; body : Body }.

Definition fail (c : nat) (msg : string) : Response :=
  {| code := c; body := Failure msg |}.

Definition placeholder_secret : string := "your_webhook_secret".

(** [res.status(200).json({ received: true })] *)
Definition received : Response := {| code := 200; body := WebhookReceived |}.

Section Server.

Context {hmac : Hmac} {gateway : Gateway}.

(** Second column of the credentials file; [None] when the line has no
    second column, in which case [crypto.createHmac] throws. *)
Variable RAZORPAY_KEY_SECRET : option string.

(** [process.env.RAZORPAY_WEBHOOK_SECRET] *)
Variable RAZORPAY_WEBHOOK_SECRET : option string.

(** POST /api/users; [if (budgetData.users[userId])] also holds for a
    name that finds an inherited member. *)
Definition create_user (now : Z) (st : BudgetData) (r : CreateUserReq)
  : BudgetData * Response :=
  if negb (truthy_str (cu_userId r)) then (st, fail 400 "UserId is required")
  else
    let userId := to_str (cu_userId r) in
    match users st !! userId with
    | Some _ => (st, fail 409 "User already exists")
    | None =>
        if inherited userId then (st, fail 409 "User already exists") else
        let user :=
          {| u_id := Some userId;
             u_name := Some (str_or (cu_name r) "Anonymous User");
             u_email := Some (str_or (cu_email r) "");
             totalSpent := JSNum.zero; transactions := [];
             createdAt := Some now; lastActive := Some now |} in
        let budget :=
          {| monthly := default (JSNum.of_Z 10000) (cu_initialBudget r);
             alerts := true |} in
        let st1 := set_users (insert userId user) st in
        let st2 := set_budgets (insert userId budget) st1 in
        let st3 :=
          set_analytics (fun a =>
            {| totalUsers := totalUsers a + 1;
               totalTransactions := totalTransactions a;
               totalAmount := totalAmount a |}) st2 in
        (st3, {| code := 200; body := UserCreated user budget |})
    end.

(** The record create-order and verify-payment make up for an unknown
    [userId]: [{ id, totalSpent: 0, transactions: [], createdAt }]. *)
Definition auto_user (now : Z) (userId : string) : User :=
  {| u_id := Some userId; u_name := None; u_email := None;
     totalSpent := JSNum.zero; transactions := [];
     createdAt := Some now; lastActive := None |}.

Definition order_options (now : Z) (amount : num) (userId : string)
  (r : CreateOrderReq) : OrderOptions :=
  let shortTimestamp := slice_last 8 (pretty now) in
  let shortUserId := slice_last 10 userId in
  {| oo_amount := JSNum.round (JSNum.mul amount (JSNum.of_Z 100));
     oo_currency := default "INR" (co_currency r);
     oo_receipt := "rcpt_" +:+ shortUserId +:+ "_" +:+ shortTimestamp;
     oo_payment_capture := 1;
     oo_notes :=
       Some {| on_userId := userId;
               on_category := str_or (co_category r) "Other";
               on_description := str_or (co_description r) "Budget payment";
               on_createdBy := Some "budget_tracker_api" |} |}.

(** POST /api/create-order; no user is made up where
    [budgetData.users[userId]] finds an inherited member. *)
Definition create_order (now : Z) (st : BudgetData) (r : CreateOrderReq)
  : BudgetData * Response :=
  match co_amount r with
  | None => (st, fail 400 "Valid amount is required")
  | Some amount =>
      if (negb (JSNum.truthy amount) || JSNum.leb amount JSNum.zero)%bool
      then (st, fail 400 "Valid amount is required")
      else if negb (truthy_str (co_userId r))
      then (st, fail 400 "UserId is required")
      else
        let userId := to_str (co_userId r) in
        let st1 :=
          match users st !! userId with
          | Some _ => st
          | None =>
              if inherited userId then st
              else set_users (insert userId (auto_user now userId)) st
          end in
        match orders_create (order_options now amount userId r) with
        | Some order =>
            (st1, {| code := 200;
                     body := OrderCreated (order_id order) amount
                               (default "INR" (co_currency r)) userId
                               (order_receipt order) |})
        | None => (st1, fail 500 "Failed to create payment order")
        end
  end.

Definition verified_transaction (now : Z) (r : VerifyReq) : Transaction :=
  {| tx_id := razorpay_payment_id r;
     tx_orderId := razorpay_order_id r;
     tx_amount := parseFloat (v_amount r);
     tx_category := str_or (v_category r) "Other";
     tx_description := str_or (v_description r) "Payment";
     tx_date := now;
     tx_status := "success";
     tx_verified := Some true;
     tx_method := Some "razorpay" |}.

(** POST /api/verify-payment.  Where [budgetData.users[userId]] finds an
    inherited member, [user.transactions.push] throws before anything is
    stored, and the [catch] answers 500; it would do the same, after the
    record is stored, if the analysis threw. *)
Definition verify_payment (now : Z) (st : BudgetData) (r : VerifyReq)
  : BudgetData * Response :=
  if negb (truthy_str (razorpay_order_id r) && truthy_str (razorpay_payment_id r)
           && truthy_str (razorpay_signature r) && truthy_str (v_userId r))
  then (st, fail 400 "Missing required payment verification data")
  else
    match RAZORPAY_KEY_SECRET with
    | None => (st, fail 500 "Internal server error during payment verification")
    | Some secret =>
        let generated_signature := hmac_sha256_hex secret (signed_message r) in
        let thrown := fail 500 "Internal server error during payment verification" in
        if negb (bool_decide (Some generated_signature = razorpay_signature r))
        then (st, fail 400 "Payment verification failed - Invalid signature")
        else if foreign (users st) (to_str (v_userId r)) then (st, thrown)
        else
          let userId := to_str (v_userId r) in
          let user := default (auto_user now userId) (users st !! userId) in
          let transaction := verified_transaction now r in
          let user' := touch now (record_in user transaction) in
          let st1 := set_users (insert userId user') st in
          let st2 :=
            push_payment {| pay_tx := transaction; pay_userId := Some userId |}
              st1 in
          let st3 :=
            set_analytics (fun a =>
              {| totalUsers := totalUsers a;
                 totalTransactions := totalTransactions a + 1;
                 totalAmount := JSNum.add (totalAmount a) (tx_amount transaction) |})
              st2 in
          (st3,
           match analyzeBudget st3 userId with
           | Some analysis =>
               {| code := 200;
                  body := PaymentVerified transaction analysis
                            userId (totalSpent user')
                            (length (transactions user')) |}
           | None => thrown
           end)
    end.

(** The transaction [handlePaymentCaptured] builds, once the date is
    known to be valid. *)
Definition captured_transaction (payment : PaymentEntity) (date : Z)
  : Transaction :=
  {| tx_id := p_id payment;
     tx_orderId := p_order_id payment;
     tx_amount := JSNum.div (p_amount payment) (JSNum.of_Z 100);
     tx_category := str_or (p_notes payment ≫= n_category) "Other";
     tx_description := str_or (p_notes payment ≫= n_description) "Webhook payment";
     tx_date := date;
     tx_status := "captured";
     tx_verified := None;
     tx_method := Some "razorpay_webhook" |}.

(** [handlePaymentCaptured(payment)]; [None] when it throws, which
    happens before anything is written: where the lookup of the user
    finds an inherited member, whose [transactions] cannot be searched,
    and for an invalid [created_at]. *)
Definition handlePaymentCaptured (st : BudgetData) (payment : PaymentEntity)
  : option BudgetData :=
  let userId := p_notes payment ≫= n_userId in
  if negb (truthy_str userId) then Some st
  else
    let userId := to_str userId in
    match users st !! userId with
    | None => if inherited userId then None else Some st
    | Some user =>
        if holds_id (p_id payment) (transactions user) then Some st
        else
          match iso_date_of (JSNum.mul (p_created_at payment) (JSNum.of_Z 1000)) with
          | None => None
          | Some date =>
              let transaction := captured_transaction payment date in
              let st1 :=
                set_users (insert userId (record_in user transaction)) st in
              Some (push_payment
                      {| pay_tx := transaction; pay_userId := Some userId |} st1)
          end
    end.

(** [handlePaymentFailed] and [handleOrderPaid] only log. *)
Definition handlePaymentFailed (st : BudgetData) (payment : PaymentEntity)
  : option BudgetData := Some st.

Definition handleOrderPaid (st : BudgetData) (order : OrderEntity)
  : option BudgetData := Some st.

(** The secret the webhook signature is checked with:
    [process.env.RAZORPAY_WEBHOOK_SECRET || 'your_webhook_secret']. *)
Definition webhook_secret : string :=
  str_or RAZORPAY_WEBHOOK_SECRET placeholder_secret.

(** The [switch (event)] of the webhook; [None] when a handler throws or
    is handed an entity the payload does not have. *)
Definition dispatch (st : BudgetData) (r : WebhookReq) : option BudgetData :=
  if is_event r "payment.captured"
  then payment_entity r ≫= handlePaymentCaptured st
  else if is_event r "payment.failed"
  then payment_entity r ≫= handlePaymentFailed st
  else if is_event r "order.paid"
  then order_entity r ≫= handleOrderPaid st
  else Some st.

(** POST /api/webhook *)
Definition webhook (st : BudgetData) (r : WebhookReq) : BudgetData * Response :=
  let generated_signature := hmac_sha256_hex webhook_secret (wh_body_text r) in
  if negb (bool_decide (wh_signature r = Some generated_signature))
  then (st, fail 400 "Invalid signature")
  else if negb (wh_has_payload r)
  then (st, fail 500 "Webhook processing error")
  else
    match dispatch st r with
    | Some st' => (st', received)
    | None => (st, fail 500 "Webhook processing error")
    end.

(** POST /api/set-budget: the entry is stored before the analysis is
    made, so it stays stored when the analysis throws. *)
Definition set_budget (st : BudgetData) (r : SetBudgetReq)
  : BudgetData * Response :=
  if negb (truthy_str (sb_userId r)) then (st, fail 400 "UserId is required")
  else
    match sb_monthlyLimit r with
    | None => (st, fail 400 "Valid monthly limit is required")
    | Some monthlyLimit =>
        if (negb (JSNum.truthy monthlyLimit)
            || JSNum.leb monthlyLimit JSNum.zero)%bool
        then (st, fail 400 "Valid monthly limit is required")
        else
          let userId := to_str (sb_userId r) in
          let entry :=
            {| monthly := monthlyLimit; alerts := default true (sb_alerts r) |} in
          let st' := set_budgets (insert userId entry) st in
          (st',
           match analyzeBudget st' userId with
           | Some analysis => {| code := 200; body := BudgetUpdated entry analysis |}
           | None => fail 500 "Failed to set budget"
           end)
    end.

Inductive Request : Type :=
  | CreateUser (now : Z) (r : CreateUserReq)
  | CreateOrder (now : Z) (r : CreateOrderReq)
  | VerifyPayment (now : Z) (r : VerifyReq)
  | Webhook (r : WebhookReq)
  | SetBudget (r : SetBudgetReq).

Definition handle (st : BudgetData) (q : Request) : BudgetData * Response :=
  match q with
  | CreateUser now r => create_user now st r
  | CreateOrder now r => create_order now st r
  | VerifyPayment now r => verify_payment now st r
  | Webhook r => webhook st r
  | SetBudget r => set_budget st r
  end.

Definition run (st : BudgetData) (qs : list Request) : BudgetData :=
  fold_left (fun s q => fst (handle s q)) qs st.

End Server.


(** ** Read endpoints *)

(** GET /api/transactions/:userId; [None] is an error answer: 404 for
    a user that is not found, 500 where the lookup finds an inherited
    member, whose [transactions] cannot be spread.  Here the results of
    [parseInt] are used as they are: with a NaN offset or limit the
    bounds of the slice are NaN, which [slice] reads as 0. *)
Definition get_transactions (st : BudgetData) (userId : string)
  (q : TransactionsQuery) : option Page :=
  match users st !! userId with
  | None => None
  | Some user =>
      let transactions := newest_first tx_date (filtered q (transactions user)) in
      let startIndex := parseInt_or 0 (tq_offset q) in
      let limit := parseInt_or 50 (tq_limit q) in
      let endIndex :=
        match startIndex, limit with
        | Some a, Some b => Some (a + b)%Z
        | _, _ => None
        end in
      Some {| pg_transactions :=
                js_slice (default 0%Z startIndex) (default 0%Z endIndex)
                  transactions;
              pg_total := length transactions;
              pg_limit := limit;
              pg_offset := startIndex;
              pg_hasMore :=
                match endIndex with
                | Some e => (e <? Z.of_nat (length transactions))%Z
                | None => false
                end |}
  end.

End ApiServer.

(** * src/unnamed/part_002 *)

Module Dashboard.

(** [AIBudgetAnalyzer.getCategoryBreakdown]: the tally alone. *)
Definition getCategoryBreakdown (transactions : list Transaction)
  : list (string * num) :=
  ApiServer.tally transactions.

Record Analysis : Type := {
  currentSpent : num;
  budgetLimit : num;
  remainingBudget : num;
  spendingPercentage : num;
  status : string;
  categoryBreakdown : list (string * num) }.

(** [((spent / budget.monthly) * 100).toFixed(2)], as the number the
    string denotes when it is compared with a threshold: the quotient
    and the product are doubles, and [toFixed] prints the product to the
    nearest hundredth. *)
Definition percentage_of (spent limit : num) : num :=
  JSNum.toFixed2 (JSNum.mul (JSNum.div spent limit) (JSNum.of_Z 100)).

(** The status for the number [analysis.spendingPercentage] converts to
    when it is compared. *)
Definition assess (percentage : num) : string :=
  if JSNum.gtb percentage (JSNum.of_Z 90) then "critical"
  else if JSNum.gtb percentage (JSNum.of_Z 75) then "warning"
  else if JSNum.gtb percentage (JSNum.of_Z 50) then "moderate"
  else "good".

Definition default_user : User :=
  {| u_id := None; u_name := None; u_email := None;
     totalSpent := JSNum.zero; transactions := [];
     createdAt := None; lastActive := None |}.

Definition default_budget : Budget :=
  {| monthly := JSNum.of_Z 10000; alerts := true |}.

(** [AIBudgetAnalyzer.analyzeBudget(userId)]; [None] when it throws: an
    inherited member in the place of the user has no [transactions], and
    [getCategoryBreakdown(undefined)] throws.  A value that is no budget
    entry has an undefined [monthly], which is NaN in the arithmetic. *)
Definition analyzeBudget (st : BudgetData) (userId : string) : option Analysis :=
  if foreign (users st) userId then None
  else
    let user := default default_user (users st !! userId) in
    let limit :=
      if foreign_budget false (budgets st) userId then NaN
      else monthly (default default_budget (budgets st !! userId)) in
    let percentage := percentage_of (totalSpent user) limit in
    Some {| currentSpent := totalSpent user;
            budgetLimit := limit;
            remainingBudget := JSNum.sub limit (totalSpent user);
            spendingPercentage := percentage;
            status := assess (JSNum.read percentage);
            categoryBreakdown := getCategoryBreakdown (transactions user) |}.

Inductive Body : Type :=
  | Failure (error : string)
  | OrderCreated (orderId : string) (amount : num)
  | PaymentVerified (transaction : Transaction) (budgetAnalysis : Analysis)
  | Text (s : string)
  | BudgetUpdated (budget : Budget).

Record Response : Type := { code : nat; body : Body }.

Definition fail (c : nat) (msg : string) : Response :=
  {| code := c; body := Failure msg |}.

(** The secret written into the webhook handler. *)
Definition webhookSecret : string := "your_webhook_secret".

(** [res.status(200).send('OK')] *)
Definition ok : Response := {| code := 200; body := Text "OK" |}.

Section Server.

Context {hmac : Hmac} {gateway : Gateway}.

(** Second column of the credentials file, untrimmed; [None] when the
    line has no second column. *)
Variable RAZORPAY_KEY_SECRET : option string.

(** POST /create-order: no user is looked up or created. *)
Definition create_order (now : Z) (st : BudgetData) (r : CreateOrderReq)
  : BudgetData * Response :=
  match co_amount r with
  | None => (st, fail 400 "Invalid amount")
  | Some amount =>
      if (negb (JSNum.truthy amount) || JSNum.leb amount JSNum.zero)%bool
      then (st, fail 400 "Invalid amount")
      else
        let options :=
          {| oo_amount := JSNum.mul amount (JSNum.of_Z 100);
             oo_currency := "INR";
             oo_receipt := "receipt_" +:+ pretty now;
             oo_payment_capture := 1;
             oo_notes :=
               Some {| on_userId := str_or (co_userId r) "anonymous";
                       on_category := str_or (co_category r) "Other";
                       on_description := str_or (co_description r) "Budget payment";
                       on_createdBy := None |} |} in
        match orders_create options with
        | Some order =>
            (st, {| code := 200; body := OrderCreated (order_id order) amount |})
        | None => (st, fail 500 "Failed to create order")
        end
  end.

Definition verified_transaction (now : Z) (r : VerifyReq) : Transaction :=
  {| tx_id := razorpay_payment_id r;
     tx_orderId := razorpay_order_id r;
     tx_amount := parseFloat (v_amount r);
     tx_category := str_or (v_category r) "Other";
     tx_description := str_or (v_description r) "Payment";
     tx_date := now;
     tx_status := "success";
     tx_verified := None;
     tx_method := None |}.

(** POST /verify-payment: no field is required; an absent [userId] is
    the property name "undefined".  Where [budgetData.users[userId]]
    finds an inherited member, [user.transactions.push] throws before
    anything is stored, and the [catch] answers 500; it would do the
    same, after the record is stored, if the analysis threw. *)
Definition verify_payment (now : Z) (st : BudgetData) (r : VerifyReq)
  : BudgetData * Response :=
  match RAZORPAY_KEY_SECRET with
  | None => (st, fail 500 "Internal server error")
  | Some secret =>
      let generated_signature := hmac_sha256_hex secret (signed_message r) in
      if bool_decide (Some generated_signature = razorpay_signature r)
      then
        let userId := to_str (v_userId r) in
        if foreign (users st) userId then (st, fail 500 "Internal server error")
        else
          let user := default default_user (users st !! userId) in
          let transaction := verified_transaction now r in
          let st1 := set_users (insert userId (record_in user transaction)) st in
          let st2 :=
            push_payment {| pay_tx := transaction; pay_userId := None |} st1 in
          (st2,
           match analyzeBudget st2 userId with
           | Some analysis =>
               {| code := 200; body := PaymentVerified transaction analysis |}
           | None => fail 500 "Internal server error"
           end)
      else (st, fail 400 "Payment verification failed")
  end.

(** The transaction the webhook stores for a captured payment. *)
Definition captured_transaction (now : Z) (payment : PaymentEntity) (notes : Notes)
  : Transaction :=
  {| tx_id := p_id payment;
     tx_orderId := None;
     tx_amount := JSNum.div (p_amount payment) (JSNum.of_Z 100);
     tx_category := str_or (n_category notes) "Other";
     tx_description := str_or (n_description notes) "Webhook payment";
     tx_date := now;
     tx_status := "captured";
     tx_verified := None;
     tx_method := None |}.

(** The [switch (event)] of the webhook; [None] when it throws: for a
    payload without the entity or its notes, and where
    [budgetData.users[userId]] finds an inherited member, to whose
    [transactions] nothing can be pushed. *)
Definition dispatch (now : Z) (st : BudgetData) (r : WebhookReq)
  : option BudgetData :=
  if is_event r "payment.captured"
  then
    payment ← payment_entity r;
    notes ← p_notes payment;
    let userId := str_or (n_userId notes) "anonymous" in
    if foreign (users st) userId then None
    else
      let user := default default_user (users st !! userId) in
      Some (set_users
              (insert userId
                 (record_in user (captured_transaction now payment notes)))
              st)
  else if is_event r "payment.failed"
  then _ ← payment_entity r; Some st
  else Some st.

(** POST /webhook: a request whose signature does not match is answered
    200 'OK' like any other, without being processed. *)
Definition webhook (now : Z) (st : BudgetData) (r : WebhookReq)
  : BudgetData * Response :=
  let generated_signature := hmac_sha256_hex webhookSecret (wh_body_text r) in
  if bool_decide (wh_signature r = Some generated_signature)
  then
    match dispatch now st r with
    | Some st' => (st', ok)
    | None => (st, fail 500 "Error")
    end
  else (st, ok).

(** The body of POST /set-budget: nothing in it is checked. *)
Record LimitReq : Type := {
  lr_userId : option string;
  lr_monthlyLimit : option Value }.

(** POST /set-budget: [monthly: monthlyLimit || 10000] stores whatever
    truthy value the request holds; the entry keeps the number that
    value is in the arithmetic of the analysis. *)
Definition set_budget (st : BudgetData) (r : LimitReq)
  : BudgetData * Response :=
  let limit :=
    match lr_monthlyLimit r with
    | Some v => if is_truthy v then as_number v else JSNum.of_Z 10000
    | None => JSNum.of_Z 10000
    end in
  let entry := {| monthly := limit; alerts := true |} in
  (set_budgets (insert (to_str (lr_userId r)) entry) st,
   {| code := 200; body := BudgetUpdated entry |}).

End Server.


(** ** Reads and runs *)

(** GET /payments: the last 50 entries of the payment log and its length. *)
Definition payments_history (st : BudgetData) : list Payment * nat :=
  (js_slice_from (-50) (payments st), length (payments st)).

Section Runs.

Context {hmac : Hmac} {gateway : Gateway}.
Variable RAZORPAY_KEY_SECRET : option string.

Inductive Request : Type :=
  | CreateOrder (now : Z) (r : CreateOrderReq)
  | VerifyPayment (now : Z) (r : VerifyReq)
  | Webhook (now : Z) (r : WebhookReq)
  | SetBudget (r : LimitReq).

Definition handle (st : BudgetData) (q : Request) : BudgetData * Response :=
  match q with
  | CreateOrder now r => create_order now st r
  | VerifyPayment now r => verify_payment RAZORPAY_KEY_SECRET now st r
  | Webhook now r => webhook now st r
  | SetBudget r => set_budget st r
  end.

Definition run (st : BudgetData) (qs : list Request) : BudgetData :=
  fold_left (fun s q => fst (handle s q)) qs st.

End Runs.

End Dashboard.

(** * src/razorpay-render-deploy/server.js *)

Module RenderDeploy.

(** The [transaction] object of the verify-payment response:
    [{ id, amount: parseFloat(amount), status: 'success' }]. *)
Record Receipt : Type := {
  rc_id : string;
  rc_amount : num;
  rc_status : string }.

Inductive Body : Type :=
  | Failure (error : string)
  | UserCreated (user : User)
  | OrderCreated (orderId : string) (amount : num) (currency : string)
      (userId : string)
  | PaymentVerified (message : string) (transaction : Receipt)
  | WebhookReceived.

Record Response : Type := { code : nat; body : Body }.

Definition fail (c : nat) (msg : string) : Response :=
  {| code := c; body := Failure msg |}.

Section Server.

Context {hmac : Hmac} {gateway : Gateway}.

(** [process.env.RAZORPAY_KEY_SECRET] *)
Variable RAZORPAY_KEY_SECRET : option string.

(** POST /api/users; [if (budgetData.users[userId])] also holds for a
    name that finds an inherited member. *)
Definition create_user (now : Z) (st : BudgetData) (r : CreateUserReq)
  : BudgetData * Response :=
  if negb (truthy_str (cu_userId r)) then (st, fail 400 "UserId is required")
  else
    let userId := to_str (cu_userId r) in
    match users st !! userId with
    | Some _ => (st, fail 409 "User already exists")
    | None =>
        if inherited userId then (st, fail 409 "User already exists") else
        let newUser :=
          {| u_id := Some userId;
             u_name := Some (str_or (cu_name r) "User");
             u_email := Some (str_or (cu_email r) "");
             totalSpent := JSNum.zero; transactions := [];
             createdAt := Some now; lastActive := None |} in
        let st1 := set_users (insert userId newUser) st in
        let st2 :=
          set_analytics (fun a =>
            {| totalUsers := totalUsers a + 1;
               totalTransactions := totalTransactions a;
               totalAmount := totalAmount a |}) st1 in
        (st2, {| code := 200; body := UserCreated newUser |})
    end.

Definition auto_user (now : Z) (userId : string) : User :=
  {| u_id := Some userId;
     u_name := Some ("User " +:+ userId);
     u_email := Some "";
     totalSpent := JSNum.zero; transactions := [];
     createdAt := Some now; lastActive := None |}.

(** POST /api/create-order; no user is made up where
    [budgetData.users[userId]] finds an inherited member. *)
Definition create_order (now : Z) (st : BudgetData) (r : CreateOrderReq)
  : BudgetData * Response :=
  match co_amount r with
  | None => (st, fail 400 "Amount and userId are required")
  | Some amount =>
      if (negb (JSNum.truthy amount) || negb (truthy_str (co_userId r)))%bool
      then (st, fail 400 "Amount and userId are required")
      else
        let userId := to_str (co_userId r) in
        let st1 :=
          match users st !! userId with
          | Some _ => st
          | None =>
              if inherited userId then st
              else set_users (insert userId (auto_user now userId)) st
          end in
        let orderOptions :=
          {| oo_amount := JSNum.round (JSNum.mul amount (JSNum.of_Z 100));
             oo_currency := default "INR" (co_currency r);
             oo_receipt := "rcpt_" +:+ userId +:+ "_" +:+ pretty now;
             oo_payment_capture := 1;
             oo_notes := None |} in
        match orders_create orderOptions with
        | Some order =>
            (st1, {| code := 200;
                     body := OrderCreated (order_id order) amount
                               (default "INR" (co_currency r)) userId |})
        | None => (st1, fail 500 "Failed to create payment order")
        end
  end.

(** POST /api/verify-payment: the ledger is written only [if (user)],
    and the success response is sent whether it is or not.  An inherited
    member passes [if (user)]; [user.transactions.push] then throws
    before anything is stored, and the [catch] answers 500. *)
Definition verify_payment (now : Z) (st : BudgetData) (r : VerifyReq)
  : BudgetData * Response :=
  if negb (truthy_str (razorpay_order_id r) && truthy_str (razorpay_payment_id r)
           && truthy_str (razorpay_signature r) && truthy_str (v_userId r))
  then (st, fail 400 "Missing required payment data")
  else
    match RAZORPAY_KEY_SECRET with
    | None => (st, fail 500 "Payment verification failed")
    | Some secret =>
        let generated_signature := hmac_sha256_hex secret (signed_message r) in
        if negb (bool_decide (Some generated_signature = razorpay_signature r))
        then (st, fail 400 "Payment verification failed")
        else if foreign (users st) (to_str (v_userId r))
        then (st, fail 500 "Payment verification failed")
        else
          let userId := to_str (v_userId r) in
          let st' :=
            match users st !! userId with
            | Some user =>
                let paymentAmount :=
                  JSNum.or_else (parseFloat (v_amount r)) JSNum.zero in
                let transaction :=
                  {| tx_id := razorpay_payment_id r;
                     tx_orderId := razorpay_order_id r;
                     tx_amount := paymentAmount;
                     tx_category := str_or (v_category r) "Payment";
                     tx_description := str_or (v_description r) "Payment";
                     tx_date := now;
                     tx_status := "success";
                     tx_verified := None;
                     tx_method := None |} in
                let st1 :=
                  set_users (insert userId (record_in user transaction)) st in
                let st2 :=
                  push_payment
                    {| pay_tx := transaction; pay_userId := Some userId |} st1 in
                set_analytics (fun a =>
                  {| totalUsers := totalUsers a;
                     totalTransactions := totalTransactions a + 1;
                     totalAmount := JSNum.add (totalAmount a) paymentAmount |})
                  st2
            | None => st
            end in
          (st', {| code := 200;
                   body := PaymentVerified "Payment verified successfully"
                             {| rc_id := to_str (razorpay_payment_id r);
                                rc_amount := parseFloat (v_amount r);
                                rc_status := "success" |} |})
    end.

(** POST /api/webhook *)
Definition webhook (st : BudgetData) (r : WebhookReq) : BudgetData * Response :=
  (st, {| code := 200; body := WebhookReceived |}).

End Server.


(** ** Runs *)

Section Runs.

Context {hmac : Hmac} {gateway : Gateway}.
Variable RAZORPAY_KEY_SECRET : option string.

Inductive Request : Type :=
  | CreateUser (now : Z) (r : CreateUserReq)
  | CreateOrder (now : Z) (r : CreateOrderReq)
  | VerifyPayment (now : Z) (r : VerifyReq)
  | Webhook (r : WebhookReq).

Definition handle (st : BudgetData) (q : Request) : BudgetData * Response :=
  match q with
  | CreateUser now r => create_user now st r
  | CreateOrder now r => create_order now st r
  | VerifyPayment now r => verify_payment RAZORPAY_KEY_SECRET now st r
  | Webhook r => webhook st r
  end.

Definition run (st : BudgetData) (qs : list Request) : BudgetData :=
  fold_left (fun s q => fst (handle s q)) qs st.

End Runs.

End RenderDeploy.

(** * src/budget-tracker-pure-api.js, second server (AI Agent Budget Tracker) *)

Module Tracker.

(** A transaction of this server: amounts stay in paise. *)
Record Entry : Type := {
  e_id : option string;
  e_orderId : option string;
  e_userId : option string;
  e_amount : num;
  e_currency : option string;
  e_status : option string;
  e_category : string;
  e_description : string;
  e_timestamp : Z;
  e_method : option string;
  e_source : option string }.

Record Account : Type := {
  a_id : string;
  transactions : list Entry;
  a_createdAt : Z }.

(** [budgetData.budgetLimits]; a limit is whatever value the last
    request stored there. *)
Record Limits : Type := { daily : Value; weekly : Value; monthly : Value }.

(** [budgetData] of this server. *)
Record Data : Type := {
  users : gmap string Account;
  log : list Entry;
  budgetLimits : Limits }.

Definition initial : Data :=
  {| users := ∅; log := [];
     budgetLimits := {| daily := number (JSNum.of_Z 1000);
                        weekly := number (JSNum.of_Z 5000);
                        monthly := number (JSNum.of_Z 20000) |} |}.

(** What [razorpay.payments.fetch] resolves to, as far as it is read. *)
Record Fetched : Type := {
  f_amount : num;
  f_currency : option string;
  f_status : option string;
  f_method : option string;
  f_notes : option Notes }.

(** The options of [razorpay.orders.create]; [notes.description] is the
    request's, present or not. *)
Record Options : Type := {
  o_amount : num;
  o_currency : string;
  o_receipt : string;
  o_userId : string;
  o_category : string;
  o_description : option string }.

(** The two gateway calls; [None] is a rejected promise. *)
Class Razorpay := {
  create : Options → option Order;
  fetch : option string → option Fetched }.

(** [payload.payment.entity] as the webhook of this server reads it. *)
Record Captured : Type := {
  c_payment : PaymentEntity;
  c_currency : option string;
  c_method : option string }.

Record Delivery : Type := {
  d_signature : option string;
  d_body_text : string;
  d_event : option string;
  d_has_payload : bool;
  d_payment : option Captured;
  d_order : option OrderEntity }.

(** The body of POST /api/budget-limits: nothing in it is checked. *)
Record LimitsReq : Type := {
  l_daily : option Value;
  l_weekly : option Value;
  l_monthly : option Value }.

Inductive Body : Type :=
  | Failure (error : string)
  | OrderCreated (order : Order)
  | PaymentVerified (transaction : Entry)
  | Status (s : string)
  | Dashboard (totalTransactions : nat) (recentTransactions : list Entry)
      (limits : Limits)
  | LimitsUpdated (limits : Limits).

Record Response : Type := { code : nat; body : Body }.

Definition fail (c : nat) (msg : string) : Response :=
  {| code := c; body := Failure msg |}.

Definition push_log (t : Entry) (st : Data) : Data :=
  {| users := users st; log := log st ++ [t]; budgetLimits := budgetLimits st |}.

Definition set_account (userId : string) (a : Account) (st : Data) : Data :=
  {| users := <[userId:=a]> (users st); log := log st;
     budgetLimits := budgetLimits st |}.

(** [user.transactions.push(transaction)] *)
Definition push_entry (t : Entry) (a : Account) : Account :=
  {| a_id := a_id a; transactions := transactions a ++ [t];
     a_createdAt := a_createdAt a |}.

Section Server.

Context {hmac : Hmac} {razorpay : Razorpay}.

(** [process.env.RAZORPAY_KEY_SECRET] and
    [process.env.RAZORPAY_WEBHOOK_SECRET] *)
Variable RAZORPAY_KEY_SECRET : option string.
Variable RAZORPAY_WEBHOOK_SECRET : option string.

Definition key_secret : string :=
  str_or RAZORPAY_KEY_SECRET "your_razorpay_key_secret".

Definition WEBHOOK_SECRET : string :=
  str_or RAZORPAY_WEBHOOK_SECRET "your_webhook_secret".

(** POST /api/create-order; no user is made up where
    [budgetData.users[userId]] finds an inherited member. *)
Definition create_order (now : Z) (st : Data) (r : CreateOrderReq)
  : Data * Response :=
  match co_amount r with
  | None => (st, fail 400 "Amount and userId are required")
  | Some amount =>
      if (negb (JSNum.truthy amount) || negb (truthy_str (co_userId r)))%bool
      then (st, fail 400 "Amount and userId are required")
      else
        let userId := to_str (co_userId r) in
        let st1 :=
          match users st !! userId with
          | Some _ => st
          | None =>
              if inherited userId then st
              else
                set_account userId
                  {| a_id := userId; transactions := []; a_createdAt := now |} st
          end in
        let options :=
          {| o_amount := amount;
             o_currency := default "INR" (co_currency r);
             o_receipt := "budget_" +:+ userId +:+ "_" +:+ pretty now;
             o_userId := userId;
             o_category := default "general" (co_category r);
             o_description := co_description r |} in
        match create options with
        | Some order => (st1, {| code := 200; body := OrderCreated order |})
        | None => (st1, fail 500 "Failed to create order")
        end
  end.

(** POST /api/verify-payment: the transaction is pushed to the global
    list first and to the user's list second; the second push throws
    when [userId] names no user, and when it names an inherited member,
    which has no [transactions]. *)
Definition verify_payment (now : Z) (st : Data) (r : VerifyReq)
  : Data * Response :=
  let expectedSign := hmac_sha256_hex key_secret (signed_message r) in
  if bool_decide (razorpay_signature r = Some expectedSign)
  then
    match fetch (razorpay_payment_id r) with
    | None => (st, fail 500 "Payment verification failed")
    | Some payment =>
        let transaction :=
          {| e_id := razorpay_payment_id r;
             e_orderId := razorpay_order_id r;
             e_userId := v_userId r;
             e_amount := f_amount payment;
             e_currency := f_currency payment;
             e_status := f_status payment;
             e_category := str_or (f_notes payment ≫= n_category) "general";
             e_description := str_or (f_notes payment ≫= n_description) "Payment";
             e_timestamp := now;
             e_method := f_method payment;
             e_source := None |} in
        let st1 := push_log transaction st in
        let userId := to_str (v_userId r) in
        match users st1 !! userId with
        | None => (st1, fail 500 "Payment verification failed")
        | Some user =>
            (set_account userId (push_entry transaction user) st1,
             {| code := 200; body := PaymentVerified transaction |})
        end
    end
  else (st, fail 400 "Invalid payment signature").

(** [handlePaymentCaptured(payment)]: the state it leaves, and whether it
    returns.  It throws after the push to the global list where
    [budgetData.users[userId]] finds an inherited member, which passes
    the [if] and has no [transactions]. *)
Definition handlePaymentCaptured (now : Z) (st : Data) (captured : Captured)
  : Data * bool :=
  let payment := c_payment captured in
  let userId := p_notes payment ≫= n_userId in
  if negb (truthy_str userId) then (st, true)
  else
    let transaction :=
      {| e_id := p_id payment;
         e_orderId := p_order_id payment;
         e_userId := userId;
         e_amount := p_amount payment;
         e_currency := c_currency captured;
         e_status := Some "captured";
         e_category := str_or (p_notes payment ≫= n_category) "general";
         e_description := str_or (p_notes payment ≫= n_description) "Payment";
         e_timestamp := now;
         e_method := c_method captured;
         e_source := Some "webhook" |} in
    let st1 := push_log transaction st in
    match users st1 !! to_str userId with
    | Some user =>
        (set_account (to_str userId) (push_entry transaction user) st1, true)
    | None => (st1, negb (inherited (to_str userId)))
    end.

(** POST /api/razorpay-webhook; the entities are read from the payload
    before the [switch], and a handler given an absent entity throws. *)
Definition webhook (now : Z) (st : Data) (d : Delivery) : Data * Response :=
  let expectedSignature := hmac_sha256_hex WEBHOOK_SECRET (d_body_text d) in
  if negb (bool_decide (d_signature d = Some expectedSignature))
  then (st, fail 400 "Invalid signature")
  else if negb (d_has_payload d)
  then (st, fail 500 "Webhook processing failed")
  else
    let done := {| code := 200; body := Status "ok" |} in
    let thrown := fail 500 "Webhook processing failed" in
    if bool_decide (d_event d = Some "payment.captured")
    then match d_payment d with
         | Some captured =>
             let (st', returned) := handlePaymentCaptured now st captured in
             (st', if returned then done else thrown)
         | None => (st, thrown)
         end
    else if bool_decide (d_event d = Some "payment.failed")
    then match d_payment d with
         | Some _ => (st, done)
         | None => (st, thrown)
         end
    else if bool_decide (d_event d = Some "order.paid")
    then match d_order d with
         | Some _ => (st, done)
         | None => (st, thrown)
         end
    else (st, done).

(** GET /api/dashboard/:userId.  [Array.prototype.sort] sorts the
    user's stored list in place, so the request changes [budgetData].
    The analysis of the answer depends on the calendar and is left out;
    it throws for an inherited member in the place of the user. *)
Definition dashboard (st : Data) (userId : string) : Data * Response :=
  match users st !! userId with
  | None =>
      if inherited userId then (st, fail 500 "Failed to fetch dashboard data")
      else (st, fail 404 "User not found")
  | Some user =>
      let sorted := newest_first e_timestamp (transactions user) in
      let user' :=
        {| a_id := a_id user; transactions := sorted;
           a_createdAt := a_createdAt user |} in
      (set_account userId user' st,
       {| code := 200;
          body := Dashboard (length sorted) (js_slice 0 10 sorted)
                    (budgetLimits st) |})
  end.

(** POST /api/budget-limits:
    [if (daily) budgetData.budgetLimits.daily = daily] stores whatever
    truthy value the request holds. *)
Definition update_limit (given : option Value) (current : Value) : Value :=
  match given with
  | Some v => if is_truthy v then v else current
  | None => current
  end.

Definition budget_limits (st : Data) (r : LimitsReq) : Data * Response :=
  let limits :=
    {| daily := update_limit (l_daily r) (daily (budgetLimits st));
       weekly := update_limit (l_weekly r) (weekly (budgetLimits st));
       monthly := update_limit (l_monthly r) (monthly (budgetLimits st)) |} in
  ({| users := users st; log := log st; budgetLimits := limits |},
   {| code := 200; body := LimitsUpdated limits |}).

Inductive Request : Type :=
  | CreateOrder (now : Z) (r : CreateOrderReq)
  | VerifyPayment (now : Z) (r : VerifyReq)
  | Webhook (now : Z) (d : Delivery)
  | GetDashboard (userId : string)
  | BudgetLimits (r : LimitsReq).

Definition handle (st : Data) (q : Request) : Data * Response :=
  match q with
  | CreateOrder now r => create_order now st r
  | VerifyPayment now r => verify_payment now st r
  | Webhook now d => webhook now st d
  | GetDashboard userId => dashboard st userId
  | BudgetLimits r => budget_limits st r
  end.

Definition run (st : Data) (qs : list Request) : Data :=
  fold_left (fun s q => fst (handle s q)) qs st.

End Server.

End Tracker.


(** * Vocabulary for the properties of whole runs *)

(** The transactions the payment log holds for a user, in log order. *)
Definition logged_for (userId : string) (ps : list Payment) : list Transaction :=
  map pay_tx (List.filter (fun p => bool_decide (pay_userId p = Some userId)) ps).

(** The log entries that came in through verify-payment. *)
Definition confirmed (ps : list Payment) : list Payment :=
  List.filter (fun p => String.eqb (tx_status (pay_tx p)) "success") ps.

(** Sum of the amounts of log entries, in log order. *)
Definition amount_sum (ps : list Payment) : num :=
  fold_left (fun a p => JSNum.add a (tx_amount (pay_tx p))) ps JSNum.zero.

(** What one request does to users, payment log and counters: nothing;
    or one new user without transactions, counted or not in
    [totalUsers], under a name that is not that of an inherited member;
    or one transaction recorded for one user, logged, and counted when
    it is a client confirmation, which carries the payment id.
    [captures] tells whether the server records webhook captures. *)
Inductive effect (captures : bool) (st st' : BudgetData) : Prop :=
  | effect_none :
      users st' = users st → payments st' = payments st →
      analytics st' = analytics st →
      effect captures st st'
  | effect_user (k : string) (u : User) :
      users st !! k = None → inherited k = false →
      users st' = <[k:=u]> (users st) →
      u_id u = Some k → transactions u = [] → totalSpent u = JSNum.zero →
      payments st' = payments st →
      totalTransactions (analytics st') = totalTransactions (analytics st) →
      totalAmount (analytics st') = totalAmount (analytics st) →
      (totalUsers (analytics st) ≤ totalUsers (analytics st')
       ≤ totalUsers (analytics st) + 1)%Z →
      effect captures st st'
  | effect_record (k : string) (new : User) (t : Transaction) :
      foreign (users st) k = false →
      users st' = <[k:=new]> (users st) →
      u_id new = from_option u_id (Some k) (users st !! k) →
      transactions new = entries st k ++ [t] →
      totalSpent new = JSNum.add (spent_by st k) (tx_amount t) →
      payments st' = payments st ++ [{| pay_tx := t; pay_userId := Some k |}] →
      totalUsers (analytics st') = totalUsers (analytics st) →
      (tx_status t = "success" ∧ is_Some (tx_id t)
       ∧ totalTransactions (analytics st')
         = (totalTransactions (analytics st) + 1)%Z
       ∧ totalAmount (analytics st')
         = JSNum.add (totalAmount (analytics st)) (tx_amount t))
      ∨ (captures = true ∧ tx_status t = "captured"
         ∧ totalTransactions (analytics st') = totalTransactions (analytics st)
         ∧ totalAmount (analytics st') = totalAmount (analytics st)) →
      effect captures st st'.

(** A stored transaction is counted, and carries the payment id when it
    is a client confirmation; a webhook capture carries whatever id the
    payload had. *)
Definition wellformed (t : Transaction) : Prop :=
  counted t = true ∧ (tx_status t = "success" → is_Some (tx_id t)).

(** The state is what a run from the empty [budgetData] can produce:
    keys and ids agree, no user goes by the name of an inherited member,
    ledgers hold well-formed transactions, the payment log mirrors the
    ledgers, the counters follow the confirmations in the log, and no
    more users are counted than stored. *)
Record coherent (st : BudgetData) : Prop := {
  coh_ids : ∀ k u, users st !! k = Some u → u_id u = Some k;
  coh_own : ∀ k, is_Some (users st !! k) → inherited k = false;
  coh_entries : ∀ k, Forall wellformed (entries st k);
  coh_log : ∀ k, logged_for k (payments st) = entries st k;
  coh_count :
    totalTransactions (analytics st)
    = Z.of_nat (length (confirmed (payments st)));
  coh_amount :
    totalAmount (analytics st) = amount_sum (confirmed (payments st));
  coh_users :
    (0 ≤ totalUsers (analytics st) ≤ Z.of_nat (size (users st)))%Z }.

(** A request to POST /api/users that has been answered 200. *)
Definition pure_signup (q : PureApi.Request) (answer : PureApi.Response)
  : bool :=
  match q with
  | PureApi.CreateUser _ _ => (PureApi.code answer =? 200)%nat
  | _ => false
  end.

Definition api_signup (q : ApiServer.Request) (answer : ApiServer.Response)
  : bool :=
  match q with
  | ApiServer.CreateUser _ _ => (ApiServer.code answer =? 200)%nat
  | _ => false
  end.

Definition render_signup (q : RenderDeploy.Request)
  (answer : RenderDeploy.Response) : bool :=
  match q with
  | RenderDeploy.CreateUser _ _ => (RenderDeploy.code answer =? 200)%nat
  | _ => false
  end.

(** ** Vocabulary for the second server of budget-tracker-pure-api.js *)

(** The entries of the global transaction list made out to a user. *)
Definition made_out_to (userId : string) (l : list Tracker.Entry)
  : list Tracker.Entry :=
  List.filter (λ e, String.eqb (to_str (Tracker.e_userId e)) userId) l.

(** Every ledger holds only entries of the global list that are made out
    to its user. *)
Definition ledgers_within_log (st : Tracker.Data) : Prop :=
  ∀ uid account,
    Tracker.users st !! uid = Some account →
    Tracker.transactions account ⊆+ made_out_to uid (Tracker.log st).


(** A user's list of transactions in the second server; empty for a
    user that does not exist. *)
Definition tracked (st : Tracker.Data) (userId : string) : list Tracker.Entry :=
  from_option Tracker.transactions [] (Tracker.users st !! userId).

(** ** Requests that carry a valid signature *)

Section Signed.

Context {hmac : Hmac}.

(** The client's signature is the HMAC of [order_id|payment_id]. *)
Definition confirms (secret : string) (r : VerifyReq) : Prop :=
  razorpay_signature r = Some (hmac_sha256_hex secret (signed_message r)).

Definition pure_signed (key_secret : string) (q : PureApi.Request) : Prop :=
  match q with
  | PureApi.VerifyPayment _ r => confirms key_secret r
  | _ => False
  end.

Definition api_signed (key_secret webhook_env : option string)
  (q : ApiServer.Request) : Prop :=
  match q with
  | ApiServer.VerifyPayment _ r => ∃ secret, key_secret = Some secret ∧ confirms secret r
  | ApiServer.Webhook r =>
      wh_signature r
      = Some (hmac_sha256_hex (ApiServer.webhook_secret webhook_env) (wh_body_text r))
  | _ => False
  end.

Definition dash_signed (key_secret : option string) (q : Dashboard.Request)
  : Prop :=
  match q with
  | Dashboard.VerifyPayment _ r => ∃ secret, key_secret = Some secret ∧ confirms secret r
  | Dashboard.Webhook _ r =>
      wh_signature r
      = Some (hmac_sha256_hex Dashboard.webhookSecret (wh_body_text r))
  | _ => False
  end.

Definition render_signed (key_secret : option string) (q : RenderDeploy.Request)
  : Prop :=
  match q with
  | RenderDeploy.VerifyPayment _ r =>
      ∃ secret, key_secret = Some secret ∧ confirms secret r
  | _ => False
  end.

Definition tracker_signed (key_env webhook_env : option string)
  (q : Tracker.Request) : Prop :=
  match q with
  | Tracker.VerifyPayment _ r => confirms (Tracker.key_secret key_env) r
  | Tracker.Webhook _ d =>
      Tracker.d_signature d
      = Some (hmac_sha256_hex (Tracker.WEBHOOK_SECRET webhook_env)
                (Tracker.d_body_text d))
  | _ => False
  end.

End Signed.

(** ** Vocabulary for the transaction listings *)

(** What the category and status filters of a listing let through. *)
Definition passes (q : TransactionsQuery) (t : Transaction) : bool :=
  (implb (selects (tq_category q))
         (String.eqb (tx_category t) (to_str (tq_category q)))
   && implb (selects (tq_status q))
            (String.eqb (tx_status t) (to_str (tq_status q))))%bool.

(** No transaction stands before a newer one. *)
Definition newest_to_oldest (l : list Transaction) : Prop :=
  StronglySorted (λ a b, (tx_date b ≤ tx_date a)%Z) l.

(** The query [q] asked with the given offset and limit. *)
Definition window (offset limit : Z) (q : TransactionsQuery) : TransactionsQuery :=
  {| tq_limit := Some (Some limit); tq_offset := Some (Some offset);
     tq_category := tq_category q; tq_status := tq_status q |}.

(** ** Vocabulary for the category breakdown *)

(** [transaction.category || 'Other'] *)
Definition category_of (t : Transaction) : string :=
  if String.eqb (tx_category t) "" then "Other" else tx_category t.

(** A property name of the tally that is neither the name of an
    inherited member nor made of digits, as every array index is. *)
Definition is_digit (c : Ascii.ascii) : bool :=
  ((48 <=? Ascii.nat_of_ascii c)%nat && (Ascii.nat_of_ascii c <=? 57)%nat)%bool.

Fixpoint digits_only (s : string) : bool :=
  match s with
  | EmptyString => true
  | String c rest => (is_digit c && digits_only rest)%bool
  end.

Definition plain (name : string) : bool :=
  negb (inherited name || digits_only name).

Definition plain_categories (l : list Transaction) : Prop :=
  Forall (λ t, plain (category_of t) = true) l.


(** A number that a sum of finite amounts can be: a double, or
    infinite when the sum has overflown. *)
Definition summed (a : num) : Prop :=
  match a with
  | Finite q => JSNum.on_grid q
  | NaN => False
  | _ => True
  end.

(** [a] may stand before [b] in a list sorted descending by amount. *)
Definition desc (a b : string * num) : Prop := JSNum.leb b.2 a.2 = true.

(** A goal settled by the outcome [E] of a comparison of rationals. *)
Ltac by_compare E :=
  try done;
  first [apply Qeq_alt in E | apply Qlt_alt in E | apply Qgt_alt in E]; lra.


(** * Concrete data for running the handlers *)

Module Examples.

(** A stand-in for the keyed hash: any function of key and message will
    do for running the handlers, none of which looks inside a digest. *)
Definition tag : Hmac := fun key message => key +:+ "/" +:+ message.

(** A gateway that accepts every order. *)
Definition accepting : Gateway :=
  fun options =>
    Some {| order_id := "order_a"; order_receipt := Some (oo_receipt options);
            order_created_at := Some 1700000000%Z |}.

(** A gateway that is unreachable. *)
Definition unreachable : Gateway := fun _ => None.

Definition secret : string := "s3cret".

Definition amount_of (z : Z) : option num := Some (JSNum.of_Z z).

(** A client confirmation of payment [pay_a] of order [order_a], signed
    with [signature]. *)
Definition confirmation (userId : string) (amount : Z) (signature : string)
  : VerifyReq :=
  {| razorpay_order_id := Some "order_a";
     razorpay_payment_id := Some "pay_a";
     razorpay_signature := Some signature;
     v_userId := Some userId;
     v_amount := amount_of amount;
     v_category := Some "Food";
     v_description := None |}.

Definition good_signature : string := tag secret "order_a|pay_a".

Definition order_request (userId : string) (amount : Z) : CreateOrderReq :=
  {| co_amount := amount_of amount; co_userId := Some userId;
     co_category := Some "Food"; co_description := None;
     co_currency := None |}.

Definition signup (userId : string) (budget : option num) : CreateUserReq :=
  {| cu_userId := Some userId; cu_name := None; cu_email := None;
     cu_initialBudget := budget |}.

(** A captured payment of 50000 paise with the given notes. *)
Definition capture (notes : option Notes) : PaymentEntity :=
  {| p_id := Some "pay_a"; p_order_id := Some "order_a";
     p_amount := JSNum.of_Z 50000; p_notes := notes;
     p_created_at := JSNum.of_Z 1700000000 |}.

Definition notes_for (userId : string) : option Notes :=
  Some {| n_userId := Some userId; n_category := Some "Food";
          n_description := None |}.

(** A webhook delivery of [event] carrying [payment], with the given
    signature header. *)
Definition delivery (event : string) (payment : PaymentEntity)
  (signature : option string) : WebhookReq :=
  {| wh_signature := signature;
     wh_body_text := "{...}";
     wh_event := Some event;
     wh_has_payload := true;
     wh_payment := Some payment;
     wh_order := None |}.

(** The header a gateway that knows only the placeholder secret sends. *)
Definition placeholder_signature : option string :=
  Some (tag "your_webhook_secret" "{...}").

(** The API server (part_000) after user u1 has signed up. *)
Definition registered : BudgetData :=
  fst (ApiServer.create_user 0 initial (signup "u1" None)).


(** The dashboard server (part_002) after the budget of u1 has been set
    to [limit] and u1 has confirmed one payment of [spent]. *)
Definition dash_ledger (spent limit : Z) : BudgetData :=
  let st :=
    fst (Dashboard.set_budget initial
           {| Dashboard.lr_userId := Some "u1";
              Dashboard.lr_monthlyLimit := Some (number (JSNum.of_Z limit)) |}) in
  fst (Dashboard.verify_payment (hmac := tag) (Some secret) 1 st
         (confirmation "u1" spent good_signature)).

(** One purchase in category [category]. *)
Definition purchase (category : string) (amount : Z) : Transaction :=
  {| tx_id := Some ("pay_" +:+ category); tx_orderId := None;
     tx_amount := JSNum.of_Z amount; tx_category := category;
     tx_description := "Payment"; tx_date := 0; tx_status := "success";
     tx_verified := Some true; tx_method := Some "razorpay" |}.

End Examples.

Module Samples.

(** A client confirmation by u1 of payment [pid] of order [order_a]. *)
Definition paid (pid category : string) (amount : Z) : VerifyReq :=
  {| razorpay_order_id := Some "order_a";
     razorpay_payment_id := Some pid;
     razorpay_signature :=
       Some (Examples.tag Examples.secret ("order_a|" +:+ pid));
     v_userId := Some "u1";
     v_amount := Examples.amount_of amount;
     v_category := Some category;
     v_description := None |}.

(** The pure API server after u1 has confirmed five payments, served at
    the times 10, 30, 20, 50 and 40. *)
Definition five_payments : BudgetData :=
  PureApi.run (hmac := Examples.tag) (gateway := Examples.accepting)
    Examples.secret None initial
    [PureApi.VerifyPayment 10 (paid "pay_1" "Food" 100);
     PureApi.VerifyPayment 30 (paid "pay_2" "Travel" 250);
     PureApi.VerifyPayment 20 (paid "pay_3" "Food" 40);
     PureApi.VerifyPayment 50 (paid "pay_4" "Books" 75);
     PureApi.VerifyPayment 40 (paid "pay_5" "Food" 60)].

(** The same five confirmations served by the API server (part_000). *)
Definition five_payments_api : BudgetData :=
  ApiServer.run (hmac := Examples.tag) (gateway := Examples.accepting)
    (Some Examples.secret) None initial
    [ApiServer.VerifyPayment 10 (paid "pay_1" "Food" 100);
     ApiServer.VerifyPayment 30 (paid "pay_2" "Travel" 250);
     ApiServer.VerifyPayment 20 (paid "pay_3" "Food" 40);
     ApiServer.VerifyPayment 50 (paid "pay_4" "Books" 75);
     ApiServer.VerifyPayment 40 (paid "pay_5" "Food" 60)].

(** A query without parameters, and one for a category. *)
Definition everything : TransactionsQuery :=
  {| tq_limit := None; tq_offset := None; tq_category := None;
     tq_status := None |}.

Definition only (category : string) : TransactionsQuery :=
  {| tq_limit := None; tq_offset := None; tq_category := Some category;
     tq_status := None |}.

(** A gateway of the second server of budget-tracker-pure-api.js that
    knows every payment as a captured card payment of 50000 paise. *)
Definition razorpay : Tracker.Razorpay :=
  {| Tracker.create := λ _,
       Some {| order_id := "order_a"; order_receipt := None;
               order_created_at := None |};
     Tracker.fetch := λ _,
       Some {| Tracker.f_amount := JSNum.of_Z 50000;
               Tracker.f_currency := Some "INR";
               Tracker.f_status := Some "captured";
               Tracker.f_method := Some "card";
               Tracker.f_notes := None |} |}.

(** A confirmation signed with the key secret this server falls back to. *)
Definition tracked (pid : string) : VerifyReq :=
  {| razorpay_order_id := Some "order_a";
     razorpay_payment_id := Some pid;
     razorpay_signature :=
       Some (Examples.tag "your_razorpay_key_secret" ("order_a|" +:+ pid));
     v_userId := Some "u1";
     v_amount := None; v_category := None; v_description := None |}.

(** The second server after u1 has asked for an order and confirmed
    three payments, served at the times 10, 30 and 20. *)
Definition three_tracked : Tracker.Data :=
  Tracker.run (hmac := Examples.tag) (razorpay := razorpay) None None
    Tracker.initial
    [Tracker.CreateOrder 1 (Examples.order_request "u1" 500);
     Tracker.VerifyPayment 10 (tracked "pay_1");
     Tracker.VerifyPayment 30 (tracked "pay_2");
     Tracker.VerifyPayment 20 (tracked "pay_3")].

End Samples.

(** * Properties of the number model *)




(** [toFixed(2)] sees the number, not the fraction that denotes it. *)
Lemma round2_comp (p q : Q) : (p == q)%Q -> JSNum.round2 p = JSNum.round2 q.
Proof.
  intros E. unfold JSNum.round2, JSNum.hundredths.
  assert (Qle_bool 0 p = Qle_bool 0 q) as ->.
  { destruct (Qle_bool 0 q) eqn:Hq.
    - apply Qle_bool_iff. rewrite E. by apply Qle_bool_iff.
    - apply not_true_is_false. intros Hp. apply Qle_bool_iff in Hp.
      rewrite E in Hp. apply Qle_bool_iff in Hp. congruence. }
  assert (Qfloor (p * 100 + (1 # 2)) = Qfloor (q * 100 + (1 # 2))) as ->
    by (apply Qfloor_comp; rewrite E; reflexivity).
  assert (Qfloor (- p * 100 + (1 # 2)) = Qfloor (- q * 100 + (1 # 2))) as ->
    by (apply Qfloor_comp; rewrite E; reflexivity).
  reflexivity.
Qed.

(** ** Rounding to the nearest double *)

Lemma pow2_pos e : (0 < JSNum.pow2 e)%Q.
Proof.
  unfold JSNum.pow2. destruct (0 <=? e)%Z eqn:E.
  - apply Z.leb_le in E. change 0%Q with (inject_Z 0). rewrite <- Zlt_Qlt.
    by apply Z.pow_pos_nonneg.
  - reflexivity.
Qed.

Lemma pow2_neg e : (e < 0)%Z → (JSNum.pow2 e == / inject_Z (2 ^ (- e)))%Q.
Proof.
  intros He. unfold JSNum.pow2. rewrite (proj2 (Z.leb_gt 0 e)) by done.
  assert (0 < 2 ^ (- e))%Z as Hp by (apply Z.pow_pos_nonneg; lia).
  destruct (2 ^ (- e))%Z as [|p|p] eqn:E; try lia.
  simpl. reflexivity.
Qed.

Lemma pow2_add a b : (JSNum.pow2 (a + b) == JSNum.pow2 a * JSNum.pow2 b)%Q.
Proof.
  assert (∀ n : Z, (0 <= n)%Z → JSNum.pow2 n = inject_Z (2 ^ n)) as Hnn.
  { intros n Hn. unfold JSNum.pow2. by rewrite (proj2 (Z.leb_le 0 n)). }
  assert (∀ n : Z, (0 < inject_Z (2 ^ n))%Q ∨ (n < 0)%Z) as Hpos.
  { intros n. destruct (Z.le_gt_cases 0 n); [left|by right].
    change 0%Q with (inject_Z 0). rewrite <- Zlt_Qlt. by apply Z.pow_pos_nonneg. }
  assert (∀ n : Z, (0 <= n)%Z → ¬ (inject_Z (2 ^ n) == 0)%Q) as Hne.
  { intros n Hn. destruct (Hpos n); [lra|lia]. }
  assert (∀ x y : Z, (0 <= x)%Z → (0 <= y)%Z →
            (inject_Z (2 ^ (x + y)) == inject_Z (2 ^ x) * inject_Z (2 ^ y))%Q) as Hmul.
  { intros x y Hx Hy. rewrite Z.pow_add_r by done. rewrite inject_Z_mult. reflexivity. }
  destruct (Z.le_gt_cases 0 a) as [Ha|Ha], (Z.le_gt_cases 0 b) as [Hb|Hb].
  - rewrite !Hnn by lia. by apply Hmul.
  - rewrite (Hnn a) by done. rewrite (pow2_neg b) by done.
    destruct (Z.le_gt_cases 0 (a + b)) as [Hs|Hs].
    + rewrite Hnn by done.
      assert (inject_Z (2 ^ a) == inject_Z (2 ^ (a + b)) * inject_Z (2 ^ (- b)))%Q as ->.
      { rewrite <- Hmul by lia. by replace (a + b + - b)%Z with a by lia. }
      field. apply Hne. lia.
    + rewrite pow2_neg by done.
      assert (inject_Z (2 ^ (- b)) == inject_Z (2 ^ a) * inject_Z (2 ^ (- (a + b))))%Q as ->.
      { rewrite <- Hmul by lia. by replace (a + - (a + b))%Z with (- b)%Z by lia. }
      field. split; apply Hne; lia.
  - rewrite (Hnn b) by done. rewrite (pow2_neg a) by done.
    destruct (Z.le_gt_cases 0 (a + b)) as [Hs|Hs].
    + rewrite Hnn by done.
      assert (inject_Z (2 ^ b) == inject_Z (2 ^ (a + b)) * inject_Z (2 ^ (- a)))%Q as ->.
      { rewrite <- Hmul by lia. by replace (a + b + - a)%Z with b by lia. }
      field. apply Hne. lia.
    + rewrite pow2_neg by done.
      assert (inject_Z (2 ^ (- a)) == inject_Z (2 ^ b) * inject_Z (2 ^ (- (a + b))))%Q as ->.
      { rewrite <- Hmul by lia. by replace (b + - (a + b))%Z with (- a)%Z by lia. }
      field. split; apply Hne; lia.
  - rewrite !pow2_neg by lia.
    replace (- (a + b))%Z with (- a + - b)%Z by lia.
    rewrite Hmul by lia. field. split; apply Hne; lia.
Qed.

Lemma pow2_le a b : (a <= b)%Z → (JSNum.pow2 a <= JSNum.pow2 b)%Q.
Proof.
  intros H. replace b with (a + (b - a))%Z by lia. rewrite pow2_add.
  assert (1 <= JSNum.pow2 (b - a))%Q.
  { unfold JSNum.pow2. rewrite (proj2 (Z.leb_le 0 (b - a))) by lia.
    change 1%Q with (inject_Z 1). rewrite <- Zle_Qle.
    assert (0 < 2 ^ (b - a))%Z by (apply Z.pow_pos_nonneg; lia). lia. }
  pose proof (pow2_pos a). nra.
Qed.

Lemma pow2_nonneg_Z (n : Z) : (0 <= n)%Z → JSNum.pow2 n = inject_Z (2 ^ n).
Proof. intros Hn. unfold JSNum.pow2. by rewrite (proj2 (Z.leb_le 0 n)). Qed.

(** [JSNum.ilog2 q] is the exponent of the leading bit of [q]. *)
Lemma ilog2_spec (q : Q) :
  (0 < q)%Q → (JSNum.pow2 (JSNum.ilog2 q) <= q ∧ q < JSNum.pow2 (JSNum.ilog2 q + 1))%Q.
Proof.
  intros Hq. destruct q as [n d]. unfold JSNum.ilog2. simpl Qnum. simpl Qden.
  assert (0 < n)%Z as Hn by (unfold Qlt in Hq; simpl in Hq; lia).
  set (a := Z.log2 n). set (b := Z.log2 (Z.pos d)).
  assert (0 <= a)%Z as Ha by apply Z.log2_nonneg.
  assert (0 <= b)%Z as Hb by apply Z.log2_nonneg.
  destruct (Z.log2_spec n Hn) as [Hn1 Hn2]. fold a in Hn1, Hn2.
  destruct (Z.log2_spec (Z.pos d) eq_refl) as [Hd1 Hd2]. fold b in Hd1, Hd2.
  assert (n # d == inject_Z n / inject_Z (Z.pos d))%Q as Hdiv
    by apply Qmake_Qdiv.
  assert (0 < inject_Z (Z.pos d))%Q as Hdpos by reflexivity.
  assert (inject_Z (2 ^ a) <= inject_Z n)%Q as Hn1' by (by rewrite <- Zle_Qle).
  assert (inject_Z n < inject_Z (2 ^ Z.succ a))%Q as Hn2' by (by rewrite <- Zlt_Qlt).
  assert (inject_Z (2 ^ b) <= inject_Z (Z.pos d))%Q as Hd1' by (by rewrite <- Zle_Qle).
  assert (inject_Z (Z.pos d) < inject_Z (2 ^ Z.succ b))%Q as Hd2'
    by (by rewrite <- Zlt_Qlt).
  rewrite <- !pow2_nonneg_Z in Hn1', Hn2', Hd1', Hd2' by lia.
  destruct (Qle_bool (JSNum.pow2 (a - b)) (n # d)) eqn:E.
  - apply Qle_bool_iff in E. split; [done|].
    rewrite Hdiv. apply Qlt_shift_div_r; [done|].
    assert (JSNum.pow2 (Z.succ a) == JSNum.pow2 (a - b + 1) * JSNum.pow2 b)%Q as Hs.
    { rewrite <- pow2_add. by replace (a - b + 1 + b)%Z with (Z.succ a) by lia. }
    pose proof (pow2_pos (a - b + 1)). nra.
  - apply not_true_iff_false in E. rewrite Qle_bool_iff in E.
    apply Qnot_le_lt in E. split.
    + rewrite Hdiv. apply Qle_shift_div_l; [done|].
      assert (JSNum.pow2 a == JSNum.pow2 (a - b - 1) * JSNum.pow2 (Z.succ b))%Q as Hs.
      { rewrite <- pow2_add. by replace (a - b - 1 + Z.succ b)%Z with a by lia. }
      pose proof (pow2_pos (a - b - 1)). nra.
    + by replace (a - b - 1 + 1)%Z with (a - b)%Z by lia.
Qed.

Lemma nearest_even_error (q : Q) :
  (Qabs (inject_Z (JSNum.nearest_even q) - q) <= 1 # 2)%Q.
Proof.
  unfold JSNum.nearest_even.
  pose proof (Qfloor_le q) as Hlo. pose proof (Qlt_floor q) as Hhi.
  rewrite inject_Z_plus in Hhi. change (inject_Z 1) with 1%Q in Hhi.
  apply Qabs_Qle_condition.
  destruct (q - inject_Z (Qfloor q) ?= 1 # 2)%Q eqn:E.
  - apply Qeq_alt in E.
    destruct (Z.even (Qfloor q)).
    + split; lra.
    + rewrite inject_Z_plus. change (inject_Z 1) with 1%Q. split; lra.
  - apply Qlt_alt in E. split; lra.
  - apply Qgt_alt in E. rewrite inject_Z_plus. change (inject_Z 1) with 1%Q.
    split; lra.
Qed.

Lemma nearest_even_nonneg (q : Q) : (0 <= q)%Q → (0 <= JSNum.nearest_even q)%Z.
Proof.
  intros Hq. unfold JSNum.nearest_even.
  assert (0 <= Qfloor q)%Z.
  { change 0%Z with (Qfloor 0). by apply Qfloor_resp_le. }
  destruct (_ ?= _)%Q; [destruct (Z.even _)| |]; lia.
Qed.

Lemma nearest_even_pos (q : Q) : (1 <= q)%Q → (1 <= JSNum.nearest_even q)%Z.
Proof.
  intros Hq. unfold JSNum.nearest_even.
  assert (1 <= Qfloor q)%Z.
  { change 1%Z with (Qfloor 1). by apply Qfloor_resp_le. }
  destruct (_ ?= _)%Q; [destruct (Z.even _)| |]; lia.
Qed.

Lemma nearest_double_value (q : Q) :
  let e := JSNum.ulp_exponent q in
  match JSNum.nearest_double q with
  | Some v => (v == inject_Z (JSNum.nearest_even (q / JSNum.pow2 e)) * JSNum.pow2 e)%Q
  | None => (JSNum.pow2 1024 <= inject_Z (JSNum.nearest_even (q / JSNum.pow2 e)) * JSNum.pow2 e)%Q
  end.
Proof.
  unfold JSNum.nearest_double. simpl.
  set (t := (inject_Z _ * JSNum.pow2 _)%Q).
  pose proof (Qred_correct t) as Ht.
  destruct (Qle_bool _ _) eqn:E; [|done].
  apply Qle_bool_iff in E. by rewrite <- Ht.
Qed.

(** Rounding moves a positive number by at most half a unit in the last
    place, which is at most [2 ^ -53] of it, or [2 ^ -1075]. *)
Lemma nearest_double_error (q : Q) :
  (0 < q)%Q →
  (Qabs (inject_Z (JSNum.nearest_even (q / JSNum.pow2 (JSNum.ulp_exponent q)))
         * JSNum.pow2 (JSNum.ulp_exponent q) - q)
   <= q * JSNum.pow2 (-53) + JSNum.pow2 (-1075))%Q.
Proof.
  intros Hq.
  assert (JSNum.pow2 (JSNum.ulp_exponent q) * (1 # 2) <= q * JSNum.pow2 (-53) + JSNum.pow2 (-1075))%Q
    as Hu.
  { unfold JSNum.ulp_exponent.
    assert (JSNum.pow2 (-1074) * (1 # 2) == JSNum.pow2 (-1075))%Q as H1075 by reflexivity.
    assert (JSNum.pow2 (-52) * (1 # 2) == JSNum.pow2 (-53))%Q as H53 by reflexivity.
    pose proof (pow2_pos (-1075)) as Ha. pose proof (pow2_pos (-53)) as Hb.
    destruct (Z.max_spec (JSNum.ilog2 q - 52) (-1074)) as [[_ ->]|[_ ->]].
    - revert H1075 H53 Ha Hb.
      generalize (JSNum.pow2 (-1075)) (JSNum.pow2 (-53)) (JSNum.pow2 (-1074)) (JSNum.pow2 (-52)).
      intros a b c d H1075 H53 Ha Hb. nra.
    - destruct (ilog2_spec q Hq) as [Hlo _].
      replace (JSNum.ilog2 q - 52)%Z with (JSNum.ilog2 q + -52)%Z by lia.
      rewrite pow2_add.
      pose proof (pow2_pos (JSNum.ilog2 q)) as Hp.
      revert H1075 H53 Ha Hb Hlo Hp.
      generalize (JSNum.pow2 (-1075)) (JSNum.pow2 (-53)) (JSNum.pow2 (-1074)) (JSNum.pow2 (-52))
        (JSNum.pow2 (JSNum.ilog2 q)).
      intros a b c d p H1075 H53 Ha Hb Hlo Hp. nra. }
  pose proof (pow2_pos (JSNum.ulp_exponent q)) as He.
  revert Hu He. generalize (JSNum.pow2 (JSNum.ulp_exponent q)). intros u Hu He.
  pose proof (nearest_even_error (q / u)) as Hm.
  apply Qabs_Qle_condition in Hm. destruct Hm as [Hm1 Hm2].
  assert (0 <= u)%Q as He' by lra.
  pose proof (Qmult_le_compat_r _ _ _ Hm2 He') as Hhi.
  pose proof (Qmult_le_compat_r _ _ _ Hm1 He') as Hlo.
  assert (inject_Z (JSNum.nearest_even (q / u)) * u - q
          == (inject_Z (JSNum.nearest_even (q / u)) - q / u) * u)%Q as ->
    by (field; lra).
  revert Hu Hhi Hlo.
  generalize ((inject_Z (JSNum.nearest_even (q / u)) - q / u) * u)%Q
    (q * JSNum.pow2 (-53) + JSNum.pow2 (-1075))%Q.
  intros d bound Hu Hhi Hlo.
  apply Qabs_Qle_condition. split; lra.
Qed.

Lemma nearest_double_overflow (q : Q) :
  (0 < q)%Q → JSNum.nearest_double q = None → (JSNum.pow2 1023 <= q)%Q.
Proof.
  intros Hq Hnone. pose proof (nearest_double_value q) as Hv.
  rewrite Hnone in Hv. simpl in Hv.
  pose proof (nearest_double_error q Hq) as He.
  apply Qabs_Qle_condition in He. destruct He as [_ He].
  assert (JSNum.pow2 1024 == 2 * JSNum.pow2 1023)%Q as H2 by reflexivity.
  assert (JSNum.pow2 (-53) <= 1 # 2)%Q as H53 by (by apply Qle_bool_iff).
  assert (JSNum.pow2 (-1075) <= 1)%Q as H1075 by (by apply Qle_bool_iff).
  assert (2 <= JSNum.pow2 1023)%Q as H1023 by (by apply Qle_bool_iff).
  revert Hv He H2 H53 H1075 H1023.
  generalize (inject_Z (JSNum.nearest_even (q / JSNum.pow2 (JSNum.ulp_exponent q)))
              * JSNum.pow2 (JSNum.ulp_exponent q))%Q
    (JSNum.pow2 1024) (JSNum.pow2 1023) (JSNum.pow2 (-53)) (JSNum.pow2 (-1075)).
  intros v a b c d Hv He H2 H53 H1075 H1023. nra.
Qed.

(** The result of an operation differs from the exact result by at most
    [2 ^ -53] of it and [2 ^ -1075], unless it overflows. *)
Lemma round_double_error (q : Q) :
  match JSNum.round_double q with
  | Finite v => (Qabs (v - q) <= Qabs q * JSNum.pow2 (-53) + JSNum.pow2 (-1075))%Q
  | PInf => (JSNum.pow2 1023 <= q)%Q
  | NInf => (q <= - JSNum.pow2 1023)%Q
  | NaN => False
  end.
Proof.
  unfold JSNum.round_double. destruct (0 ?= q)%Q eqn:E.
  - apply Qeq_alt in E.
    assert (Qabs (0 - q) == 0)%Q as -> by (rewrite <- E; reflexivity).
    pose proof (Qabs_nonneg q). pose proof (pow2_pos (-53)).
    pose proof (pow2_pos (-1075)). nra.
  - apply Qlt_alt in E.
    pose proof (nearest_double_value q) as Hv.
    destruct (JSNum.nearest_double q) as [v|] eqn:Hn.
    + simpl in Hv. rewrite Hv, (Qabs_pos q) by lra.
      by apply nearest_double_error.
    + by apply nearest_double_overflow.
  - apply Qgt_alt in E.
    assert (0 < - q)%Q as Hq by lra.
    pose proof (nearest_double_value (- q)) as Hv.
    destruct (JSNum.nearest_double (- q)) as [v|] eqn:Hn.
    + simpl in Hv.
      assert (- v - q == - (v - - q))%Q as -> by ring.
      rewrite Qabs_opp, Hv, (Qabs_neg q) by lra.
      by apply nearest_double_error.
    + pose proof (nearest_double_overflow (- q) Hq Hn). lra.
Qed.

Lemma nearest_double_on_grid (q v : Q) : JSNum.nearest_double q = Some v → JSNum.on_grid v.
Proof.
  intros Hn. pose proof (nearest_double_value q) as Hv. rewrite Hn in Hv.
  simpl in Hv. set (e := JSNum.ulp_exponent q) in *.
  assert (-1074 <= e)%Z as He by (unfold e, JSNum.ulp_exponent; lia).
  exists (JSNum.nearest_even (q / JSNum.pow2 e) * 2 ^ (e + 1074))%Z.
  rewrite Hv, inject_Z_mult, <- pow2_nonneg_Z by lia.
  rewrite <- Qmult_assoc, <- pow2_add.
  by replace (e + 1074 + -1074)%Z with e by lia.
Qed.

Lemma on_grid_opp (q : Q) : JSNum.on_grid q → JSNum.on_grid (- q).
Proof.
  intros [k Hk]. exists (- k)%Z. rewrite Hk, inject_Z_opp. ring.
Qed.

Lemma on_grid_plus (p q : Q) : JSNum.on_grid p → JSNum.on_grid q → JSNum.on_grid (p + q).
Proof.
  intros [k Hk] [j Hj]. exists (k + j)%Z. rewrite Hk, Hj, inject_Z_plus. ring.
Qed.

Lemma on_grid_comp (p q : Q) : (p == q)%Q → JSNum.on_grid p → JSNum.on_grid q.
Proof. intros E [k Hk]. exists k. by rewrite <- E. Qed.

Lemma round_double_on_grid (q v : Q) : JSNum.round_double q = Finite v → JSNum.on_grid v.
Proof.
  unfold JSNum.round_double. destruct (0 ?= q)%Q.
  - intros [= <-]. exists 0%Z. reflexivity.
  - destruct (JSNum.nearest_double q) as [w|] eqn:Hn; [|done].
    intros [= <-]. by eapply nearest_double_on_grid.
  - destruct (JSNum.nearest_double (- q)) as [w|] eqn:Hn; [|done].
    intros [= <-]. apply on_grid_opp. by eapply nearest_double_on_grid.
Qed.

Lemma on_grid_positive (q : Q) : JSNum.on_grid q → (0 < q)%Q → (JSNum.pow2 (-1074) <= q)%Q.
Proof.
  intros [k Hk] Hq. pose proof (pow2_pos (-1074)) as Hp.
  assert (1 <= k)%Z as Hk1.
  { destruct (Z.le_gt_cases 1 k) as [|Hlt]; [done|]. exfalso.
    assert (inject_Z k <= 0)%Q as Hk0.
    { change 0%Q with (inject_Z 0). rewrite <- Zle_Qle. lia. }
    revert Hk Hq Hp Hk0. generalize (JSNum.pow2 (-1074)) (inject_Z k).
    intros u x Hk Hq Hp Hk0. nra. }
  assert (1 <= inject_Z k)%Q as Hk1'.
  { change 1%Q with (inject_Z 1). by rewrite <- Zle_Qle. }
  revert Hk Hq Hp Hk1'. generalize (JSNum.pow2 (-1074)) (inject_Z k).
  intros u x Hk Hq Hp Hk1'. nra.
Qed.

(** A positive multiple of the smallest double is not rounded to zero. *)
Lemma nearest_double_positive (q v : Q) :
  JSNum.on_grid q → (0 < q)%Q → JSNum.nearest_double q = Some v → (0 < v)%Q.
Proof.
  intros Hg Hq Hn. pose proof (nearest_double_value q) as Hv.
  rewrite Hn in Hv. simpl in Hv. rewrite Hv.
  set (e := JSNum.ulp_exponent q).
  pose proof (pow2_pos e) as He.
  assert (JSNum.pow2 e <= q)%Q as Hle.
  { unfold e, JSNum.ulp_exponent.
    destruct (Z.max_spec (JSNum.ilog2 q - 52) (-1074)) as [[_ ->]|[_ ->]].
    - by apply on_grid_positive.
    - destruct (ilog2_spec q Hq) as [Hlo _].
      eapply Qle_trans; [|exact Hlo]. apply pow2_le. lia. }
  assert (1 <= q / JSNum.pow2 e)%Q as H1.
  { apply Qle_shift_div_l; [done|]. lra. }
  apply nearest_even_pos in H1.
  assert (1 <= inject_Z (JSNum.nearest_even (q / JSNum.pow2 e)))%Q as H1'.
  { change 1%Q with (inject_Z 1). by rewrite <- Zle_Qle. }
  revert H1' He. generalize (inject_Z (JSNum.nearest_even (q / JSNum.pow2 e))) (JSNum.pow2 e).
  intros x u H1' He. nra.
Qed.

Lemma nearest_double_nonneg (q v : Q) :
  (0 < q)%Q → JSNum.nearest_double q = Some v → (0 <= v)%Q.
Proof.
  intros Hq Hn. pose proof (nearest_double_value q) as Hv.
  rewrite Hn in Hv. simpl in Hv. rewrite Hv.
  set (e := JSNum.ulp_exponent q).
  pose proof (pow2_pos e) as He.
  assert (0 <= q / JSNum.pow2 e)%Q as H0.
  { apply Qle_shift_div_l; [done|]. lra. }
  apply nearest_even_nonneg in H0.
  assert (0 <= inject_Z (JSNum.nearest_even (q / JSNum.pow2 e)))%Q as H0'.
  { change 0%Q with (inject_Z 0). by rewrite <- Zle_Qle. }
  revert H0' He. generalize (inject_Z (JSNum.nearest_even (q / JSNum.pow2 e))) (JSNum.pow2 e).
  intros x u H0' He. nra.
Qed.




(** * Properties of the dictionaries *)

Lemma foreign_found {A : Type} (m : gmap string A) (k : string) :
  is_Some (m !! k) → foreign m k = false.
Proof. intros [x Hx]. unfold foreign. by rewrite Hx. Qed.



Lemma foreign_false {A : Type} (m : gmap string A) (k : string) :
  foreign m k = false → is_Some (m !! k) ∨ (m !! k = None ∧ inherited k = false).
Proof. unfold foreign. destruct (m !! k); [by left; eexists|by right]. Qed.

(** * Properties of the ledger *)

Lemma ledger_sum_snoc (l : list Transaction) (t : Transaction) :
  counted t = true →
  ledger_sum (l ++ [t]) = JSNum.add (ledger_sum l) (tx_amount t).
Proof.
  intros Ht. unfold ledger_sum.
  rewrite filter_app, fold_left_app.
  rewrite filter_cons_True by (by rewrite Ht).
  reflexivity.
Qed.

Lemma entries_insert (st st' : BudgetData) (k uid : string) (u : User) :
  users st' = <[k:=u]> (users st) →
  entries st' uid = if decide (k = uid) then transactions u else entries st uid.
Proof.
  intros E. unfold entries. rewrite E, lookup_insert.
  by destruct (decide (k = uid)).
Qed.

Lemma spent_insert (st st' : BudgetData) (k uid : string) (u : User) :
  users st' = <[k:=u]> (users st) →
  spent_by st' uid = if decide (k = uid) then totalSpent u else spent_by st uid.
Proof.
  intros E. unfold spent_by. rewrite E, lookup_insert.
  by destruct (decide (k = uid)).
Qed.

(** Inserting a user that has spent nothing where there was none leaves
    every ledger as it was. *)
Lemma ledger_step_fresh (st st' : BudgetData) (k uid : string) (u : User) :
  users st' = <[k:=u]> (users st) →
  users st !! k = None → transactions u = [] → totalSpent u = JSNum.zero →
  ledger_step st st' uid.
Proof.
  intros E Hk Htx Hsp. apply ledger_kept.
  - rewrite (entries_insert _ _ _ _ _ E).
    destruct (decide (k = uid)) as [<-|]; [|done].
    unfold entries. by rewrite Hk, Htx.
  - rewrite (spent_insert _ _ _ _ _ E).
    destruct (decide (k = uid)) as [<-|]; [|done].
    unfold spent_by. by rewrite Hk, Hsp.
Qed.

(** Replacing a user's record by the record with one more transaction. *)
Lemma ledger_step_record (st st' : BudgetData) (k uid : string)
  (old new : User) (t : Transaction) :
  users st' = <[k:=new]> (users st) →
  transactions old = entries st k → totalSpent old = spent_by st k →
  transactions new = transactions old ++ [t] →
  totalSpent new = JSNum.add (totalSpent old) (tx_amount t) →
  counted t = true →
  ledger_step st st' uid.
Proof.
  intros E He Hs Htx Hsp Ht.
  destruct (decide (k = uid)) as [<-|Hne].
  - apply (ledger_recorded _ _ _ t); [done| |].
    + rewrite (entries_insert _ _ _ _ _ E), decide_True by done.
      by rewrite Htx, He.
    + rewrite (spent_insert _ _ _ _ _ E), decide_True by done.
      by rewrite Hsp, Hs.
  - apply ledger_kept.
    + by rewrite (entries_insert _ _ _ _ _ E), decide_False.
    + by rewrite (spent_insert _ _ _ _ _ E), decide_False.
Qed.

Lemma ledger_step_same_users (st st' : BudgetData) (uid : string) :
  users st' = users st → ledger_step st st' uid.
Proof.
  intros E. apply ledger_kept; unfold entries, spent_by; by rewrite E.
Qed.

(** A step keeps the invariant. *)
Lemma ledger_step_consistent (st st' : BudgetData) :
  (∀ uid, ledger_step st st' uid) → totals_consistent st → totals_consistent st'.
Proof.
  intros Hstep Hinv uid. destruct (Hstep uid) as [He Hs | t Ht He Hs].
  - by rewrite He, Hs.
  - rewrite He, Hs, ledger_sum_snoc by done. by rewrite Hinv.
Qed.

Lemma initial_consistent : totals_consistent initial.
Proof. intros uid. reflexivity. Qed.

Lemma default_entries (st : BudgetData) (uid : string) (d : User) :
  transactions d = [] →
  transactions (default d (users st !! uid)) = entries st uid.
Proof. intros Hd. unfold entries. by destruct (users st !! uid). Qed.

Lemma default_spent (st : BudgetData) (uid : string) (d : User) :
  totalSpent d = JSNum.zero →
  totalSpent (default d (users st !! uid)) = spent_by st uid.
Proof. intros Hd. unfold spent_by. by destruct (users st !! uid). Qed.

(** ** Every request of the pure API server is a ledger step *)

Section PureApiLedger.

Context {hmac : Hmac} {gateway : Gateway}.
Variable key_secret : string.
Variable webhook_env : option string.

Lemma pure_create_user_step now st r uid :
  ledger_step st (fst (PureApi.create_user now st r)) uid.
Proof.
  unfold PureApi.create_user.
  destruct (accepted_id (cu_userId r)) as [userId|];
    [|by apply ledger_step_same_users].
  destruct (users st !! userId) eqn:Hu; [by apply ledger_step_same_users|].
  destruct (inherited userId); [by apply ledger_step_same_users|].
  simpl. by eapply ledger_step_fresh.
Qed.

Lemma pure_create_order_step now st r uid :
  ledger_step st (fst (PureApi.create_order now st r)) uid.
Proof.
  unfold PureApi.create_order.
  destruct (accepted_number (co_amount r)) as [amount|];
    [|by apply ledger_step_same_users].
  destruct (accepted_id (co_userId r)) as [userId|];
    [|by apply ledger_step_same_users].
  assert (ledger_step st
            match users st !! userId with
            | Some _ => st
            | None =>
                if inherited userId then st else
                set_budgets (insert userId PureApi.auto_budget)
                  (set_users (insert userId (PureApi.auto_user now userId)) st)
            end uid) as Hstep.
  { destruct (users st !! userId) eqn:Hu; [by apply ledger_step_same_users|].
    destruct (inherited userId); [by apply ledger_step_same_users|].
    by eapply ledger_step_fresh. }
  by destruct (orders_create _).
Qed.

Lemma pure_verify_payment_step now st r uid :
  ledger_step st (fst (PureApi.verify_payment key_secret now st r)) uid.
Proof.
  unfold PureApi.verify_payment.
  destruct (negb _); [by apply ledger_step_same_users|].
  destruct (accepted_id (v_userId r)) as [userId|];
    [|by apply ledger_step_same_users].
  destruct (negb _); [by apply ledger_step_same_users|].
  destruct (foreign _ _); [by apply ledger_step_same_users|].
  simpl.
  eapply ledger_step_record
    with (old := default (PureApi.auto_user now userId) (users st !! userId));
    [reflexivity | by apply default_entries | by apply default_spent
    | reflexivity | reflexivity | reflexivity].
Qed.

Lemma pure_webhook_unchanged st r :
  fst (PureApi.webhook webhook_env st r) = st.
Proof.
  unfold PureApi.webhook. destruct (_ && _)%bool; [done|].
  by destruct (wh_has_payload r).
Qed.

Lemma pure_set_budget_step st r uid :
  ledger_step st (fst (PureApi.set_budget st r)) uid.
Proof.
  unfold PureApi.set_budget.
  destruct (accepted_id (sb_userId r)); [|by apply ledger_step_same_users].
  destruct (accepted_number (sb_monthlyLimit r));
    by apply ledger_step_same_users.
Qed.

Lemma pure_handle_step st q uid :
  ledger_step st (fst (PureApi.handle key_secret webhook_env st q)) uid.
Proof.
  destruct q; simpl.
  - apply pure_create_user_step.
  - apply pure_create_order_step.
  - apply pure_verify_payment_step.
  - rewrite pure_webhook_unchanged. by apply ledger_step_same_users.
  - apply pure_set_budget_step.
Qed.

Lemma pure_run_consistent st qs :
  totals_consistent st →
  totals_consistent (PureApi.run key_secret webhook_env st qs).
Proof.
  revert st. induction qs as [|q qs IH]; intros st Hst; [done|].
  simpl. apply IH. eapply ledger_step_consistent; [|done].
  intros uid. apply pure_handle_step.
Qed.

End PureApiLedger.

(** ** Every request of the API server (part_000) is a ledger step *)

Section ApiServerLedger.

Context {hmac : Hmac} {gateway : Gateway}.
Variable key_secret : option string.
Variable webhook_env : option string.

Lemma api_create_user_step now st r uid :
  ledger_step st (fst (ApiServer.create_user now st r)) uid.
Proof.
  unfold ApiServer.create_user.
  destruct (negb _); [by apply ledger_step_same_users|].
  destruct (users st !! _) eqn:Hu; [by apply ledger_step_same_users|].
  destruct (inherited _); [by apply ledger_step_same_users|].
  simpl. by eapply ledger_step_fresh.
Qed.

Lemma api_create_order_step now st r uid :
  ledger_step st (fst (ApiServer.create_order now st r)) uid.
Proof.
  unfold ApiServer.create_order.
  destruct (co_amount r) as [amount|]; [|by apply ledger_step_same_users].
  destruct (_ || _)%bool; [by apply ledger_step_same_users|].
  destruct (negb _); [by apply ledger_step_same_users|].
  set (userId := to_str (co_userId r)).
  assert (ledger_step st
            match users st !! userId with
            | Some _ => st
            | None =>
                if inherited userId then st
                else set_users (insert userId (ApiServer.auto_user now userId)) st
            end uid) as Hstep.
  { destruct (users st !! userId) eqn:Hu; [by apply ledger_step_same_users|].
    destruct (inherited userId); [by apply ledger_step_same_users|].
    by eapply ledger_step_fresh. }
  by destruct (orders_create _).
Qed.

Lemma api_verify_payment_step now st r uid :
  ledger_step st (fst (ApiServer.verify_payment key_secret now st r)) uid.
Proof.
  unfold ApiServer.verify_payment.
  destruct (negb _); [by apply ledger_step_same_users|].
  destruct key_secret as [secret|]; [|by apply ledger_step_same_users].
  destruct (negb _); [by apply ledger_step_same_users|].
  destruct (foreign _ _); [by apply ledger_step_same_users|].
  simpl.
  eapply ledger_step_record
    with (old := default (ApiServer.auto_user now (to_str (v_userId r)))
                   (users st !! to_str (v_userId r)));
    [reflexivity | by apply default_entries | by apply default_spent
    | reflexivity | reflexivity | reflexivity].
Qed.

(** [handlePaymentCaptured] either throws, or returns after a ledger step. *)
Lemma api_captured_step st payment st' uid :
  ApiServer.handlePaymentCaptured st payment = Some st' →
  ledger_step st st' uid.
Proof.
  unfold ApiServer.handlePaymentCaptured.
  destruct (negb _); [intros [= <-]; by apply ledger_step_same_users|].
  destruct (users st !! _) as [user|] eqn:Hu;
    [|destruct (inherited _); [done|];
      intros [= <-]; by apply ledger_step_same_users].
  destruct (holds_id _ _); [intros [= <-]; by apply ledger_step_same_users|].
  destruct (iso_date_of _) as [date|]; [|done].
  intros [= <-].
  eapply ledger_step_record with (old := user);
    [reflexivity | | | reflexivity | reflexivity | reflexivity].
  - unfold entries. by rewrite Hu.
  - unfold spent_by. by rewrite Hu.
Qed.

Lemma api_dispatch_step st r st' uid :
  ApiServer.dispatch st r = Some st' → ledger_step st st' uid.
Proof.
  unfold ApiServer.dispatch, ApiServer.handlePaymentFailed,
    ApiServer.handleOrderPaid.
  destruct (is_event r "payment.captured").
  { destruct (payment_entity r) as [p|]; [|done]. apply api_captured_step. }
  destruct (is_event r "payment.failed").
  { destruct (payment_entity r); [|done].
    intros [= <-]. by apply ledger_step_same_users. }
  destruct (is_event r "order.paid").
  { destruct (order_entity r); [|done].
    intros [= <-]. by apply ledger_step_same_users. }
  intros [= <-]. by apply ledger_step_same_users.
Qed.

Lemma api_webhook_step st r uid :
  ledger_step st (fst (ApiServer.webhook webhook_env st r)) uid.
Proof.
  unfold ApiServer.webhook.
  destruct (negb _); [by apply ledger_step_same_users|].
  destruct (negb _); [by apply ledger_step_same_users|].
  destruct (ApiServer.dispatch st r) as [st'|] eqn:Hd;
    [|by apply ledger_step_same_users].
  by eapply api_dispatch_step.
Qed.

Lemma api_set_budget_step st r uid :
  ledger_step st (fst (ApiServer.set_budget st r)) uid.
Proof.
  unfold ApiServer.set_budget.
  destruct (negb _); [by apply ledger_step_same_users|].
  destruct (sb_monthlyLimit r); [|by apply ledger_step_same_users].
  destruct (_ || _)%bool; by apply ledger_step_same_users.
Qed.

Lemma api_handle_step st q uid :
  ledger_step st (fst (ApiServer.handle key_secret webhook_env st q)) uid.
Proof.
  destruct q; simpl.
  - apply api_create_user_step.
  - apply api_create_order_step.
  - apply api_verify_payment_step.
  - apply api_webhook_step.
  - apply api_set_budget_step.
Qed.

Lemma api_run_consistent st qs :
  totals_consistent st →
  totals_consistent (ApiServer.run key_secret webhook_env st qs).
Proof.
  revert st. induction qs as [|q qs IH]; intros st Hst; [done|].
  simpl. apply IH. eapply ledger_step_consistent; [|done].
  intros uid. apply api_handle_step.
Qed.

End ApiServerLedger.

(** * Recording a payment *)

(** The webhook handler skips a payment whose id the user's ledger
    already holds. *)
Lemma captured_replay_ignored (st : BudgetData) (payment : PaymentEntity)
  (userId : string) :
  p_notes payment ≫= n_userId = Some userId →
  is_Some (users st !! userId) →
  holds_id (p_id payment) (entries st userId) = true →
  ApiServer.handlePaymentCaptured st payment = Some st.
Proof.
  intros Hn [user Hu] Hid. unfold ApiServer.handlePaymentCaptured.
  rewrite Hn. destruct (negb _); [done|]. simpl.
  unfold entries in Hid. rewrite Hu in *.
  simpl in Hid. by rewrite Hid.
Qed.

(** verify-payment looks for no earlier transaction: an accepted
    confirmation is appended and counted whatever the ledger holds. *)
Lemma verify_payment_appends {hmac : Hmac} (secret : string) (now : Z)
  (st : BudgetData) (r : VerifyReq) (userId : string) :
  truthy_str (razorpay_order_id r) = true →
  truthy_str (razorpay_payment_id r) = true →
  truthy_str (razorpay_signature r) = true →
  accepted_id (v_userId r) = Some userId →
  razorpay_signature r = Some (hmac_sha256_hex secret (signed_message r)) →
  foreign (users st) userId = false →
  let st' := fst (PureApi.verify_payment secret now st r) in
  let t := PureApi.verified_transaction now r
             (JSNum.or_else (parseFloat (v_amount r)) JSNum.zero) in
  entries st' userId = entries st userId ++ [t]
  ∧ spent_by st' userId = JSNum.add (spent_by st userId) (tx_amount t).
Proof.
  intros Ho Hp Hs Hu Hsig Hown. unfold PureApi.verify_payment.
  rewrite Ho, Hp, Hs, Hu. simpl.
  rewrite bool_decide_true by done. rewrite Hown. simpl.
  unfold entries, spent_by; simpl. rewrite lookup_insert_eq. simpl.
  by destruct (users st !! userId).
Qed.

(** In the API server of part_000 the order of the two channels decides:
    a capture delivered after the client's confirmation of the same
    payment is ignored, the client's confirmation after the capture is
    counted again. *)
Lemma capture_after_confirmation_ignored :
  let st := Examples.registered in
  let confirmed :=
    fst (ApiServer.verify_payment (hmac := Examples.tag) (Some Examples.secret)
           1 st (Examples.confirmation "u1" 500 Examples.good_signature)) in
  let out :=
    ApiServer.webhook (hmac := Examples.tag) None confirmed
      (Examples.delivery "payment.captured"
         (Examples.capture (Examples.notes_for "u1"))
         Examples.placeholder_signature) in
  out = (confirmed, ApiServer.received)
  ∧ JSNum.eqv (spent_by (fst out) "u1") (Finite 500)
  ∧ length (entries (fst out) "u1") = 1%nat.
Proof. vm_compute. repeat split; reflexivity. Qed.

Lemma confirmation_after_capture_counted_again :
  let st := Examples.registered in
  let captured :=
    fst (ApiServer.webhook (hmac := Examples.tag) None st
           (Examples.delivery "payment.captured"
              (Examples.capture (Examples.notes_for "u1"))
              Examples.placeholder_signature)) in
  let confirmed :=
    fst (ApiServer.verify_payment (hmac := Examples.tag) (Some Examples.secret)
           1 captured (Examples.confirmation "u1" 500 Examples.good_signature)) in
  JSNum.eqv (spent_by captured "u1") (Finite 500)
  ∧ JSNum.eqv (spent_by confirmed "u1") (Finite 1000)
  ∧ map tx_id (entries confirmed "u1") = [Some "pay_a"; Some "pay_a"]
  ∧ map tx_status (entries confirmed "u1") = ["captured"; "success"].
Proof. vm_compute. repeat split; reflexivity. Qed.

(** C1 (the code at the failing input): the same confirmation of
    payment pay_a, amount 500, served twice by verify-payment, is counted
    twice: the user's total is 1000 and the ledger has two entries with
    the one id. *)
Theorem verify_payment_replay_counted_twice :
  let submit st :=
    fst (PureApi.verify_payment (hmac := Examples.tag) Examples.secret 1 st
           (Examples.confirmation "u1" 500 Examples.good_signature)) in
  let once := submit initial in
  let twice := submit once in
  spent_by once "u1" = Finite 500
  ∧ length (entries once "u1") = 1%nat
  ∧ has_id "pay_a" (entries once "u1") = true
  ∧ spent_by twice "u1" = Finite 1000
  ∧ length (entries twice "u1") = 2%nat
  ∧ map tx_id (entries twice "u1") = [Some "pay_a"; Some "pay_a"].
Proof. vm_compute. repeat split; reflexivity. Qed.

(** C2: in the pure API server and in the API server of part_000, from
    the empty [budgetData] every sequence of requests leads to a state
    in which each user's [totalSpent] is the sum of the amounts of the
    user's transactions with status success or captured; and each
    request, for each user, either leaves ledger and total as they are
    or appends one such transaction and adds its amount to the total in
    the same step. *)
Theorem totals_match_ledgers :
  ∀ (hmac : Hmac) (gateway : Gateway) (key_secret : string)
    (api_key_secret webhook_env : option string),
    (∀ qs, totals_consistent (PureApi.run key_secret webhook_env initial qs))
    ∧ (∀ qs, totals_consistent
               (ApiServer.run api_key_secret webhook_env initial qs))
    ∧ (∀ st q userId,
         ledger_step st
           (fst (PureApi.handle key_secret webhook_env st q)) userId)
    ∧ (∀ st q userId,
         ledger_step st
           (fst (ApiServer.handle api_key_secret webhook_env st q)) userId).
Proof.
  intros. repeat split.
  - intros qs. apply pure_run_consistent, initial_consistent.
  - intros qs. apply api_run_consistent, initial_consistent.
  - intros. apply pure_handle_step.
  - intros. apply api_handle_step.
Qed.

(** * Signatures of client confirmations *)

(** C3: a verify-payment request whose signature is not the HMAC-SHA256
    of [orderId + "|" + paymentId] under the key secret is rejected with
    an error response of status 400, and [budgetData] is exactly what it
    was, in the pure API server and in the dashboard server of part_002. *)
Theorem bad_signature_rejected :
  ∀ (hmac : Hmac) (secret : string) (now : Z) (st : BudgetData) (r : VerifyReq),
    razorpay_signature r ≠ Some (hmac_sha256_hex secret (signed_message r)) →
    (∃ error,
       PureApi.verify_payment secret now st r = (st, PureApi.fail 400 error))
    ∧ Dashboard.verify_payment (Some secret) now st r
      = (st, Dashboard.fail 400 "Payment verification failed").
Proof.
  intros hmac secret now st r Hsig. split.
  - unfold PureApi.verify_payment.
    destruct (negb _); [by eexists|].
    destruct (accepted_id (v_userId r)); [|by eexists].
    rewrite bool_decide_false by congruence. by eexists.
  - unfold Dashboard.verify_payment.
    by rewrite bool_decide_false by congruence.
Qed.

Lemma bad_signature_rejected_witness :
  let forged := Examples.confirmation "u1" 500 "forged" in
  PureApi.verify_payment (hmac := Examples.tag) Examples.secret 1
    Examples.registered forged
  = (Examples.registered,
     PureApi.fail 400 "Payment verification failed - Invalid signature")
  ∧ Dashboard.verify_payment (hmac := Examples.tag) (Some Examples.secret) 1
      Examples.registered forged
    = (Examples.registered, Dashboard.fail 400 "Payment verification failed").
Proof.
  intros forged.
  destruct (bad_signature_rejected Examples.tag Examples.secret 1
              Examples.registered forged) as [_ Hdash].
  { vm_compute. discriminate. }
  split; [reflexivity | exact Hdash].
Defined.

(** * Creating an order *)

Lemma fresh_user_frame (st st' : BudgetData) :
  adds_at_most_fresh_user st st' →
  ∀ userId,
    entries st' userId = entries st userId
    ∧ spent_by st' userId = spent_by st userId
    ∧ (∀ u, users st !! userId = Some u → users st' !! userId = Some u).
Proof.
  intros [E|(k & u & Hk & Hsp & Htx & E)] userId.
  - unfold entries, spent_by. by rewrite E.
  - unfold entries, spent_by. rewrite E.
    destruct (decide (k = userId)) as [<-|Hne].
    + rewrite lookup_insert_eq, Hk. simpl. by rewrite Hsp, Htx.
    + by rewrite lookup_insert_ne.
Qed.

(** C9: create-order, in the pure API server and in the render-deploy
    server, appends no transaction: whatever the request and whatever
    the gateway answers, the payment log and the counters are as before,
    every user's transaction list and [totalSpent] are as before, and
    the user table is either untouched or has one new record, with zero
    [totalSpent] and no transaction, under an id that had none. *)
Theorem create_order_leaves_ledger :
  ∀ (gateway : Gateway) (now : Z) (st : BudgetData) (r : CreateOrderReq),
    let after_pure := fst (PureApi.create_order now st r) in
    let after_render := fst (RenderDeploy.create_order now st r) in
    (adds_at_most_fresh_user st after_pure
     ∧ payments after_pure = payments st
     ∧ analytics after_pure = analytics st
     ∧ ∀ userId, entries after_pure userId = entries st userId
                 ∧ spent_by after_pure userId = spent_by st userId)
    ∧ (adds_at_most_fresh_user st after_render
       ∧ payments after_render = payments st
       ∧ analytics after_render = analytics st
       ∧ ∀ userId, entries after_render userId = entries st userId
                   ∧ spent_by after_render userId = spent_by st userId).
Proof.
  intros gateway now st r after_pure after_render.
  assert (adds_at_most_fresh_user st after_pure
          ∧ payments after_pure = payments st
          ∧ analytics after_pure = analytics st) as (Hp & Hpp & Hpa).
  { subst after_pure. unfold PureApi.create_order.
    destruct (accepted_number (co_amount r)); [|by split; [left|]].
    destruct (accepted_id (co_userId r)) as [userId|]; [|by split; [left|]].
    destruct (users st !! userId) eqn:Hu.
    - destruct (orders_create _); by split; [left|].
    - destruct (inherited userId);
        [destruct (orders_create _); by split; [left|]|].
      destruct (orders_create _); (split; [right|done]);
        by exists userId, (PureApi.auto_user now userId). }
  assert (adds_at_most_fresh_user st after_render
          ∧ payments after_render = payments st
          ∧ analytics after_render = analytics st) as (Hr & Hrp & Hra).
  { subst after_render. unfold RenderDeploy.create_order.
    destruct (co_amount r); [|by split; [left|]].
    destruct (_ || _)%bool; [by split; [left|]|].
    destruct (users st !! to_str (co_userId r)) eqn:Hu.
    - destruct (orders_create _); by split; [left|].
    - destruct (inherited _);
        [destruct (orders_create _); by split; [left|]|].
      destruct (orders_create _); (split; [right|done]);
        by exists (to_str (co_userId r)),
                  (RenderDeploy.auto_user now (to_str (co_userId r))). }
  pose proof (fresh_user_frame _ _ Hp) as Fp.
  pose proof (fresh_user_frame _ _ Hr) as Fr.
  repeat split; try done; intros; try apply Fp; apply Fr.
Qed.

(** The user is made up before the gateway is asked: an order for an
    unknown user that the gateway then refuses is answered 500, and the
    new, empty user record stays. *)
Lemma refused_order_keeps_new_user :
  let out :=
    PureApi.create_order (gateway := Examples.unreachable) 1 initial
      (Examples.order_request "u1" 500) in
  PureApi.code (snd out) = 500%nat
  ∧ users (fst out) !! "u1" = Some (PureApi.auto_user 1 "u1")
  ∧ payments (fst out) = []
  ∧ entries (fst out) "u1" = [].
Proof. vm_compute. repeat split; reflexivity. Qed.

(** An order the gateway accepts is answered 200; the ledger of the new
    user is as empty as before. *)
Lemma accepted_order_records_nothing :
  let out :=
    PureApi.create_order (gateway := Examples.accepting) 1 initial
      (Examples.order_request "u1" 500) in
  snd out
  = {| PureApi.code := 200;
       PureApi.body :=
         PureApi.OrderCreated "order_a" (Finite 500) "INR" "u1"
           (Some "rcpt_u1_1") |}
  ∧ entries (fst out) "u1" = []
  ∧ spent_by (fst out) "u1" = Finite 0
  ∧ payments (fst out) = [].
Proof. vm_compute. repeat split; reflexivity. Qed.

(** * The render-deploy server *)



(** * Webhook deliveries *)

(** With no webhook secret configured, the API server of part_000 checks
    against the placeholder: a delivery signed with it is accepted and
    recorded. *)
Lemma placeholder_signed_capture_recorded :
  let st := Examples.registered in
  let out :=
    ApiServer.webhook (hmac := Examples.tag) None st
      (Examples.delivery "payment.captured"
         (Examples.capture (Examples.notes_for "u1"))
         Examples.placeholder_signature) in
  snd out = ApiServer.received
  ∧ JSNum.eqv (spent_by (fst out) "u1") (Finite 500)
  ∧ map tx_status (entries (fst out) "u1") = ["captured"].
Proof. vm_compute. repeat split; reflexivity. Qed.

(** C4 (counterexample): in the pure API server with no webhook secret
    configured, a delivery without any signature header is not rejected:
    the check is skipped and the answer is 200. *)
Lemma unsigned_webhook_accepted :
  PureApi.webhook (hmac := Examples.tag) None initial
    (Examples.delivery "payment.captured"
       (Examples.capture (Examples.notes_for "u1")) None)
  = (initial,
     {| PureApi.code := 200;
        PureApi.body := PureApi.WebhookReceived (Some "payment.captured") |}).
Proof. reflexivity. Qed.

(** C4 (amended): a webhook delivery whose signature header is absent,
    or differs from the HMAC of the serialized body under the secret in
    force, never changes [budgetData].  The API server of part_000
    answers it 400; its secret in force is the configured one, or the
    placeholder when none is configured.  The pure API server answers it
    400 when a secret other than the placeholder is configured, and
    otherwise skips the check; its webhook writes nothing in any case.
    The dashboard server of part_002 answers it 200 without processing
    it. *)
Theorem unsigned_webhook_writes_nothing :
  ∀ (hmac : Hmac) (webhook_env : option string) (now : Z) (st : BudgetData)
    (r : WebhookReq),
    (wh_signature r
     ≠ Some (hmac_sha256_hex (ApiServer.webhook_secret webhook_env)
               (wh_body_text r)) →
     ApiServer.webhook webhook_env st r
     = (st, ApiServer.fail 400 "Invalid signature"))
    ∧ (fst (PureApi.webhook webhook_env st r) = st
       ∧ (str_or webhook_env PureApi.placeholder_secret
          ≠ PureApi.placeholder_secret →
          wh_signature r
          ≠ Some (hmac_sha256_hex
                    (str_or webhook_env PureApi.placeholder_secret)
                    (wh_body_text r)) →
          PureApi.webhook webhook_env st r
          = (st, PureApi.fail 400 "Invalid signature"))
       ∧ (str_or webhook_env PureApi.placeholder_secret
          = PureApi.placeholder_secret →
          wh_has_payload r = true →
          PureApi.code (snd (PureApi.webhook webhook_env st r)) = 200%nat))
    ∧ (wh_signature r
       ≠ Some (hmac_sha256_hex Dashboard.webhookSecret (wh_body_text r)) →
       Dashboard.webhook now st r = (st, Dashboard.ok)).
Proof.
  intros hmac webhook_env now st r. repeat split.
  - intros Hsig. unfold ApiServer.webhook.
    by rewrite bool_decide_false.
  - unfold PureApi.webhook. destruct (_ && _)%bool; [done|].
    by destruct (wh_has_payload r).
  - intros Hsecret Hsig. unfold PureApi.webhook.
    rewrite (bool_decide_false _ Hsig).
    apply String.eqb_neq in Hsecret. by rewrite Hsecret.
  - intros Hsecret Hpayload. unfold PureApi.webhook.
    rewrite Hsecret, String.eqb_refl, Hpayload. done.
  - intros Hsig. unfold Dashboard.webhook.
    by rewrite bool_decide_false.
Qed.

Lemma unsigned_webhook_writes_nothing_witness :
  let st := Examples.registered in
  let r :=
    Examples.delivery "payment.captured"
      (Examples.capture (Examples.notes_for "u1")) None in
  ApiServer.webhook (hmac := Examples.tag) None st r
  = (st, ApiServer.fail 400 "Invalid signature")
  ∧ PureApi.webhook (hmac := Examples.tag) (Some "whsec_1") st r
    = (st, PureApi.fail 400 "Invalid signature")
  ∧ Dashboard.webhook (hmac := Examples.tag) 1 st r = (st, Dashboard.ok).
Proof.
  intros st r.
  destruct (unsigned_webhook_writes_nothing Examples.tag None 1 st r)
    as (Hapi & _ & Hdash).
  destruct (unsigned_webhook_writes_nothing Examples.tag (Some "whsec_1") 1 st r)
    as (_ & (_ & Hpure & _) & _).
  split; [|split].
  - apply Hapi. discriminate.
  - apply Hpure; [vm_compute; discriminate | discriminate].
  - apply Hdash. discriminate.
Defined.




(** Where the notes name a member that objects inherit, and no user goes
    by that name, the handler throws and the delivery is answered 500;
    nothing is recorded. *)
Lemma capture_for_inherited_name_fails :
  let r :=
    Examples.delivery "payment.captured"
      (Examples.capture (Examples.notes_for "constructor"))
      Examples.placeholder_signature in
  ApiServer.webhook (hmac := Examples.tag) None Examples.registered r
  = (Examples.registered, ApiServer.fail 500 "Webhook processing error").
Proof. reflexivity. Qed.


(** The webhook of the dashboard server (part_002) has neither early
    return: a capture whose notes carry no userId is filed under the
    user "anonymous", who is made up on the spot. *)
Lemma dashboard_capture_filed_under_anonymous :
  let r :=
    Examples.delivery "payment.captured"
      (Examples.capture
         (Some {| n_userId := None; n_category := None; n_description := None |}))
      Examples.placeholder_signature in
  let out := Dashboard.webhook (hmac := Examples.tag) 1 initial r in
  snd out = Dashboard.ok
  ∧ map tx_status (entries (fst out) "anonymous") = ["captured"]
  ∧ JSNum.eqv (spent_by (fst out) "anonymous") (Finite 500).
Proof. vm_compute. repeat split; reflexivity. Qed.

(** * The budget analysis *)



Lemma ltb_true (x y : Q) : (x < y)%Q → JSNum.ltb (Finite x) (Finite y) = true.
Proof.
  intros H. unfold JSNum.ltb. destruct (x ?= y)%Q eqn:E; by_compare E.
Qed.

Lemma ltb_false (x y : Q) : (y <= x)%Q → JSNum.ltb (Finite x) (Finite y) = false.
Proof.
  intros H. unfold JSNum.ltb. destruct (x ?= y)%Q eqn:E; by_compare E.
Qed.
















(** The analyzer of the dashboard server (part_002) has no guard: the
    quotient is taken whatever the limit, so 50 spent against a limit of
    -100 is reported as -50 percent. *)
Lemma dashboard_percentage_unguarded :
  Dashboard.spendingPercentage
  <$> Dashboard.analyzeBudget (Examples.dash_ledger 50 (-100)) "u1"
  = Some (Finite (- (5000 # 100))).
Proof. vm_compute. reflexivity. Qed.











(** * The category breakdown *)

Lemma property_bump (name category : string) (amount : num)
  (categories : list (string * num)) :
  name ≠ category →
  ApiServer.property name (ApiServer.bump category amount categories)
  = ApiServer.property name categories.
Proof.
  intros Hne. induction categories as [|[k v] rest IH]; simpl.
  - by rewrite (proj2 (String.eqb_neq category name)).
  - destruct (String.eqb k category) eqn:Ek; simpl.
    + apply String.eqb_eq in Ek. subst k.
      by rewrite (proj2 (String.eqb_neq category name)).
    + by rewrite IH.
Qed.

(** The category a transaction is tallied under. *)
Lemma tally_has_no_total (transactions : list Transaction) :
  Forall (fun t => tx_category t ≠ "total") transactions →
  ApiServer.property "total" (ApiServer.tally transactions) = None.
Proof.
  unfold ApiServer.tally.
  assert (∀ acc, ApiServer.property "total" acc = None →
            Forall (fun t => tx_category t ≠ "total") transactions →
            ApiServer.property "total"
              (fold_left
                 (fun categories t =>
                    ApiServer.bump
                      (if String.eqb (tx_category t) ""
                       then "Other" else tx_category t)
                      (tx_amount t) categories)
                 transactions acc) = None) as H.
  { induction transactions as [|t l IH]; intros acc Hacc Hall; [done|].
    inversion Hall as [|? ? Ht Hl]; subst. simpl. apply IH; [|done].
    rewrite property_bump; [done|].
    destruct (String.eqb (tx_category t) ""); [done|]. congruence. }
  by apply H.
Qed.

(** Unless some transaction is filed under a category named "total",
    the test [categories.total] fails and every percentage of the
    breakdown is the number 0. *)
Lemma breakdown_percentages_zero (transactions : list Transaction) :
  Forall (fun t => tx_category t ≠ "total") transactions →
  Forall (fun entry => ApiServer.share_percentage entry.2 = JSNum.zero)
         (ApiServer.getCategoryBreakdown transactions).
Proof.
  intros H. unfold ApiServer.getCategoryBreakdown.
  apply Forall_map, Forall_forall. intros kv _. simpl.
  by rewrite (tally_has_no_total _ H).
Qed.

(** No operation on doubles gives NaN from finite operands, and what
    it gives is a double. *)
Lemma round_double_summed (q : Q) : summed (JSNum.round_double q).
Proof.
  pose proof (round_double_error q) as He.
  destruct (JSNum.round_double q) as [| |v|] eqn:E; try done.
  simpl. by eapply round_double_on_grid.
Qed.

Lemma add_summed (a : num) (q : Q) :
  a ≠ NaN → summed (JSNum.add a (Finite q)).
Proof.
  destruct a as [| |x|]; try done. intros _. apply round_double_summed.
Qed.

Lemma summed_number (a : num) : summed a → a ≠ NaN.
Proof. by destruct a. Qed.

(** On doubles the comparator [b - a] of the sort is positive exactly
    when [a] is the smaller one: a difference of doubles is not rounded
    to zero. *)
Lemma place_comparator (x y : num) :
  summed x → summed y →
  JSNum.gtb (JSNum.sub x y) JSNum.zero = JSNum.ltb y x.
Proof.
  destruct x as [| |a|], y as [| |b|]; try done.
  intros Ha Hb. simpl in Ha, Hb.
  unfold JSNum.sub, JSNum.neg, JSNum.add.
  assert (JSNum.on_grid (a + - b)) as Hg
    by (by apply on_grid_plus, on_grid_opp).
  revert Hg. unfold JSNum.round_double, JSNum.gtb, JSNum.zero.
  destruct (0 ?= a + - b)%Q eqn:E; intros Hg.
  - apply Qeq_alt in E. by rewrite ltb_false, ltb_false by lra.
  - apply Qlt_alt in E. rewrite (ltb_true b a) by lra.
    destruct (JSNum.nearest_double (a + - b)) as [v|] eqn:Hn; [|done].
    apply ltb_true. by eapply nearest_double_positive.
  - apply Qgt_alt in E. rewrite (ltb_false b a) by lra.
    destruct (JSNum.nearest_double (- (a + - b))) as [v|] eqn:Hn; [|done].
    apply ltb_false.
    assert (0 <= v)%Q by (eapply nearest_double_nonneg; [|done]; lra). lra.
Qed.

Lemma leb_total (x y : num) :
  x ≠ NaN → y ≠ NaN → JSNum.ltb y x = false → JSNum.leb x y = true.
Proof.
  destruct x as [| |a|], y as [| |b|]; try done. intros _ _.
  unfold JSNum.ltb, JSNum.leb. rewrite <- (Qcompare_antisym a b).
  by destruct (a ?= b)%Q.
Qed.

Lemma ltb_leb (x y : num) : JSNum.ltb y x = true → JSNum.leb y x = true.
Proof.
  destruct x as [| |a|], y as [| |b|]; try done.
  unfold JSNum.ltb, JSNum.leb. by destruct (b ?= a)%Q.
Qed.

Lemma leb_trans (x y z : num) :
  JSNum.leb x y = true → JSNum.leb y z = true → JSNum.leb x z = true.
Proof.
  destruct x as [| |a|], y as [| |b|], z as [| |c|]; try done.
  unfold JSNum.leb.
  destruct (a ?= b)%Q eqn:E1; try done;
    destruct (b ?= c)%Q eqn:E2; try done;
    destruct (a ?= c)%Q eqn:E3; try done; intros _ _;
    first [apply Qeq_alt in E1 | apply Qlt_alt in E1];
    first [apply Qeq_alt in E2 | apply Qlt_alt in E2];
    apply Qgt_alt in E3; lra.
Qed.

(** The sort rearranges the entries and leaves them in descending order
    of amount. *)
Lemma place_perm x l : ApiServer.place x l ≡ₚ x :: l.
Proof.
  induction l as [|y l IH]; simpl; [done|].
  case_match; [done|]. rewrite IH. apply Permutation_swap.
Qed.

Lemma sort_desc_perm l : ApiServer.sort_desc l ≡ₚ l.
Proof.
  unfold ApiServer.sort_desc.
  assert (∀ acc, fold_left (fun sorted x => ApiServer.place x sorted) l acc ≡ₚ acc ++ l) as H.
  { induction l as [|x l IH]; intros acc; simpl.
    - by rewrite app_nil_r.
    - rewrite IH, place_perm. simpl. apply Permutation_middle. }
  apply (H []).
Qed.

Lemma place_sorted x l :
  summed x.2 → Forall (λ e, summed e.2) l →
  StronglySorted desc l → StronglySorted desc (ApiServer.place x l).
Proof.
  intros Hx Hl Hs.
  induction Hs as [|y l Hs IH Hy].
  - repeat constructor.
  - inversion Hl as [|? ? Hsy Hl']; subst.
    cbn [ApiServer.place]. rewrite place_comparator by done.
    destruct (JSNum.ltb y.2 x.2) eqn:E.
    + constructor; [by constructor|].
      constructor; [by apply ltb_leb|].
      eapply Forall_impl; [exact Hy|]. intros z Hz. unfold desc in *.
      eapply leb_trans; [exact Hz|]. by apply ltb_leb.
    + constructor; [by apply IH|].
      rewrite place_perm. constructor; [|done].
      apply leb_total; [by apply summed_number..|done].
Qed.

Lemma sort_desc_sorted l :
  Forall (λ e, summed e.2) l → StronglySorted desc (ApiServer.sort_desc l).
Proof.
  unfold ApiServer.sort_desc.
  assert (∀ acc, Forall (λ e, summed e.2) acc → StronglySorted desc acc →
            Forall (λ e, summed e.2) l →
            StronglySorted desc
              (fold_left (fun sorted x => ApiServer.place x sorted) l acc)) as H.
  { induction l as [|x l IH]; intros acc Hacc Hs Hl; simpl; [done|].
    inversion Hl; subst. apply IH; [|by apply place_sorted|done].
    by rewrite place_perm; constructor. }
  intros Hl. apply H; [done|constructor|done].
Qed.

Lemma bump_summed category (q : Q) categories :
  Forall (λ e, summed e.2) categories →
  Forall (λ e, summed e.2) (ApiServer.bump category (Finite q) categories).
Proof.
  intros H. induction H as [|[k v] rest Hv Hrest IH]; cbn [ApiServer.bump].
  - repeat constructor. by apply add_summed.
  - destruct (String.eqb k category).
    + constructor; [|done]. cbn [snd]. apply add_summed.
      unfold JSNum.or_else. destruct (JSNum.truthy v); [|done].
      by apply summed_number.
    + by constructor.
Qed.

Lemma tally_summed transactions :
  Forall (fun t => ∃ q, tx_amount t = Finite q) transactions →
  Forall (λ e, summed e.2) (ApiServer.tally transactions).
Proof.
  unfold ApiServer.tally.
  assert (∀ acc, Forall (λ e, summed e.2) acc →
            Forall (fun t => ∃ q, tx_amount t = Finite q) transactions →
            Forall (λ e, summed e.2)
              (fold_left
                 (fun categories t =>
                    ApiServer.bump
                      (if String.eqb (tx_category t) ""
                       then "Other" else tx_category t)
                      (tx_amount t) categories)
                 transactions acc)) as H.
  { induction transactions as [|t l IH]; intros acc Hacc Hl; [done|].
    inversion Hl as [|? ? [q Hq] Hl']; subst. simpl. apply IH; [|done].
    rewrite Hq. by apply bump_summed. }
  by apply H.
Qed.

(** With finite amounts under plain category names, the breakdown lists
    the categories by descending amount. *)
Lemma breakdown_sorted transactions :
  Forall (fun t => ∃ q, tx_amount t = Finite q) transactions →
  plain_categories transactions →
  StronglySorted
    (fun a b => JSNum.leb (ApiServer.share_amount b.2) (ApiServer.share_amount a.2) = true)
    (ApiServer.getCategoryBreakdown transactions).
Proof.
  intros H _. unfold ApiServer.getCategoryBreakdown.
  pose proof (sort_desc_sorted _ (tally_summed _ H)) as Hs.
  induction Hs as [|x l Hs IH Hx]; simpl; constructor; [done|].
  apply Forall_map. eapply Forall_impl; [exact Hx|]. done.
Qed.

(** C7 (the code at the failing input): for one purchase of 100 filed
    under Food the breakdown reports Food with amount 100 and
    percentage 0, not 100; for purchases under two categories the
    entries are sorted by amount and both percentages are 0. *)
Theorem breakdown_reports_zero_percent :
  ApiServer.getCategoryBreakdown [Examples.purchase "Food" 100]
  = [("Food", {| ApiServer.share_amount := Finite 100;
                 ApiServer.share_percentage := Finite 0 |})]
  ∧ ApiServer.getCategoryBreakdown
      [Examples.purchase "Food" 100; Examples.purchase "Rent" 300;
       Examples.purchase "Food" 50]
    = [("Rent", {| ApiServer.share_amount := Finite 300;
                   ApiServer.share_percentage := Finite 0 |});
       ("Food", {| ApiServer.share_amount := Finite 150;
                   ApiServer.share_percentage := Finite 0 |})].
Proof. split; vm_compute; reflexivity. Qed.

(** * Whole runs: what every request does to ledgers, log and counters *)

Lemma entries_lookup (st : BudgetData) (k : string) :
  users st !! k = None → entries st k = [] ∧ spent_by st k = JSNum.zero.
Proof. intros H. unfold entries, spent_by. by rewrite H. Qed.

Lemma logged_for_snoc (uid k : string) (ps : list Payment) (t : Transaction) :
  logged_for uid (ps ++ [{| pay_tx := t; pay_userId := Some k |}])
  = logged_for uid ps ++ (if decide (k = uid) then [t] else []).
Proof.
  unfold logged_for. rewrite List.filter_app, map_app. f_equal. simpl.
  destruct (decide (k = uid)) as [->|Hne].
  - by rewrite bool_decide_true.
  - rewrite bool_decide_false; [done|congruence].
Qed.

Lemma initial_coherent : coherent initial.
Proof.
  split; try done. intros k [u Hu]. simpl in Hu. by rewrite lookup_empty in Hu.
Qed.

Lemma size_insert_user (m : gmap string User) (k : string) (u : User) :
  size m ≤ size (<[k:=u]> m) ∧ (m !! k = None → size (<[k:=u]> m) = S (size m)).
Proof.
  rewrite map_size_insert. destruct (m !! k); split; (lia || done).
Qed.

(** The effect of a request keeps a coherent state coherent. *)
Lemma effect_coherent (captures : bool) (st st' : BudgetData) :
  effect captures st st' → coherent st → coherent st'.
Proof.
  intros Heff [Hids Hown Hent Hlog Hcount Hamount Husers].
  destruct Heff as [Hu Hp Ha | k u Hk Hplain Hu Hid Htx Hsp Hp Hc Hm Hn
                   | k new t Hfor Hu Hid Htx Hsp Hp Hn Hcnt].
  - split.
    + intros k u. rewrite Hu. apply Hids.
    + intros k. rewrite Hu. apply Hown.
    + intros k. unfold entries. rewrite Hu. apply Hent.
    + intros k. unfold entries. rewrite Hu, Hp. apply Hlog.
    + by rewrite Ha, Hp.
    + by rewrite Ha, Hp.
    + by rewrite Ha, Hu.
  - destruct (entries_lookup st k Hk) as [Hek _]. split.
    + intros k0 u0. rewrite Hu, lookup_insert.
      destruct (decide (k = k0)) as [<-|]; [|apply Hids]. by intros [= <-].
    + intros k0. rewrite Hu, lookup_insert.
      destruct (decide (k = k0)) as [<-|]; [done|apply Hown].
    + intros k0. rewrite (entries_insert _ _ _ _ _ Hu).
      destruct (decide (k = k0)); [|apply Hent]. rewrite Htx. constructor.
    + intros k0. rewrite (entries_insert _ _ _ _ _ Hu), Hp, Hlog.
      destruct (decide (k = k0)) as [<-|]; [|done]. by rewrite Hek, Htx.
    + by rewrite Hc, Hp.
    + by rewrite Hm, Hp.
    + rewrite Hu. destruct (size_insert_user (users st) k u) as [_ Hs].
      rewrite (Hs Hk). lia.
  - assert (wellformed t) as Hct.
    { unfold wellformed, counted.
      destruct Hcnt as [(-> & ? & _)|(_ & -> & _)]; done. }
    split.
    + intros k0 u0. rewrite Hu, lookup_insert.
      destruct (decide (k = k0)) as [<-|]; [|apply Hids].
      intros [= <-]. rewrite Hid.
      destruct (users st !! k) as [old|] eqn:Hold; [|done]. simpl. by eapply Hids.
    + intros k0. rewrite Hu, lookup_insert.
      destruct (decide (k = k0)) as [<-|]; [|apply Hown]. intros _.
      destruct (foreign_false _ _ Hfor) as [Hsome|[_ Hplain]]; [|done].
      by apply Hown.
    + intros k0. rewrite (entries_insert _ _ _ _ _ Hu).
      destruct (decide (k = k0)); [|apply Hent]. rewrite Htx.
      apply Forall_app. split; [apply Hent|]. by constructor.
    + intros k0. rewrite (entries_insert _ _ _ _ _ Hu), Hp, logged_for_snoc, Hlog.
      destruct (decide (k = k0)) as [<-|]; [by rewrite Htx|by rewrite app_nil_r].
    + rewrite Hp. unfold confirmed. rewrite List.filter_app, length_app. simpl.
      destruct Hcnt as [(Hs & _ & -> & _)|(_ & Hs & -> & _)]; rewrite Hs; simpl.
      * rewrite Hcount. unfold confirmed. lia.
      * rewrite Hcount. unfold confirmed. lia.
    + rewrite Hp. unfold confirmed, amount_sum.
      rewrite List.filter_app. simpl.
      destruct Hcnt as [(Hs & _ & _ & ->)|(_ & Hs & _ & ->)]; rewrite Hs; simpl.
      * rewrite fold_left_app. simpl. by rewrite Hamount.
      * by rewrite app_nil_r.
    + rewrite Hu, Hn. destruct (size_insert_user (users st) k new) as [Hs _].
      lia.
Qed.

(** The effect of a request only appends to a ledger and removes no user. *)
Lemma effect_grows (captures : bool) (st st' : BudgetData) (uid : string) :
  effect captures st st' →
  entries st uid `prefix_of` entries st' uid
  ∧ (is_Some (users st !! uid) → is_Some (users st' !! uid)).
Proof.
  intros [Hu Hp Ha | k u Hk Hplain Hu Hid Htx Hsp Hp Hc Hm Hn
         | k new t Hfor Hu Hid Htx Hsp Hp Hn Hcnt].
  - unfold entries. by rewrite Hu.
  - rewrite (entries_insert _ _ _ _ _ Hu), Hu, lookup_insert.
    destruct (decide (k = uid)) as [<-|]; [|done].
    destruct (entries_lookup st k Hk) as [-> _]. split; [|by eauto].
    apply prefix_nil.
  - rewrite (entries_insert _ _ _ _ _ Hu), Hu, lookup_insert.
    destruct (decide (k = uid)) as [<-|]; [|done].
    split; [|by eauto]. rewrite Htx. by apply prefix_app_r.
Qed.

Lemma truthy_is_Some (o : option string) : truthy_str o = true → is_Some o.
Proof. destruct o; [by eauto|done]. Qed.

Lemma default_id (st : BudgetData) (k : string) (d : User) :
  u_id d = Some k →
  u_id (default d (users st !! k)) = from_option u_id (Some k) (users st !! k).
Proof. intros Hd. by destruct (users st !! k). Qed.

(** Runs are folds of the handlers: what every request keeps, a run keeps. *)
Lemma fold_effect_coherent {Req : Type} (serve : BudgetData → Req → BudgetData)
  (captures : bool) :
  (∀ st q, effect captures st (serve st q)) →
  ∀ qs st, coherent st → coherent (fold_left serve qs st).
Proof.
  intros Hserve qs. induction qs as [|q qs IH]; intros st Hst; [done|].
  simpl. apply IH. by eapply effect_coherent.
Qed.

Lemma fold_effect_grows {Req : Type} (serve : BudgetData → Req → BudgetData)
  (captures : bool) (uid : string) :
  (∀ st q, effect captures st (serve st q)) →
  ∀ qs st,
    entries st uid `prefix_of` entries (fold_left serve qs st) uid
    ∧ (is_Some (users st !! uid) → is_Some (users (fold_left serve qs st) !! uid)).
Proof.
  intros Hserve qs. induction qs as [|q qs IH]; intros st; [done|].
  simpl. destruct (IH (serve st q)) as [Hp Hu].
  destruct (effect_grows captures st (serve st q) uid (Hserve st q)) as [Hp' Hu'].
  split; [by etrans|auto].
Qed.

Section PureApiEffects.

Context {hmac : Hmac} {gateway : Gateway}.
Variable key_secret : string.
Variable webhook_env : option string.

Lemma pure_create_user_effect now st r :
  effect false st (fst (PureApi.create_user now st r)).
Proof.
  unfold PureApi.create_user.
  destruct (accepted_id (cu_userId r)) as [userId|]; [|by apply effect_none].
  destruct (users st !! userId) eqn:Hu; [by apply effect_none|].
  destruct (inherited userId) eqn:Hplain; [by apply effect_none|].
  simpl. eapply effect_user; try done; simpl; lia.
Qed.

Lemma pure_create_order_effect now st r :
  effect false st (fst (PureApi.create_order now st r)).
Proof.
  unfold PureApi.create_order.
  destruct (accepted_number (co_amount r)) as [amount|]; [|by apply effect_none].
  destruct (accepted_id (co_userId r)) as [userId|]; [|by apply effect_none].
  assert (effect false st
            match users st !! userId with
            | Some _ => st
            | None =>
                if inherited userId then st else
                set_budgets (insert userId PureApi.auto_budget)
                  (set_users (insert userId (PureApi.auto_user now userId)) st)
            end) as Heff.
  { destruct (users st !! userId) eqn:Hu; [by apply effect_none|].
    destruct (inherited userId) eqn:Hplain; [by apply effect_none|].
    eapply effect_user; try done; simpl; lia. }
  by destruct (orders_create _).
Qed.

Lemma pure_verify_payment_effect now st r :
  effect false st (fst (PureApi.verify_payment key_secret now st r)).
Proof.
  unfold PureApi.verify_payment.
  destruct (negb _) eqn:Hreq; [by apply effect_none|].
  destruct (accepted_id (v_userId r)) as [userId|]; [|by apply effect_none].
  destruct (negb (bool_decide _)); [by apply effect_none|].
  destruct (foreign _ _) eqn:Hfor; [by apply effect_none|].
  apply negb_false_iff in Hreq.
  apply andb_prop in Hreq as [Hreq _]. apply andb_prop in Hreq as [_ Hpid].
  simpl.
  eapply effect_record with (k := userId);
    [done | reflexivity | | | | reflexivity | reflexivity
    | left; repeat split; by apply truthy_is_Some].
  - simpl. by apply default_id.
  - simpl. by rewrite default_entries.
  - simpl. by rewrite default_spent.
Qed.

Lemma pure_set_budget_effect st r :
  effect false st (fst (PureApi.set_budget st r)).
Proof.
  unfold PureApi.set_budget.
  destruct (accepted_id (sb_userId r)); [|by apply effect_none].
  destruct (accepted_number (sb_monthlyLimit r)); by apply effect_none.
Qed.

Lemma pure_handle_effect st q :
  effect false st (fst (PureApi.handle key_secret webhook_env st q)).
Proof.
  destruct q; simpl.
  - apply pure_create_user_effect.
  - apply pure_create_order_effect.
  - apply pure_verify_payment_effect.
  - rewrite pure_webhook_unchanged. by apply effect_none.
  - apply pure_set_budget_effect.
Qed.

End PureApiEffects.

Section ApiServerEffects.

Context {hmac : Hmac} {gateway : Gateway}.
Variable key_secret : option string.
Variable webhook_env : option string.

Lemma api_create_user_effect now st r :
  effect true st (fst (ApiServer.create_user now st r)).
Proof.
  unfold ApiServer.create_user.
  destruct (negb _); [by apply effect_none|].
  destruct (users st !! _) eqn:Hu; [by apply effect_none|].
  destruct (inherited _) eqn:Hplain; [by apply effect_none|].
  simpl. eapply effect_user; try done; simpl; lia.
Qed.

Lemma api_create_order_effect now st r :
  effect true st (fst (ApiServer.create_order now st r)).
Proof.
  unfold ApiServer.create_order.
  destruct (co_amount r) as [amount|]; [|by apply effect_none].
  destruct (_ || _)%bool; [by apply effect_none|].
  destruct (negb _); [by apply effect_none|].
  set (userId := to_str (co_userId r)).
  assert (effect true st
            match users st !! userId with
            | Some _ => st
            | None =>
                if inherited userId then st
                else set_users (insert userId (ApiServer.auto_user now userId)) st
            end) as Heff.
  { destruct (users st !! userId) eqn:Hu; [by apply effect_none|].
    destruct (inherited userId) eqn:Hplain; [by apply effect_none|].
    eapply effect_user; try done; simpl; lia. }
  by destruct (orders_create _).
Qed.

Lemma api_verify_payment_effect now st r :
  effect true st (fst (ApiServer.verify_payment key_secret now st r)).
Proof.
  unfold ApiServer.verify_payment.
  destruct (negb _) eqn:Hreq; [by apply effect_none|].
  destruct key_secret as [secret|]; [|by apply effect_none].
  destruct (negb (bool_decide _)); [by apply effect_none|].
  destruct (foreign _ _) eqn:Hfor; [by apply effect_none|].
  apply negb_false_iff in Hreq.
  apply andb_prop in Hreq as [Hreq _]. apply andb_prop in Hreq as [Hreq _].
  apply andb_prop in Hreq as [_ Hpid].
  simpl.
  eapply effect_record with (k := to_str (v_userId r));
    [done | reflexivity | | | | reflexivity | reflexivity
    | left; repeat split; by apply truthy_is_Some].
  - simpl. by apply default_id.
  - simpl. by rewrite default_entries.
  - simpl. by rewrite default_spent.
Qed.

Lemma api_captured_effect st payment st' :
  ApiServer.handlePaymentCaptured st payment = Some st' → effect true st st'.
Proof.
  unfold ApiServer.handlePaymentCaptured.
  destruct (negb _); [intros [= <-]; by apply effect_none|].
  destruct (users st !! _) as [user|] eqn:Hu;
    [|destruct (inherited _); [done|]; intros [= <-]; by apply effect_none].
  destruct (holds_id _ _); [intros [= <-]; by apply effect_none|].
  destruct (iso_date_of _) as [date|]; [|done].
  intros [= <-].
  eapply effect_record with (k := to_str (p_notes payment ≫= n_userId));
    [by apply foreign_found; eexists | reflexivity | | |
    | reflexivity | reflexivity | right; by repeat split].
  - simpl. by rewrite Hu.
  - simpl. unfold entries. by rewrite Hu.
  - simpl. unfold spent_by. by rewrite Hu.
Qed.

Lemma api_webhook_effect st r :
  effect true st (fst (ApiServer.webhook webhook_env st r)).
Proof.
  unfold ApiServer.webhook.
  destruct (negb _); [by apply effect_none|].
  destruct (negb _); [by apply effect_none|].
  destruct (ApiServer.dispatch st r) as [st'|] eqn:Hd; [|by apply effect_none].
  simpl. revert Hd.
  unfold ApiServer.dispatch, ApiServer.handlePaymentFailed,
    ApiServer.handleOrderPaid.
  destruct (is_event r "payment.captured").
  { destruct (payment_entity r) as [p|]; [|done]. apply api_captured_effect. }
  destruct (is_event r "payment.failed").
  { destruct (payment_entity r); [|done]. intros [= <-]. by apply effect_none. }
  destruct (is_event r "order.paid").
  { destruct (order_entity r); [|done]. intros [= <-]. by apply effect_none. }
  intros [= <-]. by apply effect_none.
Qed.

Lemma api_set_budget_effect st r :
  effect true st (fst (ApiServer.set_budget st r)).
Proof.
  unfold ApiServer.set_budget.
  destruct (negb _); [by apply effect_none|].
  destruct (sb_monthlyLimit r); [|by apply effect_none].
  destruct (_ || _)%bool; by apply effect_none.
Qed.

Lemma api_handle_effect st q :
  effect true st (fst (ApiServer.handle key_secret webhook_env st q)).
Proof.
  destruct q; simpl.
  - apply api_create_user_effect.
  - apply api_create_order_effect.
  - apply api_verify_payment_effect.
  - apply api_webhook_effect.
  - apply api_set_budget_effect.
Qed.

End ApiServerEffects.

Section RenderDeployEffects.

Context {hmac : Hmac} {gateway : Gateway}.
Variable key_secret : option string.

Lemma render_create_user_effect now st r :
  effect false st (fst (RenderDeploy.create_user now st r)).
Proof.
  unfold RenderDeploy.create_user.
  destruct (negb _); [by apply effect_none|].
  destruct (users st !! _) eqn:Hu; [by apply effect_none|].
  destruct (inherited _) eqn:Hplain; [by apply effect_none|].
  simpl. eapply effect_user; try done; simpl; lia.
Qed.

Lemma render_create_order_effect now st r :
  effect false st (fst (RenderDeploy.create_order now st r)).
Proof.
  unfold RenderDeploy.create_order.
  destruct (co_amount r) as [amount|]; [|by apply effect_none].
  destruct (_ || _)%bool; [by apply effect_none|].
  set (userId := to_str (co_userId r)).
  assert (effect false st
            match users st !! userId with
            | Some _ => st
            | None =>
                if inherited userId then st
                else set_users (insert userId (RenderDeploy.auto_user now userId)) st
            end) as Heff.
  { destruct (users st !! userId) eqn:Hu; [by apply effect_none|].
    destruct (inherited userId) eqn:Hplain; [by apply effect_none|].
    eapply effect_user; try done; simpl; lia. }
  by destruct (orders_create _).
Qed.

Lemma render_verify_payment_effect now st r :
  effect false st (fst (RenderDeploy.verify_payment key_secret now st r)).
Proof.
  unfold RenderDeploy.verify_payment.
  destruct (negb _) eqn:Hreq; [by apply effect_none|].
  destruct key_secret as [secret|]; [|by apply effect_none].
  destruct (negb (bool_decide _)); [by apply effect_none|].
  apply negb_false_iff in Hreq.
  apply andb_prop in Hreq as [Hreq _]. apply andb_prop in Hreq as [Hreq _].
  apply andb_prop in Hreq as [_ Hpid].
  destruct (foreign _ _) eqn:Hfor; [by apply effect_none|].
  simpl.
  destruct (users st !! to_str (v_userId r)) as [user|] eqn:Hu;
    [|by apply effect_none].
  eapply effect_record with (k := to_str (v_userId r));
    [done | reflexivity | | | | reflexivity | reflexivity
    | left; repeat split; by apply truthy_is_Some].
  - simpl. by rewrite Hu.
  - simpl. unfold entries. by rewrite Hu.
  - simpl. unfold spent_by. by rewrite Hu.
Qed.

Lemma render_handle_effect st q :
  effect false st (fst (RenderDeploy.handle key_secret st q)).
Proof.
  destruct q; simpl.
  - apply render_create_user_effect.
  - apply render_create_order_effect.
  - apply render_verify_payment_effect.
  - by apply effect_none.
Qed.

End RenderDeployEffects.

Lemma effect_only_confirmations (st st' : BudgetData) :
  effect false st st' →
  confirmed (payments st) = payments st → confirmed (payments st') = payments st'.
Proof.
  intros [Hu Hp Ha | k u Hk Hplain Hu Hid Htx Hsp Hp Hc Hm Hn
         | k new t Hfor Hu Hid Htx Hsp Hp Hn Hcnt] Hall.
  - by rewrite Hp.
  - by rewrite Hp.
  - destruct Hcnt as [(Hs & _)|(? & _)]; [|done].
    rewrite Hp. unfold confirmed in *. rewrite List.filter_app, Hall. simpl.
    by rewrite Hs.
Qed.


Lemma fold_only_confirmations {Req : Type} (serve : BudgetData → Req → BudgetData) :
  (∀ st q, effect false st (serve st q)) →
  ∀ qs st, confirmed (payments st) = payments st →
    confirmed (payments (fold_left serve qs st)) = payments (fold_left serve qs st).
Proof.
  intros Hserve qs. induction qs as [|q qs IH]; intros st Hst; [done|].
  simpl. apply IH. by eapply effect_only_confirmations.
Qed.

(** X1: in the pure API server, the API server (part_000) and the
    render-deploy server, serving any sequence of requests from any
    state only ever appends to a user's ledger (the ledger before is a
    prefix of the ledger after: no transaction is removed, changed or
    reordered) and never removes a user record. *)
Theorem ledgers_only_grow {hmac : Hmac} {gateway : Gateway}
  (pure_secret : string) (key_secret webhook_env : option string)
  (st : BudgetData) (uid : string) :
  (∀ qs, let st' := PureApi.run pure_secret webhook_env st qs in
     entries st uid `prefix_of` entries st' uid
     ∧ (is_Some (users st !! uid) → is_Some (users st' !! uid)))
  ∧ (∀ qs, let st' := ApiServer.run key_secret webhook_env st qs in
     entries st uid `prefix_of` entries st' uid
     ∧ (is_Some (users st !! uid) → is_Some (users st' !! uid)))
  ∧ (∀ qs, let st' := RenderDeploy.run key_secret st qs in
     entries st uid `prefix_of` entries st' uid
     ∧ (is_Some (users st !! uid) → is_Some (users st' !! uid))).
Proof.
  split; [|split]; intros qs st'; subst st'.
  - unfold PureApi.run. apply fold_effect_grows with (captures := false).
    intros. apply pure_handle_effect.
  - unfold ApiServer.run. apply fold_effect_grows with (captures := true).
    intros. apply api_handle_effect.
  - unfold RenderDeploy.run. apply fold_effect_grows with (captures := false).
    intros. apply render_handle_effect.
Qed.

(** X2: started from the empty [budgetData], after any sequence of
    requests the entries of the global payment log that carry a given
    userId are, in order, exactly that user's ledger; this holds in the
    pure API server, the API server (part_000) and the render-deploy
    server. *)
Theorem payment_log_mirrors_ledgers {hmac : Hmac} {gateway : Gateway}
  (pure_secret : string) (key_secret webhook_env : option string) (uid : string) :
  (∀ qs, let st := PureApi.run pure_secret webhook_env initial qs in
     logged_for uid (payments st) = entries st uid)
  ∧ (∀ qs, let st := ApiServer.run key_secret webhook_env initial qs in
     logged_for uid (payments st) = entries st uid)
  ∧ (∀ qs, let st := RenderDeploy.run key_secret initial qs in
     logged_for uid (payments st) = entries st uid).
Proof.
  split; [|split]; intros qs st; subst st; apply coh_log.
  - unfold PureApi.run.
    apply fold_effect_coherent with (captures := false);
      [intros; apply pure_handle_effect|apply initial_coherent].
  - unfold ApiServer.run.
    apply fold_effect_coherent with (captures := true);
      [intros; apply api_handle_effect|apply initial_coherent].
  - unfold RenderDeploy.run.
    apply fold_effect_coherent with (captures := false);
      [intros; apply render_handle_effect|apply initial_coherent].
Qed.

(** X3: started from the empty [budgetData], the analytics counters
    follow the payment log.  In the pure API server and the render-deploy
    server [totalTransactions] is the length of the log and [totalAmount]
    the in-order sum of its amounts.  In the API server (part_000), where
    webhook captures are logged without being counted, they are the
    number and the in-order sum of the log entries with status success. *)
Theorem counters_follow_confirmations {hmac : Hmac} {gateway : Gateway}
  (pure_secret : string) (key_secret webhook_env : option string) :
  (∀ qs, let st := PureApi.run pure_secret webhook_env initial qs in
     totalTransactions (analytics st) = Z.of_nat (length (payments st))
     ∧ totalAmount (analytics st) = amount_sum (payments st))
  ∧ (∀ qs, let st := RenderDeploy.run key_secret initial qs in
     totalTransactions (analytics st) = Z.of_nat (length (payments st))
     ∧ totalAmount (analytics st) = amount_sum (payments st))
  ∧ (∀ qs, let st := ApiServer.run key_secret webhook_env initial qs in
     totalTransactions (analytics st) = Z.of_nat (length (confirmed (payments st)))
     ∧ totalAmount (analytics st) = amount_sum (confirmed (payments st))).
Proof.
  split; [|split]; intros qs st; subst st.
  - unfold PureApi.run.
    rewrite <- (fold_only_confirmations _ (λ s q, pure_handle_effect _ _ s q) qs initial)
      by done.
    split; [apply coh_count|apply coh_amount];
      (apply fold_effect_coherent with (captures := false);
       [intros; apply pure_handle_effect|apply initial_coherent]).
  - unfold RenderDeploy.run.
    rewrite <- (fold_only_confirmations _ (λ s q, render_handle_effect _ s q) qs initial)
      by done.
    split; [apply coh_count|apply coh_amount];
      (apply fold_effect_coherent with (captures := false);
       [intros; apply render_handle_effect|apply initial_coherent]).
  - unfold ApiServer.run.
    split; [apply coh_count|apply coh_amount];
      (apply fold_effect_coherent with (captures := true);
       [intros; apply api_handle_effect|apply initial_coherent]).
Qed.


(** A webhook capture whose payload has no payment id is stored without
    one by the API server (part_000). *)
Lemma capture_without_id_stored :
  let payment :=
    {| p_id := None; p_order_id := None; p_amount := JSNum.of_Z 50000;
       p_notes := Examples.notes_for "u1";
       p_created_at := JSNum.of_Z 1700000000 |} in
  let out :=
    ApiServer.webhook (hmac := Examples.tag) None Examples.registered
      (Examples.delivery "payment.captured" payment
         Examples.placeholder_signature) in
  snd out = ApiServer.received
  ∧ map tx_id (entries (fst out) "u1") = [None]
  ∧ map tx_status (entries (fst out) "u1") = ["captured"].
Proof. vm_compute. repeat split; reflexivity. Qed.

(** * Arrays: [slice] and the newest-first [sort] *)

Lemma slice_index_nonneg (len : nat) (i : Z) :
  (0 ≤ i)%Z → slice_index len i = Nat.min (Z.to_nat i) len.
Proof. intros Hi. unfold slice_index. by rewrite (proj2 (Z.ltb_ge i 0)). Qed.

(** With bounds that are not negative, [slice] drops and takes. *)
Lemma js_slice_nonneg {A : Type} (a b : Z) (l : list A) :
  (0 ≤ a)%Z → (0 ≤ b)%Z →
  js_slice a b l = take (Z.to_nat b - Z.to_nat a) (drop (Z.to_nat a) l).
Proof.
  intros Ha Hb. unfold js_slice. rewrite !slice_index_nonneg by done.
  destruct (decide (length l ≤ Z.to_nat a)) as [Hle|Hgt].
  - rewrite (Nat.min_r (Z.to_nat a)) by done. rewrite !drop_ge by lia.
    by rewrite !take_nil.
  - rewrite (Nat.min_l (Z.to_nat a)) by lia.
    destruct (decide (Z.to_nat b ≤ length l)).
    + by rewrite (Nat.min_l (Z.to_nat b)).
    + rewrite (Nat.min_r (Z.to_nat b)) by lia.
      rewrite !take_ge; [done| |]; rewrite length_drop; lia.
Qed.

Lemma place_newer_perm {A : Type} (key : A → Z) (x : A) (l : list A) :
  place_newer key x l ≡ₚ x :: l.
Proof.
  induction l as [|y l IH]; [done|]. simpl.
  destruct (0 <? key x - key y)%Z; [done|].
  rewrite IH. apply Permutation_swap.
Qed.

Lemma newest_first_snoc {A : Type} (key : A → Z) (l : list A) (x : A) :
  newest_first key (l ++ [x]) = place_newer key x (newest_first key l).
Proof. unfold newest_first. by rewrite fold_left_app. Qed.

Lemma newest_first_perm {A : Type} (key : A → Z) (l : list A) :
  newest_first key l ≡ₚ l.
Proof.
  induction l as [|x l IH] using rev_ind; [done|].
  rewrite newest_first_snoc, place_newer_perm, IH.
  by rewrite Permutation_cons_append.
Qed.

Lemma place_newer_sorted {A : Type} (key : A → Z) (x : A) (l : list A) :
  StronglySorted (λ a b, (key b ≤ key a)%Z) l →
  StronglySorted (λ a b, (key b ≤ key a)%Z) (place_newer key x l).
Proof.
  induction 1 as [|y l Hl IH Hy]; simpl.
  - repeat constructor.
  - destruct (0 <? key x - key y)%Z eqn:E.
    + apply Z.ltb_lt in E. constructor; [by constructor|].
      constructor; [lia|]. eapply Forall_impl; [exact Hy|]. simpl. lia.
    + apply Z.ltb_ge in E. constructor; [done|].
      rewrite place_newer_perm. constructor; [lia|done].
Qed.

Lemma newest_first_sorted {A : Type} (key : A → Z) (l : list A) :
  StronglySorted (λ a b, (key b ≤ key a)%Z) (newest_first key l).
Proof.
  induction l as [|x l IH] using rev_ind; [constructor|].
  rewrite newest_first_snoc. by apply place_newer_sorted.
Qed.

(** Among the elements of one date, a newly placed element comes last. *)
Lemma place_newer_same_date {A : Type} (key : A → Z) (d : Z) (x : A) (l : list A) :
  StronglySorted (λ a b, (key b ≤ key a)%Z) l →
  List.filter (λ a, (key a =? d)%Z) (place_newer key x l)
  = List.filter (λ a, (key a =? d)%Z) l ++ (if (key x =? d)%Z then [x] else []).
Proof.
  induction 1 as [|y l Hl IH Hy]; [done|]. simpl.
  destruct (0 <? key x - key y)%Z eqn:E.
  - apply Z.ltb_lt in E. simpl.
    destruct (key x =? d)%Z eqn:Ex; [|by rewrite app_nil_r].
    apply Z.eqb_eq in Ex.
    rewrite (proj2 (Z.eqb_neq (key y) d)) by lia.
    replace (List.filter (λ a, (key a =? d)%Z) l) with (@nil A); [done|].
    clear -Hy E Ex. induction Hy as [|z l Hz _ IH]; [done|]. simpl.
    by rewrite (proj2 (Z.eqb_neq (key z) d)) by lia.
  - simpl. rewrite IH. by destruct (key y =? d)%Z.
Qed.

Lemma newest_first_same_date {A : Type} (key : A → Z) (d : Z) (l : list A) :
  List.filter (λ a, (key a =? d)%Z) (newest_first key l)
  = List.filter (λ a, (key a =? d)%Z) l.
Proof.
  induction l as [|x l IH] using rev_ind; [done|].
  rewrite newest_first_snoc, place_newer_same_date by apply newest_first_sorted.
  by rewrite IH, List.filter_app.
Qed.

Lemma js_slice_sublist {A : Type} (a b : Z) (l : list A) :
  js_slice a b l `sublist_of` l.
Proof.
  unfold js_slice. simpl. etrans; [apply sublist_take|apply sublist_drop].
Qed.

Lemma sorted_app {A : Type} (R : A → A → Prop) (l1 l2 : list A) :
  StronglySorted R (l1 ++ l2) → StronglySorted R l1 ∧ StronglySorted R l2.
Proof.
  induction l1 as [|x l1 IH]; simpl; intros H; [by split; [constructor|]|].
  apply StronglySorted_inv in H as [H Hx]. destruct (IH H) as [H1 H2].
  split; [|done]. constructor; [done|].
  apply Forall_app in Hx. tauto.
Qed.

Lemma js_slice_sorted {A : Type} (R : A → A → Prop) (a b : Z) (l : list A) :
  StronglySorted R l → StronglySorted R (js_slice a b l).
Proof.
  intros Hl. unfold js_slice. simpl.
  set (first := slice_index (length l) a).
  rewrite <- (take_drop first l) in Hl.
  apply sorted_app in Hl as [_ Hl].
  rewrite <- (take_drop (slice_index (length l) b - first) (drop first l)) in Hl.
  by apply sorted_app in Hl as [Hl _].
Qed.

(** The two filters of a listing, as one. *)
Lemma filtered_passes (q : TransactionsQuery) (l : list Transaction) :
  filtered q l = List.filter (passes q) l.
Proof.
  unfold filtered, passes.
  destruct (selects (tq_category q)), (selects (tq_status q)); simpl.
  - induction l as [|t l IH]; [done|]. simpl.
    destruct (String.eqb (tx_category t) _); simpl; [|done].
    destruct (String.eqb (tx_status t) _); simpl; by rewrite IH.
  - induction l as [|t l IH]; [done|]. simpl.
    rewrite andb_true_r. destruct (String.eqb (tx_category t) _); by rewrite IH.
  - done.
  - induction l as [|t l IH]; [done|]. simpl. by f_equal.
Qed.

Lemma list_filter_sublist {A : Type} (f : A → bool) (l : list A) :
  List.filter f l `sublist_of` l.
Proof.
  induction l as [|x l IH]; [done|]. simpl.
  destruct (f x); by constructor.
Qed.

Lemma list_filter_Forall {A : Type} (f : A → bool) (l : list A) :
  Forall (λ x, f x = true) (List.filter f l).
Proof.
  induction l as [|x l IH]; [done|]. simpl.
  destruct (f x) eqn:E; [by constructor|done].
Qed.

(** * Transaction listings *)

(** Both listing endpoints answer with a slice of the filtered ledger,
    sorted newest first, and with the length of that listing. *)
Lemma pure_page_slice (st : BudgetData) (uid : string) (q : TransactionsQuery)
  (page : Page) :
  PureApi.get_transactions st uid q = Some page →
  ∃ a b,
    pg_transactions page
    = js_slice a b (newest_first tx_date (filtered q (entries st uid)))
    ∧ pg_total page = length (newest_first tx_date (filtered q (entries st uid))).
Proof.
  unfold PureApi.get_transactions, entries.
  destruct (users st !! uid) as [user|]; [|done].
  intros [= <-]. simpl. by eexists _, _.
Qed.

Lemma api_page_slice (st : BudgetData) (uid : string) (q : TransactionsQuery)
  (page : Page) :
  ApiServer.get_transactions st uid q = Some page →
  ∃ a b,
    pg_transactions page
    = js_slice a b (newest_first tx_date (filtered q (entries st uid)))
    ∧ pg_total page = length (newest_first tx_date (filtered q (entries st uid))).
Proof.
  unfold ApiServer.get_transactions, entries.
  destruct (users st !! uid) as [user|]; [|done].
  intros [= <-]. simpl. by eexists _, _.
Qed.

(** X5: whatever the query, the page GET /api/transactions/:userId
    answers with (pure API server and API server of part_000) is ordered
    newest first, holds only transactions that pass the category and
    status filters of the query, holds only transactions of the user's
    ledger (none twice that the ledger does not hold twice), and its
    [total] is the number of ledger transactions that pass the filters,
    not the size of the page. *)
Theorem transactions_listing_sorted (st : BudgetData) (uid : string)
  (q : TransactionsQuery) (page : Page) :
  PureApi.get_transactions st uid q = Some page
  ∨ ApiServer.get_transactions st uid q = Some page →
  newest_to_oldest (pg_transactions page)
  ∧ Forall (λ t, passes q t = true) (pg_transactions page)
  ∧ pg_transactions page ⊆+ entries st uid
  ∧ pg_total page = length (List.filter (passes q) (entries st uid)).
Proof.
  intros H.
  assert (∃ a b,
    pg_transactions page
    = js_slice a b (newest_first tx_date (filtered q (entries st uid)))
    ∧ pg_total page = length (newest_first tx_date (filtered q (entries st uid))))
    as (a & b & -> & ->).
  { destruct H; [by apply pure_page_slice|by apply api_page_slice]. }
  assert (js_slice a b (newest_first tx_date (filtered q (entries st uid)))
          ⊆+ List.filter (passes q) (entries st uid)) as Hsub.
  { etrans; [apply sublist_submseteq, js_slice_sublist|].
    rewrite newest_first_perm. by rewrite filtered_passes. }
  split; [apply js_slice_sorted, newest_first_sorted|].
  split; [|split].
  - apply submseteq_Permutation in Hsub as [k Hk].
    pose proof (list_filter_Forall (passes q) (entries st uid)) as Hall.
    rewrite Hk in Hall. by apply Forall_app in Hall as [Hall _].
  - etrans; [exact Hsub|]. apply sublist_submseteq, list_filter_sublist.
  - by rewrite newest_first_perm, filtered_passes.
Qed.

Lemma transactions_listing_sorted_witness :
  ∃ page,
    PureApi.get_transactions Samples.five_payments "u1" (Samples.only "Food")
    = Some page
    ∧ map tx_id (pg_transactions page) = [Some "pay_5"; Some "pay_3"; Some "pay_1"]
    ∧ newest_to_oldest (pg_transactions page)
    ∧ pg_total page = 3.
Proof.
  destruct (PureApi.get_transactions Samples.five_payments "u1"
              (Samples.only "Food")) as [page|] eqn:E; [|by vm_compute in E].
  exists page. split; [done|].
  destruct (transactions_listing_sorted Samples.five_payments "u1"
              (Samples.only "Food") page (or_introl E)) as (Hs & _ & _ & Ht).
  split; [|split; [exact Hs|]].
  - vm_compute in E. injection E as <-. reflexivity.
  - rewrite Ht. reflexivity.
Defined.

(** X6: the sort of the listings is a stable descending sort by date: the
    result is a rearrangement of the input, no element stands before a
    newer one, and the elements of one date keep the order they had. *)
Theorem newest_first_stable_sort {A : Type} (key : A → Z) (l : list A) :
  newest_first key l ≡ₚ l
  ∧ StronglySorted (λ a b, (key b ≤ key a)%Z) (newest_first key l)
  ∧ ∀ d, List.filter (λ a, (key a =? d)%Z) (newest_first key l)
         = List.filter (λ a, (key a =? d)%Z) l.
Proof.
  split; [apply newest_first_perm|].
  split; [apply newest_first_sorted|].
  intros d. apply newest_first_same_date.
Qed.

Lemma take_then_take {A : Type} (a b : nat) (l : list A) :
  take a l ++ take b (drop a l) = take (a + b) l.
Proof.
  revert l. induction a as [|a IH]; intros [|x l]; simpl; try done.
  - by rewrite take_nil.
  - f_equal. apply IH.
Qed.

(** With an offset that is not negative and a positive limit, both
    listing endpoints answer alike. *)
Lemma page_of_window (st : BudgetData) (uid : string) (q : TransactionsQuery)
  (o l : Z) (page : Page) :
  tq_offset q = Some (Some o) → tq_limit q = Some (Some l) →
  (0 ≤ o)%Z → (0 < l)%Z →
  PureApi.get_transactions st uid q = Some page
  ∨ ApiServer.get_transactions st uid q = Some page →
  let listing := newest_first tx_date (filtered q (entries st uid)) in
  pg_transactions page = take (Z.to_nat l) (drop (Z.to_nat o) listing)
  ∧ pg_total page = length listing
  ∧ pg_hasMore page = (o + l <? Z.of_nat (length listing))%Z.
Proof.
  intros Ho Hl Hpos Hlim H listing. subst listing.
  unfold PureApi.get_transactions, ApiServer.get_transactions, entries in *.
  rewrite Ho, Hl in H. simpl in H.
  destruct (users st !! uid) as [user|]; [|by destruct H].
  rewrite (proj2 (Z.eqb_neq l 0)) in H by lia. simpl.
  assert (∀ L : list Transaction,
            js_slice o (o + l) L = take (Z.to_nat l) (drop (Z.to_nat o) L)) as Hs.
  { intros L. rewrite js_slice_nonneg by lia. f_equal. lia. }
  destruct H as [[= <-]|[= <-]]; simpl; by rewrite Hs.
Qed.

(** X7: for an offset [o] that is not negative and a positive limit [l],
    the page of GET /api/transactions/:userId (pure API server and API
    server of part_000) is the listing without its first [o] entries, cut
    after [l] entries; it holds min(l, total - o) transactions, and
    [hasMore] is true exactly when the listing goes on after the page. *)
Theorem transactions_page_window (st : BudgetData) (uid : string)
  (q : TransactionsQuery) (o l : Z) (page : Page) :
  tq_offset q = Some (Some o) → tq_limit q = Some (Some l) →
  (0 ≤ o)%Z → (0 < l)%Z →
  PureApi.get_transactions st uid q = Some page
  ∨ ApiServer.get_transactions st uid q = Some page →
  let listing := newest_first tx_date (filtered q (entries st uid)) in
  pg_transactions page = take (Z.to_nat l) (drop (Z.to_nat o) listing)
  ∧ length (pg_transactions page)
    = Nat.min (Z.to_nat l) (length listing - Z.to_nat o)
  ∧ pg_total page = length listing
  ∧ (pg_hasMore page = true
     ↔ Z.to_nat o + length (pg_transactions page) < length listing).
Proof.
  intros Ho Hl Hpos Hlim H listing.
  destruct (page_of_window st uid q o l page Ho Hl Hpos Hlim H)
    as (Hpage & Htotal & Hmore).
  fold listing in Hpage, Htotal, Hmore.
  assert (length (pg_transactions page)
          = Nat.min (Z.to_nat l) (length listing - Z.to_nat o)) as Hlen.
  { by rewrite Hpage, length_take, length_drop. }
  split; [done|]. split; [done|]. split; [done|].
  rewrite Hmore, Hlen, Z.ltb_lt. lia.
Qed.

Lemma transactions_page_window_witness :
  ∃ page,
    PureApi.get_transactions Samples.five_payments "u1"
      (window 1 2 Samples.everything) = Some page
    ∧ map tx_id (pg_transactions page) = [Some "pay_5"; Some "pay_2"]
    ∧ pg_total page = 5
    ∧ pg_hasMore page = true.
Proof.
  destruct (PureApi.get_transactions Samples.five_payments "u1"
              (window 1 2 Samples.everything)) as [page|] eqn:E;
    [|by vm_compute in E].
  exists page. split; [done|].
  destruct (transactions_page_window Samples.five_payments "u1"
              (window 1 2 Samples.everything) 1 2 page
              ltac:(reflexivity) ltac:(reflexivity) ltac:(lia) ltac:(lia)
              (or_introl E)) as (Hp & Hlen & Ht & Hm).
  split; [by rewrite Hp|]. split; [by rewrite Ht|].
  apply Hm. rewrite Hlen. vm_compute. lia.
Defined.

(** X8: consecutive pages tile the listing: for the same filters, the
    page at offset [o] with limit [l] followed by the page at offset
    [o + l] with limit [l'] is the page at offset [o] with limit
    [l + l']; nothing is skipped and nothing is served twice (pure API
    server; the API server of part_000 answers alike for such queries). *)
Theorem transactions_pages_tile (st : BudgetData) (uid : string)
  (q : TransactionsQuery) (o l l' : Z) (first second both : Page) :
  (0 ≤ o)%Z → (0 < l)%Z → (0 < l')%Z →
  PureApi.get_transactions st uid (window o l q) = Some first →
  PureApi.get_transactions st uid (window (o + l) l' q) = Some second →
  PureApi.get_transactions st uid (window o (l + l') q) = Some both →
  pg_transactions first ++ pg_transactions second = pg_transactions both.
Proof.
  intros Ho Hl Hl' H1 H2 H3.
  destruct (page_of_window st uid (window o l q) o l first eq_refl eq_refl
              Ho Hl (or_introl H1)) as (-> & _).
  destruct (page_of_window st uid (window (o + l) l' q) (o + l) l' second
              eq_refl eq_refl ltac:(lia) Hl' (or_introl H2)) as (-> & _).
  destruct (page_of_window st uid (window o (l + l') q) o (l + l') both
              eq_refl eq_refl Ho ltac:(lia) (or_introl H3)) as (-> & _).
  assert (filtered (window o l q) (entries st uid) = filtered q (entries st uid))
    as -> by done.
  assert (filtered (window (o + l) l' q) (entries st uid)
          = filtered q (entries st uid)) as -> by done.
  assert (filtered (window o (l + l') q) (entries st uid)
          = filtered q (entries st uid)) as -> by done.
  set (listing := newest_first tx_date (filtered q (entries st uid))).
  replace (Z.to_nat (o + l)) with (Z.to_nat o + Z.to_nat l) by lia.
  replace (Z.to_nat (l + l')) with (Z.to_nat l + Z.to_nat l') by lia.
  rewrite <- drop_drop. apply take_then_take.
Qed.

Lemma transactions_pages_tile_witness :
  ∃ first second both,
    PureApi.get_transactions Samples.five_payments "u1"
      (window 0 2 Samples.everything) = Some first
    ∧ PureApi.get_transactions Samples.five_payments "u1"
        (window 2 2 Samples.everything) = Some second
    ∧ PureApi.get_transactions Samples.five_payments "u1"
        (window 0 4 Samples.everything) = Some both
    ∧ map tx_id (pg_transactions first ++ pg_transactions second)
      = [Some "pay_4"; Some "pay_5"; Some "pay_2"; Some "pay_3"]
    ∧ pg_transactions first ++ pg_transactions second = pg_transactions both.
Proof.
  destruct (PureApi.get_transactions Samples.five_payments "u1"
              (window 0 2 Samples.everything)) as [first|] eqn:E1;
    [|by vm_compute in E1].
  destruct (PureApi.get_transactions Samples.five_payments "u1"
              (window 2 2 Samples.everything)) as [second|] eqn:E2;
    [|by vm_compute in E2].
  destruct (PureApi.get_transactions Samples.five_payments "u1"
              (window 0 4 Samples.everything)) as [both|] eqn:E3;
    [|by vm_compute in E3].
  exists first, second, both. repeat (split; [done|]).
  split.
  - vm_compute in E1, E2. injection E1 as <-. injection E2 as <-. reflexivity.
  - apply (transactions_pages_tile Samples.five_payments "u1"
             Samples.everything 0 2 2); [lia|lia|lia|exact E1|exact E2|exact E3].
Defined.

(** [slice] up to index 0 is empty wherever it starts. *)
Lemma js_slice_to_zero {A : Type} (a : Z) (l : list A) : js_slice a 0 l = [].
Proof. unfold js_slice. simpl. by rewrite take_0. Qed.

(** X9: a limit that is not a number is served differently by the two
    servers: the pure API server answers as for limit 50 (as it does for
    limit 0), while the API server (part_000) answers, for any offset,
    with an empty page, [hasMore] false and a limit that is not a
    number, though [total] still counts the whole listing. *)
Theorem unparsable_limit (st : BudgetData) (uid : string)
  (q : TransactionsQuery) (pure api : Page) :
  tq_limit q = Some None →
  PureApi.get_transactions st uid q = Some pure →
  ApiServer.get_transactions st uid q = Some api →
  PureApi.get_transactions st uid
    {| tq_limit := Some (Some 50%Z); tq_offset := tq_offset q;
       tq_category := tq_category q; tq_status := tq_status q |} = Some pure
  ∧ PureApi.get_transactions st uid
      {| tq_limit := Some (Some 0%Z); tq_offset := tq_offset q;
         tq_category := tq_category q; tq_status := tq_status q |} = Some pure
  ∧ pg_limit pure = Some 50%Z
  ∧ pg_transactions api = [] ∧ pg_hasMore api = false ∧ pg_limit api = None
  ∧ pg_total api = pg_total pure.
Proof.
  unfold PureApi.get_transactions, ApiServer.get_transactions.
  intros Hl. rewrite Hl.
  destruct (users st !! uid) as [user|]; [|done].
  intros [= <-] [= <-]. simpl.
  repeat (split; [done|]).
  destruct (parseInt_or 0 (tq_offset q)); simpl;
    (split; [apply js_slice_to_zero|done]).
Qed.

Lemma unparsable_limit_witness :
  let q :=
    {| tq_limit := Some None; tq_offset := Some (Some 1%Z);
       tq_category := None; tq_status := None |} in
  ∃ pure api,
    PureApi.get_transactions Samples.five_payments "u1" q = Some pure
    ∧ ApiServer.get_transactions Samples.five_payments "u1" q = Some api
    ∧ length (pg_transactions pure) = 4
    ∧ pg_transactions api = [] ∧ pg_total api = 5.
Proof.
  intros q.
  destruct (PureApi.get_transactions Samples.five_payments "u1" q)
    as [pure|] eqn:E1; [|by vm_compute in E1].
  destruct (ApiServer.get_transactions Samples.five_payments "u1" q)
    as [api|] eqn:E2; [|by vm_compute in E2].
  exists pure, api. split; [done|]. split; [done|].
  destruct (unparsable_limit Samples.five_payments "u1" q pure api
              ltac:(reflexivity) E1 E2) as (_ & _ & _ & Hp & _ & _ & Ht).
  split; [|split; [exact Hp|]].
  - vm_compute in E1. injection E1 as <-. reflexivity.
  - rewrite Ht. vm_compute in E1. injection E1 as <-. reflexivity.
Defined.

(** X10: a negative limit is not refused.  Without an offset, limit [-n]
    makes both servers answer with the whole listing except its last
    (oldest) [n] entries, and with [hasMore] true whatever the listing
    holds. *)
Theorem negative_limit_served (st : BudgetData) (uid : string)
  (q : TransactionsQuery) (n : Z) (page : Page) :
  tq_offset q = None → tq_limit q = Some (Some (- n)%Z) → (0 < n)%Z →
  PureApi.get_transactions st uid q = Some page
  ∨ ApiServer.get_transactions st uid q = Some page →
  let listing := newest_first tx_date (filtered q (entries st uid)) in
  pg_transactions page = take (length listing - Z.to_nat n) listing
  ∧ pg_hasMore page = true.
Proof.
  intros Ho Hl Hn H listing. subst listing.
  unfold PureApi.get_transactions, ApiServer.get_transactions, entries in *.
  rewrite Ho, Hl in H. simpl in H.
  destruct (users st !! uid) as [user|]; [|by destruct H].
  rewrite (proj2 (Z.eqb_neq (- n) 0)) in H by lia. simpl.
  assert (∀ L : list Transaction,
            js_slice 0 (0 + - n) L = take (length L - Z.to_nat n) L
            ∧ (0 + - n <? Z.of_nat (length L))%Z = true) as Hs.
  { intros L. split; [|apply Z.ltb_lt; lia].
    unfold js_slice, slice_index. simpl.
    rewrite (proj2 (Z.ltb_lt (0 + - n) 0)) by lia.
    rewrite Nat.sub_0_r. f_equal. lia. }
  destruct H as [[= <-]|[= <-]]; simpl; apply Hs.
Qed.

Lemma negative_limit_served_witness :
  let q :=
    {| tq_limit := Some (Some (-2)%Z); tq_offset := None;
       tq_category := None; tq_status := None |} in
  ∃ page,
    ApiServer.get_transactions Samples.five_payments_api "u1" q = Some page
    ∧ map tx_id (pg_transactions page) = [Some "pay_4"; Some "pay_5"; Some "pay_2"]
    ∧ pg_hasMore page = true.
Proof.
  intros q.
  destruct (ApiServer.get_transactions Samples.five_payments_api "u1" q)
    as [page|] eqn:E; [|by vm_compute in E].
  exists page. split; [done|].
  destruct (negative_limit_served Samples.five_payments_api "u1" q 2 page
              ltac:(reflexivity) ltac:(reflexivity) ltac:(lia) (or_intror E))
    as [Hp Hm].
  split; [by rewrite Hp|exact Hm].
Defined.

(** * The user-data endpoint of the pure API server *)

Lemma accepted_number_truthy (o : option num) (a : num) :
  accepted_number o = Some a → o = Some a ∧ JSNum.truthy a = true.
Proof.
  unfold accepted_number. destruct o as [b|]; [|done].
  destruct (JSNum.truthy b) eqn:E; simpl; [|done].
  destruct (_ || _)%bool; [done|]. by intros [= <-].
Qed.

Lemma accepted_id_Some (o : option string) (s : string) :
  accepted_id o = Some s → o = Some s ∧ truthy_str o = true.
Proof.
  unfold accepted_id. destruct o as [k|]; [|done]. simpl.
  destruct (String.eqb k ""); [done|]. by intros [= <-].
Qed.

Lemma recent_latest_first {A : Type} (l : list A) :
  recent l = take 10 (reverse l).
Proof.
  unfold recent, js_slice_from, slice_index. simpl.
  rewrite take_reverse. do 2 f_equal. lia.
Qed.

(** X11: set-budget followed by user-data, in the pure API server.  After
    an accepted POST /api/set-budget for an existing user, GET
    /api/user-data reports the limit just set as [monthly] and the limit
    minus the amount spent as [remaining]; but it reports [alerts] true
    even when the request stored [alerts: false]. *)
Theorem set_budget_then_user_data (st : BudgetData) (r : SetBudgetReq)
  (uid : string) (limit : num) (user : User) :
  accepted_id (sb_userId r) = Some uid →
  accepted_number (sb_monthlyLimit r) = Some limit →
  users st !! uid = Some user →
  let st' := fst (PureApi.set_budget st r) in
  ∃ d,
    PureApi.code (snd (PureApi.set_budget st r)) = 200
    ∧ budgets st' !! uid
      = Some {| monthly := limit; alerts := default true (sb_alerts r) |}
    ∧ PureApi.user_data st' uid = Some d
    ∧ PureApi.ud_monthly d = limit
    ∧ PureApi.ud_remaining d
      = JSNum.sub limit (JSNum.or_else (totalSpent user) JSNum.zero)
    ∧ PureApi.ud_alerts d = true.
Proof.
  intros Hid Hlimit Huser st'. subst st'.
  unfold PureApi.set_budget. rewrite Hid, Hlimit. simpl.
  unfold PureApi.user_data. simpl. rewrite Huser, lookup_insert_eq. simpl.
  apply accepted_number_truthy in Hlimit as [_ Ht].
  unfold JSNum.or_else at 1 2 3. rewrite Ht.
  eexists. repeat (split; [reflexivity|]). simpl. by rewrite orb_true_r.
Qed.

Lemma set_budget_then_user_data_witness :
  let st := Samples.five_payments in
  let r := {| sb_userId := Some "u1"; sb_monthlyLimit := Examples.amount_of 1000;
              sb_alerts := Some false |} in
  let st' := fst (PureApi.set_budget st r) in
  (alerts <$> budgets st' !! "u1") = Some false
  ∧ (PureApi.ud_alerts <$> PureApi.user_data st' "u1") = Some true
  ∧ (PureApi.ud_monthly <$> PureApi.user_data st' "u1") = Some (JSNum.of_Z 1000).
Proof.
  intros st r st'.
  destruct (users st !! "u1") as [user|] eqn:Hu; [|by vm_compute in Hu].
  destruct (set_budget_then_user_data st r "u1" (JSNum.of_Z 1000) user
              ltac:(reflexivity) ltac:(reflexivity) Hu)
    as (d & _ & Hb & Hd & Hm & _ & Ha).
  fold st' in Hb, Hd. rewrite Hb, Hd. simpl. by rewrite Hm, Ha.
Defined.

(** X12: verify-payment followed by user-data, in the pure API server.
    After a POST /api/verify-payment answered 200 for [uid], GET
    /api/user-data lists the transaction just recorded first among the
    recent transactions, followed by the nine latest entries the ledger
    held before, latest first; the transaction count is one more than
    before. *)
Theorem verify_payment_then_user_data {hmac : Hmac} (key_secret : string)
  (now : Z) (st : BudgetData) (r : VerifyReq) (uid : string) :
  accepted_id (v_userId r) = Some uid →
  PureApi.code (snd (PureApi.verify_payment key_secret now st r)) = 200 →
  let st' := fst (PureApi.verify_payment key_secret now st r) in
  ∃ d t,
    PureApi.user_data st' uid = Some d
    ∧ PureApi.ud_recentTransactions d = t :: take 9 (reverse (entries st uid))
    ∧ tx_id t = razorpay_payment_id r ∧ tx_status t = "success"
    ∧ tx_amount t = JSNum.or_else (parseFloat (v_amount r)) JSNum.zero
    ∧ PureApi.ud_transactionCount d = S (length (entries st uid)).
Proof.
  intros Hid Hcode st'. subst st'. revert Hcode.
  unfold PureApi.verify_payment. rewrite Hid.
  destruct (negb (_ && _ && _)); [done|].
  destruct (negb (bool_decide _)); [done|].
  destruct (foreign _ _); [done|].
  intros _. simpl.
  unfold PureApi.user_data. simpl. rewrite lookup_insert_eq.
  eexists _, _. split; [reflexivity|]. simpl.
  rewrite default_entries by done.
  split; [by rewrite recent_latest_first, reverse_snoc|].
  repeat (split; [reflexivity|]).
  rewrite length_app. simpl. lia.
Qed.

Lemma verify_payment_then_user_data_witness :
  let st := Samples.five_payments in
  let r := Samples.paid "pay_6" "Food" 10 in
  let st' :=
    fst (PureApi.verify_payment (hmac := Examples.tag) Examples.secret 60 st r) in
  ∃ d t,
    PureApi.user_data st' "u1" = Some d
    ∧ PureApi.ud_recentTransactions d = t :: take 9 (reverse (entries st "u1"))
    ∧ tx_id t = Some "pay_6"
    ∧ PureApi.ud_transactionCount d = 6.
Proof.
  intros st r st'.
  destruct (verify_payment_then_user_data (hmac := Examples.tag) Examples.secret
              60 st r "u1" ltac:(reflexivity) ltac:(vm_compute; reflexivity))
    as (d & t & Hd & Hr & Hid & _ & _ & Hn).
  exists d, t. split; [exact Hd|]. split; [exact Hr|]. split; [exact Hid|].
  rewrite Hn. vm_compute. reflexivity.
Defined.

(** * The order handed to the gateway *)





(** The paise are those of the double [amount * 100]: for the double
    nearest to 1.005 the order is made out for 100 paise, for the one
    nearest to 0.015 for 2. *)
Lemma order_paise_of_doubles :
  let paise amount :=
    oo_amount
      (PureApi.order_options 1 (Finite amount) "u1"
         (Examples.order_request "u1" 1)) in
  paise (1131529406376837 # 1125899906842624) = Finite 100
  ∧ paise (1080863910568919 # 72057594037927936) = Finite 2
  ∧ (100 + (1 # 2) < (1131529406376837 # 1125899906842624) * 100 + (1 # 2))%Q
  ∧ ((1080863910568919 # 72057594037927936) * 100 + (1 # 2) < 2)%Q.
Proof. vm_compute. repeat split; reflexivity. Qed.


(** * The tally behind the category breakdowns *)

Lemma tally_snoc (l : list Transaction) (t : Transaction) :
  ApiServer.tally (l ++ [t])
  = ApiServer.bump (category_of t) (tx_amount t) (ApiServer.tally l).
Proof. unfold ApiServer.tally. by rewrite fold_left_app. Qed.

Lemma property_None (c : string) (categories : list (string * num)) :
  ApiServer.property c categories = None ↔ c ∉ map fst categories.
Proof.
  induction categories as [|[k v] rest IH]; simpl.
  - split; [intros _; apply not_elem_of_nil|done].
  - rewrite not_elem_of_cons. destruct (String.eqb k c) eqn:E.
    + apply String.eqb_eq in E. split; [done|]. intros [? _]. congruence.
    + apply String.eqb_neq in E. rewrite IH. split; [by split|tauto].
Qed.

Lemma bump_keys (c : string) (a : num) (categories : list (string * num)) :
  map fst (ApiServer.bump c a categories)
  = match ApiServer.property c categories with
    | Some _ => map fst categories
    | None => map fst categories ++ [c]
    end.
Proof.
  induction categories as [|[k v] rest IH]; simpl; [done|].
  destruct (String.eqb k c) eqn:E; simpl; [done|].
  rewrite IH. by destruct (ApiServer.property c rest).
Qed.


Lemma tally_keys_NoDup (l : list Transaction) :
  NoDup (map fst (ApiServer.tally l)).
Proof.
  induction l as [|t l IH] using rev_ind; [constructor|].
  rewrite tally_snoc, bump_keys.
  destruct (ApiServer.property _ _) eqn:E; [done|].
  apply property_None in E.
  apply NoDup_app. split; [done|]. split; [|apply NoDup_singleton].
  intros x Hx ->%list_elem_of_singleton. done.
Qed.









(** X15: the sort of [getCategoryBreakdown] in the API server (part_000)
    loses and invents nothing: the categories with their amounts in the
    breakdown are a rearrangement of the tally, and no category is listed
    twice. *)
Theorem breakdown_rearranges_tally (l : list Transaction) :
  map (λ e, (e.1, ApiServer.share_amount e.2)) (ApiServer.getCategoryBreakdown l)
  ≡ₚ ApiServer.tally l
  ∧ NoDup (map fst (ApiServer.getCategoryBreakdown l)).
Proof.
  unfold ApiServer.getCategoryBreakdown.
  assert (∀ cats (s : list (string * num)),
            map (λ e : string * ApiServer.Share, (e.1, ApiServer.share_amount e.2))
              (map (λ kv, (kv.1, ApiServer.share_of cats kv.2)) s) = s) as Hamounts.
  { intros cats s. rewrite map_map. simpl.
    induction s as [|[k v] s IH]; [done|]. simpl. by rewrite IH. }
  assert (∀ cats (s : list (string * num)),
            map fst (map (λ kv, (kv.1, ApiServer.share_of cats kv.2)) s)
            = map fst s) as Hkeys.
  { intros cats s. rewrite map_map. done. }
  rewrite Hamounts, Hkeys. split; [apply sort_desc_perm|].
  rewrite sort_desc_perm. apply tally_keys_NoDup.
Qed.

(** * The render-deploy server and the dashboard server (part_002) *)

(** The effect of a request is a ledger step for every user. *)
Lemma effect_ledger_step (captures : bool) (st st' : BudgetData) (uid : string) :
  effect captures st st' → ledger_step st st' uid.
Proof.
  intros [Hu Hp Ha | k u Hk Hplain Hu Hid Htx Hsp Hp Hc Hm Hn
         | k new t Hfor Hu Hid Htx Hsp Hp Hn Hcnt].
  - by apply ledger_step_same_users.
  - by eapply ledger_step_fresh.
  - destruct (decide (k = uid)) as [<-|Hne].
    + apply (ledger_recorded _ _ _ t).
      * unfold counted. destruct Hcnt as [(-> & _)|(_ & -> & _)]; done.
      * by rewrite (entries_insert _ _ _ _ _ Hu), decide_True.
      * by rewrite (spent_insert _ _ _ _ _ Hu), decide_True.
    + apply ledger_kept.
      * by rewrite (entries_insert _ _ _ _ _ Hu), decide_False.
      * by rewrite (spent_insert _ _ _ _ _ Hu), decide_False.
Qed.

Section DashboardLedger.

Context {hmac : Hmac} {gateway : Gateway}.
Variable key_secret : option string.

Lemma dash_create_order_unchanged now st r :
  fst (Dashboard.create_order now st r) = st.
Proof.
  unfold Dashboard.create_order.
  destruct (co_amount r); [|done].
  destruct (_ || _)%bool; [done|]. by destruct (orders_create _).
Qed.

Lemma dash_verify_payment_step now st r uid :
  ledger_step st (fst (Dashboard.verify_payment key_secret now st r)) uid.
Proof.
  unfold Dashboard.verify_payment.
  destruct key_secret as [secret|]; [|by apply ledger_step_same_users].
  destruct (bool_decide _); [|by apply ledger_step_same_users].
  destruct (foreign _ _); [by apply ledger_step_same_users|].
  simpl.
  eapply ledger_step_record
    with (old := default Dashboard.default_user (users st !! to_str (v_userId r)));
    [reflexivity | by apply default_entries | by apply default_spent
    | reflexivity | reflexivity | reflexivity].
Qed.

Lemma dash_webhook_step now st r uid :
  ledger_step st (fst (Dashboard.webhook now st r)) uid.
Proof.
  unfold Dashboard.webhook.
  destruct (bool_decide _); [|by apply ledger_step_same_users].
  destruct (Dashboard.dispatch now st r) as [st'|] eqn:Hd;
    [|by apply ledger_step_same_users].
  simpl. revert Hd. unfold Dashboard.dispatch.
  destruct (is_event r "payment.captured").
  { destruct (payment_entity r) as [payment|]; [|done]. simpl.
    destruct (p_notes payment) as [notes|]; [|done]. simpl.
    destruct (foreign _ _); [done|].
    intros [= <-].
    eapply ledger_step_record
      with (old := default Dashboard.default_user
                     (users st !! str_or (n_userId notes) "anonymous"));
      [reflexivity | by apply default_entries | by apply default_spent
      | reflexivity | reflexivity | reflexivity]. }
  destruct (is_event r "payment.failed").
  { destruct (payment_entity r); [|done]. simpl.
    intros [= <-]. by apply ledger_step_same_users. }
  intros [= <-]. by apply ledger_step_same_users.
Qed.

Lemma dash_handle_step st q uid :
  ledger_step st (fst (Dashboard.handle key_secret st q)) uid.
Proof.
  destruct q; simpl.
  - rewrite dash_create_order_unchanged. by apply ledger_step_same_users.
  - apply dash_verify_payment_step.
  - apply dash_webhook_step.
  - by apply ledger_step_same_users.
Qed.

End DashboardLedger.

(** X16: the invariant of the ledgers holds in the other two servers as
    well.  Started from the empty [budgetData], after any sequence of
    requests to the dashboard server (part_002: create-order,
    verify-payment, webhook, set-budget) or to the render-deploy server,
    every user's [totalSpent] is the in-order sum of the amounts of the
    user's transactions with status success or captured. *)
Theorem other_servers_totals_consistent {hmac : Hmac} {gateway : Gateway}
  (key_secret : option string) :
  (∀ qs, totals_consistent (Dashboard.run key_secret initial qs))
  ∧ (∀ qs, totals_consistent (RenderDeploy.run key_secret initial qs)).
Proof.
  assert (∀ {Req : Type} (serve : BudgetData → Req → BudgetData),
            (∀ st q uid, ledger_step st (serve st q) uid) →
            ∀ qs st, totals_consistent st →
                     totals_consistent (fold_left serve qs st)) as Hfold.
  { intros Req serve Hserve qs.
    induction qs as [|q qs IH]; intros st Hst; [done|].
    simpl. apply IH. eapply ledger_step_consistent; [|done].
    intros uid. apply Hserve. }
  split; intros qs.
  - unfold Dashboard.run. apply Hfold; [|apply initial_consistent].
    intros. apply dash_handle_step.
  - unfold RenderDeploy.run. apply Hfold; [|apply initial_consistent].
    intros. apply effect_ledger_step with (captures := false).
    apply render_handle_effect.
Qed.




(** For the userId "constructor" create-order makes no user, and the
    confirmation that follows is answered 500. *)
Lemma render_order_then_verify_inherited :
  let ordered :=
    fst (RenderDeploy.create_order (gateway := Examples.accepting) 1 initial
           (Examples.order_request "constructor" 500)) in
  ordered = initial
  ∧ RenderDeploy.verify_payment (hmac := Examples.tag) (Some Examples.secret) 2
      ordered (Examples.confirmation "constructor" 500 Examples.good_signature)
    = (initial, RenderDeploy.fail 500 "Payment verification failed").
Proof. split; reflexivity. Qed.


(** * The second server of budget-tracker-pure-api.js *)

(** Sorting a list that is already ordered newest first changes nothing. *)
Lemma place_newer_oldest {A : Type} (key : A → Z) (x : A) (l : list A) :
  Forall (λ y, (key x ≤ key y)%Z) l → place_newer key x l = l ++ [x].
Proof.
  induction 1 as [|y l Hy Hl IH]; [done|]. simpl.
  rewrite (proj2 (Z.ltb_ge 0 (key x - key y))) by lia. by rewrite IH.
Qed.

Lemma newest_first_sorted_id {A : Type} (key : A → Z) (l : list A) :
  StronglySorted (λ a b, (key b ≤ key a)%Z) l → newest_first key l = l.
Proof.
  induction l as [|x l IH] using rev_ind; [done|].
  intros Hs. rewrite newest_first_snoc.
  pose proof (sorted_app _ _ _ Hs) as [Hl _].
  rewrite IH by done. apply place_newer_oldest.
  clear IH Hl. induction l as [|y l IH]; [constructor|].
  simpl in Hs. apply StronglySorted_inv in Hs as [Hs Hy].
  constructor; [|by apply IH].
  apply Forall_app in Hy as [_ Hy]. by inversion Hy.
Qed.

Lemma newest_first_idempotent {A : Type} (key : A → Z) (l : list A) :
  newest_first key (newest_first key l) = newest_first key l.
Proof. apply newest_first_sorted_id, newest_first_sorted. Qed.

Lemma made_out_to_snoc (uid : string) (l : list Tracker.Entry) (t : Tracker.Entry) :
  made_out_to uid (l ++ [t])
  = made_out_to uid l
    ++ (if String.eqb (to_str (Tracker.e_userId t)) uid then [t] else []).
Proof. unfold made_out_to. by rewrite List.filter_app. Qed.

Section TrackerRuns.

Context {hmac : Hmac} {razorpay : Tracker.Razorpay}.
Variable key_env : option string.
Variable webhook_env : option string.

(** Pushing an entry to the global list, and to the ledger of its user
    when there is one, keeps the ledgers within the list. *)
Lemma tracker_push_within (st : Tracker.Data) (t : Tracker.Entry) :
  ledgers_within_log st →
  ledgers_within_log (Tracker.push_log t st)
  ∧ ∀ account,
      Tracker.users st !! to_str (Tracker.e_userId t) = Some account →
      ledgers_within_log
        (Tracker.set_account (to_str (Tracker.e_userId t))
           (Tracker.push_entry t account) (Tracker.push_log t st)).
Proof.
  intros Hst. split.
  - intros uid account Hu. simpl in *. rewrite made_out_to_snoc.
    etrans; [by apply Hst|]. by apply submseteq_inserts_r.
  - intros account Ha uid account' Hu. simpl in *.
    rewrite made_out_to_snoc. rewrite lookup_insert in Hu.
    destruct (decide (to_str (Tracker.e_userId t) = uid)) as [<-|Hne].
    + injection Hu as <-. simpl. rewrite String.eqb_refl.
      apply submseteq_app; [by apply Hst|done].
    + etrans; [by apply Hst|]. by apply submseteq_inserts_r.
Qed.

Lemma tracker_captured_within now (st : Tracker.Data) captured :
  ledgers_within_log st →
  ledgers_within_log (fst (Tracker.handlePaymentCaptured now st captured)).
Proof.
  intros Hst. unfold Tracker.handlePaymentCaptured.
  destruct (negb (truthy_str _)); [done|].
  match goal with
  | |- context [Tracker.push_log ?t st] =>
      destruct (tracker_push_within st t Hst) as [Hlog Hboth]
  end.
  simpl in *.
  destruct (Tracker.users st !! _) as [user|] eqn:E; [|done].
  by apply Hboth.
Qed.

Lemma tracker_handle_within (st : Tracker.Data) (q : Tracker.Request) :
  ledgers_within_log st →
  ledgers_within_log (fst (Tracker.handle key_env webhook_env st q)).
Proof.
  intros Hst. destruct q as [now r|now r|now d|userId|r]; simpl.
  - unfold Tracker.create_order.
    destruct (co_amount r) as [amount|]; [|done].
    destruct (_ || _)%bool; [done|].
    set (userId := to_str (co_userId r)).
    assert (ledgers_within_log
              match Tracker.users st !! userId with
              | Some _ => st
              | None =>
                  if inherited userId then st
                  else
                    Tracker.set_account userId
                      {| Tracker.a_id := userId; Tracker.transactions := [];
                         Tracker.a_createdAt := now |} st
              end) as H.
    { destruct (Tracker.users st !! userId) eqn:E; [done|].
      destruct (inherited userId); [done|].
      intros uid account. simpl. rewrite lookup_insert.
      destruct (decide (userId = uid)); [|apply Hst].
      intros [= <-]. simpl. apply submseteq_nil_l. }
    by destruct (Tracker.create _).
  - unfold Tracker.verify_payment.
    destruct (bool_decide _); [|done].
    destruct (Tracker.fetch _) as [payment|]; [|done].
    match goal with
    | |- context [Tracker.push_log ?t st] =>
        destruct (tracker_push_within st t Hst) as [Hlog Hboth]
    end.
    simpl in *.
    destruct (Tracker.users st !! to_str (v_userId r)) as [user|] eqn:E;
      [|done].
    by apply Hboth.
  - unfold Tracker.webhook.
    destruct (negb (bool_decide _)); [done|].
    destruct (negb (Tracker.d_has_payload d)); [done|].
    destruct (bool_decide (Tracker.d_event d = Some "payment.captured")).
    { destruct (Tracker.d_payment d) as [captured|]; [|done].
      pose proof (tracker_captured_within now st captured Hst) as H.
      by destruct (Tracker.handlePaymentCaptured now st captured). }
    destruct (bool_decide (Tracker.d_event d = Some "payment.failed")).
    { by destruct (Tracker.d_payment d). }
    destruct (bool_decide (Tracker.d_event d = Some "order.paid")); [|done].
    by destruct (Tracker.d_order d).
  - unfold Tracker.dashboard.
    destruct (Tracker.users st !! userId) as [user|] eqn:E;
      [|by destruct (inherited userId)].
    intros uid account. simpl. rewrite lookup_insert.
    destruct (decide (userId = uid)) as [<-|]; [|apply Hst].
    intros [= <-]. simpl. rewrite newest_first_perm. by apply Hst.
  - done.
Qed.




End TrackerRuns.

(** X20: verify-payment of the second server of
    budget-tracker-pure-api.js pushes the transaction to the global list
    before it reaches for the user's list.  For a request with a valid
    signature whose payment the gateway knows but whose userId names no
    user, the answer is 500 "Payment verification failed", and yet the
    transaction has been added to the global list; no user is created. *)
Theorem tracker_verify_unknown_user_logged {hmac : Hmac}
  {razorpay : Tracker.Razorpay} (key_env : option string) (now : Z)
  (st : Tracker.Data) (r : VerifyReq) (payment : Tracker.Fetched) :
  razorpay_signature r
  = Some (hmac_sha256_hex (Tracker.key_secret key_env) (signed_message r)) →
  Tracker.fetch (razorpay_payment_id r) = Some payment →
  Tracker.users st !! to_str (v_userId r) = None →
  let out := Tracker.verify_payment key_env now st r in
  snd out = Tracker.fail 500 "Payment verification failed"
  ∧ Tracker.users (fst out) = Tracker.users st
  ∧ ∃ t, Tracker.log (fst out) = Tracker.log st ++ [t]
         ∧ Tracker.e_id t = razorpay_payment_id r
         ∧ Tracker.e_userId t = v_userId r
         ∧ Tracker.e_amount t = Tracker.f_amount payment.
Proof.
  intros Hsig Hfetch Hu out. subst out. unfold Tracker.verify_payment.
  rewrite Hsig, bool_decide_true by done. rewrite Hfetch. simpl. rewrite Hu.
  simpl. split; [done|]. split; [done|]. by eexists.
Qed.

Lemma tracker_verify_unknown_user_logged_witness :
  let out :=
    Tracker.verify_payment (hmac := Examples.tag) (razorpay := Samples.razorpay)
      None 5 Tracker.initial (Samples.tracked "pay_1") in
  Tracker.code (snd out) = 500
  ∧ map Tracker.e_id (Tracker.log (fst out)) = [Some "pay_1"]
  ∧ Tracker.users (fst out) = ∅.
Proof.
  intros out.
  destruct (tracker_verify_unknown_user_logged (hmac := Examples.tag)
              (razorpay := Samples.razorpay) None 5 Tracker.initial
              (Samples.tracked "pay_1") _
              ltac:(reflexivity) ltac:(reflexivity) ltac:(reflexivity))
    as (Hresp & Hu & t & Hlog & Hid & _).
  subst out. rewrite Hresp, Hlog, Hu. simpl. by rewrite Hid.
Defined.

(** X21: in the second server of budget-tracker-pure-api.js, started
    from its initial data, after any sequence of requests (create-order,
    verify-payment, webhook, dashboard, budget-limits) every user's list
    of transactions holds only entries of the global list that are made
    out to that user, each at most as often as the global list holds it.
    The converse fails: the global list also keeps the entries pushed
    for users that did not exist. *)
Theorem tracker_ledgers_within_log {hmac : Hmac} {razorpay : Tracker.Razorpay}
  (key_env webhook_env : option string) (qs : list Tracker.Request)
  (uid : string) (account : Tracker.Account) :
  let st := Tracker.run key_env webhook_env Tracker.initial qs in
  Tracker.users st !! uid = Some account →
  Tracker.transactions account ⊆+ made_out_to uid (Tracker.log st).
Proof.
  intros st. subst st. revert uid account.
  change (ledgers_within_log
            (Tracker.run key_env webhook_env Tracker.initial qs)).
  unfold Tracker.run.
  assert (ledgers_within_log Tracker.initial) as Hinit.
  { intros uid account H. done. }
  revert Hinit. generalize Tracker.initial.
  induction qs as [|q qs IH]; intros st Hst; [done|].
  simpl. apply IH. by apply tracker_handle_within.
Qed.

Lemma tracker_ledgers_within_log_witness :
  ∃ account,
    Tracker.users Samples.three_tracked !! "u1" = Some account
    ∧ map Tracker.e_id (Tracker.transactions account)
      = [Some "pay_1"; Some "pay_2"; Some "pay_3"]
    ∧ Tracker.transactions account
      ⊆+ made_out_to "u1" (Tracker.log Samples.three_tracked).
Proof.
  destruct (Tracker.users Samples.three_tracked !! "u1") as [account|] eqn:E;
    [|by vm_compute in E].
  exists account. split; [done|]. split.
  - vm_compute in E. injection E as <-. reflexivity.
  - by apply (tracker_ledgers_within_log (hmac := Examples.tag)
                (razorpay := Samples.razorpay) None None _ "u1" account).
Defined.

(** X22: GET /api/dashboard/:userId of the second server of
    budget-tracker-pure-api.js changes the stored data: it sorts the
    user's stored list in place.  After the request the stored list is
    the newest-first stable sort of what it was (the same entries, no
    entry before a newer one), the answer lists its first ten entries
    and counts them all, the global list and the limits are untouched,
    and asking again changes nothing and gives the same answer. *)
Theorem tracker_dashboard_reorders_ledger (st : Tracker.Data) (uid : string)
  (account : Tracker.Account) :
  Tracker.users st !! uid = Some account →
  let out := Tracker.dashboard st uid in
  let sorted := newest_first Tracker.e_timestamp (Tracker.transactions account) in
  Tracker.users (fst out)
  = <[uid := {| Tracker.a_id := Tracker.a_id account;
                Tracker.transactions := sorted;
                Tracker.a_createdAt := Tracker.a_createdAt account |}]>
      (Tracker.users st)
  ∧ sorted ≡ₚ Tracker.transactions account
  ∧ StronglySorted
      (λ a b, (Tracker.e_timestamp b ≤ Tracker.e_timestamp a)%Z) sorted
  ∧ snd out
    = {| Tracker.code := 200;
         Tracker.body :=
           Tracker.Dashboard (length (Tracker.transactions account))
             (take 10 sorted) (Tracker.budgetLimits st) |}
  ∧ Tracker.log (fst out) = Tracker.log st
  ∧ Tracker.budgetLimits (fst out) = Tracker.budgetLimits st
  ∧ Tracker.dashboard (fst out) uid = out.
Proof.
  intros Hu out sorted. subst out.
  unfold Tracker.dashboard at 1 2 3 4 5. rewrite Hu. simpl. fold sorted.
  split; [done|].
  split; [apply newest_first_perm|].
  split; [apply newest_first_sorted|].
  assert (js_slice 0 10 sorted = take 10 sorted) as Hslice.
  { rewrite js_slice_nonneg by lia. by rewrite drop_0. }
  split.
  { rewrite Hslice. subst sorted.
    by rewrite (Permutation_length
                  (newest_first_perm Tracker.e_timestamp
                     (Tracker.transactions account))). }
  split; [done|]. split; [done|].
  unfold Tracker.dashboard. rewrite Hu. simpl. rewrite lookup_insert_eq. simpl.
  fold sorted. subst sorted. rewrite newest_first_idempotent.
  f_equal. unfold Tracker.set_account. simpl. f_equal.
  by rewrite insert_insert_eq.
Qed.

Lemma tracker_dashboard_reorders_ledger_witness :
  let out := Tracker.dashboard Samples.three_tracked "u1" in
  ∃ account account',
    Tracker.users Samples.three_tracked !! "u1" = Some account
    ∧ Tracker.users (fst out) !! "u1" = Some account'
    ∧ map Tracker.e_id (Tracker.transactions account)
      = [Some "pay_1"; Some "pay_2"; Some "pay_3"]
    ∧ map Tracker.e_id (Tracker.transactions account')
      = [Some "pay_2"; Some "pay_3"; Some "pay_1"].
Proof.
  intros out.
  destruct (Tracker.users Samples.three_tracked !! "u1") as [account|] eqn:E;
    [|by vm_compute in E].
  destruct (tracker_dashboard_reorders_ledger Samples.three_tracked "u1"
              account E) as (Hu & _).
  fold out in Hu. eexists account, _. split; [done|].
  split; [by rewrite Hu, lookup_insert_eq|]. simpl.
  vm_compute in E. injection E as <-. split; reflexivity.
Defined.


(** A limit that is no number: the string "abc", truthy and NaN as a
    number, is stored as the daily limit. *)
Lemma tracker_limit_not_a_number :
  let text := {| is_truthy := true; as_number := NaN |} in
  let st :=
    fst (Tracker.budget_limits Tracker.initial
           {| Tracker.l_daily := Some text; Tracker.l_weekly := None;
              Tracker.l_monthly := Some (number JSNum.zero) |}) in
  Tracker.daily (Tracker.budgetLimits st) = text
  ∧ Tracker.weekly (Tracker.budgetLimits st) = number (JSNum.of_Z 5000)
  ∧ Tracker.monthly (Tracker.budgetLimits st) = number (JSNum.of_Z 20000).
Proof. repeat split; reflexivity. Qed.

(** * Users and how they are counted *)

Lemma pure_counts_signups {hmac : Hmac} {gateway : Gateway}
  (key_secret : string) (webhook_env : option string)
  (st : BudgetData) (q : PureApi.Request) :
  let out := PureApi.handle key_secret webhook_env st q in
  totalUsers (analytics (fst out))
  = (totalUsers (analytics st) + if pure_signup q (snd out) then 1 else 0)%Z
  ∧ (pure_signup q (snd out) = true → size (users (fst out)) = S (size (users st))).
Proof.
  destruct q as [now r|now r|now r|r|r]; simpl.
  - unfold PureApi.create_user.
    destruct (accepted_id (cu_userId r)) as [userId|]; [|split; [simpl; lia|done]].
    destruct (users st !! userId) eqn:Hu; [split; [simpl; lia|done]|].
    destruct (inherited userId); [split; [simpl; lia|done]|].
    simpl. split; [done|]. intros _. by rewrite map_size_insert, Hu.
  - split; [|done]. rewrite Z.add_0_r. unfold PureApi.create_order.
    destruct (accepted_number (co_amount r)); [|done].
    destruct (accepted_id (co_userId r)) as [userId|]; [|done].
    destruct (users st !! userId); [|destruct (inherited userId)];
      by destruct (orders_create _).
  - split; [|done]. rewrite Z.add_0_r. unfold PureApi.verify_payment.
    destruct (negb _); [done|]. destruct (accepted_id (v_userId r)); [|done].
    destruct (negb _); [done|]. by destruct (foreign _ _).
  - split; [|done]. by rewrite Z.add_0_r, pure_webhook_unchanged.
  - split; [|done]. rewrite Z.add_0_r. unfold PureApi.set_budget.
    destruct (accepted_id (sb_userId r)); [|done].
    by destruct (accepted_number (sb_monthlyLimit r)).
Qed.

Lemma api_counts_signups {hmac : Hmac} {gateway : Gateway}
  (key_secret webhook_env : option string)
  (st : BudgetData) (q : ApiServer.Request) :
  let out := ApiServer.handle key_secret webhook_env st q in
  totalUsers (analytics (fst out))
  = (totalUsers (analytics st) + if api_signup q (snd out) then 1 else 0)%Z
  ∧ (api_signup q (snd out) = true → size (users (fst out)) = S (size (users st))).
Proof.
  destruct q as [now r|now r|now r|r|r]; simpl.
  - unfold ApiServer.create_user.
    destruct (negb _); [split; [simpl; lia|done]|].
    destruct (users st !! _) eqn:Hu; [split; [simpl; lia|done]|].
    destruct (inherited _); [split; [simpl; lia|done]|].
    simpl. split; [done|]. intros _. by rewrite map_size_insert, Hu.
  - split; [|done]. rewrite Z.add_0_r. unfold ApiServer.create_order.
    destruct (co_amount r); [|done]. destruct (_ || _)%bool; [done|].
    destruct (negb _); [done|].
    destruct (users st !! _); [|destruct (inherited _)];
      by destruct (orders_create _).
  - split; [|done]. rewrite Z.add_0_r. unfold ApiServer.verify_payment.
    destruct (negb _); [done|]. destruct key_secret; [|done].
    destruct (negb _); [done|]. by destruct (foreign _ _).
  - split; [|done]. rewrite Z.add_0_r. unfold ApiServer.webhook.
    destruct (negb _); [done|]. destruct (negb _); [done|].
    destruct (ApiServer.dispatch st r) as [st'|] eqn:Hd; [|done].
    simpl. revert Hd.
    unfold ApiServer.dispatch, ApiServer.handlePaymentFailed,
      ApiServer.handleOrderPaid.
    destruct (is_event r "payment.captured").
    { destruct (payment_entity r) as [p|]; [|done].
      unfold ApiServer.handlePaymentCaptured. cbn [mbind option_bind].
      destruct (negb _); [by intros [= <-]|].
      destruct (users st !! _);
        [|destruct (inherited _); [done|]; by intros [= <-]].
      destruct (holds_id _ _); [by intros [= <-]|].
      destruct (iso_date_of _); [|done]. by intros [= <-]. }
    destruct (is_event r "payment.failed").
    { destruct (payment_entity r); [|done]. by intros [= <-]. }
    destruct (is_event r "order.paid").
    { destruct (order_entity r); [|done]. by intros [= <-]. }
    by intros [= <-].
  - split; [|done]. rewrite Z.add_0_r. unfold ApiServer.set_budget.
    destruct (negb _); [done|]. destruct (sb_monthlyLimit r); [|done].
    by destruct (_ || _)%bool.
Qed.

Lemma render_counts_signups {hmac : Hmac} {gateway : Gateway}
  (key_secret : option string) (st : BudgetData) (q : RenderDeploy.Request) :
  let out := RenderDeploy.handle key_secret st q in
  totalUsers (analytics (fst out))
  = (totalUsers (analytics st) + if render_signup q (snd out) then 1 else 0)%Z
  ∧ (render_signup q (snd out) = true
     → size (users (fst out)) = S (size (users st))).
Proof.
  destruct q as [now r|now r|now r|r]; simpl.
  - unfold RenderDeploy.create_user.
    destruct (negb _); [split; [simpl; lia|done]|].
    destruct (users st !! _) eqn:Hu; [split; [simpl; lia|done]|].
    destruct (inherited _); [split; [simpl; lia|done]|].
    simpl. split; [done|]. intros _. by rewrite map_size_insert, Hu.
  - split; [|done]. rewrite Z.add_0_r. unfold RenderDeploy.create_order.
    destruct (co_amount r); [|done]. destruct (_ || _)%bool; [done|].
    destruct (users st !! _); [|destruct (inherited _)];
      by destruct (orders_create _).
  - split; [|done]. rewrite Z.add_0_r. unfold RenderDeploy.verify_payment.
    destruct (negb _); [done|]. destruct key_secret; [|done].
    destruct (negb _); [done|]. destruct (foreign _ _); [done|].
    by destruct (users st !! _).
  - split; [|done]. simpl. lia.
Qed.

(** X24: [analytics.totalUsers] is advanced by POST /api/users only, by
    one for each request it answers 200, which stores one more user; no
    other request changes the counter, so the users that create-order
    and verify-payment make up are stored without being counted (after
    one create-order from the empty [budgetData] one user is stored and
    none is counted).  Hence, started from the empty [budgetData], after
    any sequence of requests the counter is at least 0 and at most the
    number of stored users (pure API server, API server of part_000 and
    render-deploy server). *)
Theorem counted_users_never_exceed_stored {hmac : Hmac} {gateway : Gateway}
  (pure_secret : string) (key_secret webhook_env : option string) :
  ((∀ qs, let st := PureApi.run pure_secret webhook_env initial qs in
      (0 ≤ totalUsers (analytics st) ≤ Z.of_nat (size (users st)))%Z)
   ∧ (∀ qs, let st := ApiServer.run key_secret webhook_env initial qs in
      (0 ≤ totalUsers (analytics st) ≤ Z.of_nat (size (users st)))%Z)
   ∧ (∀ qs, let st := RenderDeploy.run key_secret initial qs in
      (0 ≤ totalUsers (analytics st) ≤ Z.of_nat (size (users st)))%Z))
  ∧ ((∀ st q,
        let out := PureApi.handle pure_secret webhook_env st q in
        totalUsers (analytics (fst out))
        = (totalUsers (analytics st)
           + if pure_signup q (snd out) then 1 else 0)%Z
        ∧ (pure_signup q (snd out) = true
           → size (users (fst out)) = S (size (users st))))
     ∧ (∀ st q,
          let out := ApiServer.handle key_secret webhook_env st q in
          totalUsers (analytics (fst out))
          = (totalUsers (analytics st)
             + if api_signup q (snd out) then 1 else 0)%Z
          ∧ (api_signup q (snd out) = true
             → size (users (fst out)) = S (size (users st))))
     ∧ (∀ st q,
          let out := RenderDeploy.handle key_secret st q in
          totalUsers (analytics (fst out))
          = (totalUsers (analytics st)
             + if render_signup q (snd out) then 1 else 0)%Z
          ∧ (render_signup q (snd out) = true
             → size (users (fst out)) = S (size (users st)))))
  ∧ (let st :=
       fst (PureApi.create_order (gateway := Examples.accepting) 1 initial
              (Examples.order_request "u1" 500)) in
     size (users st) = 1 ∧ totalUsers (analytics st) = 0%Z).
Proof.
  split; [|split].
  - split; [|split]; intros qs st; subst st; apply coh_users.
    + unfold PureApi.run.
      apply fold_effect_coherent with (captures := false);
        [intros; apply pure_handle_effect|apply initial_coherent].
    + unfold ApiServer.run.
      apply fold_effect_coherent with (captures := true);
        [intros; apply api_handle_effect|apply initial_coherent].
    + unfold RenderDeploy.run.
      apply fold_effect_coherent with (captures := false);
        [intros; apply render_handle_effect|apply initial_coherent].
  - split; [|split]; intros st q.
    + apply pure_counts_signups.
    + apply api_counts_signups.
    + apply render_counts_signups.
  - split; reflexivity.
Qed.



(** * No record without a valid signature *)

Lemma entries_fresh (st st' : BudgetData) (k uid : string) (u : User) :
  users st' = <[k:=u]> (users st) → users st !! k = None → transactions u = [] →
  entries st' uid = entries st uid.
Proof.
  intros Hu Hk Htx. rewrite (entries_insert _ _ _ _ _ Hu).
  destruct (decide (k = uid)) as [<-|]; [|done].
  destruct (entries_lookup st k Hk) as [-> _]. done.
Qed.

Lemma signature_checked (g : string) (o : option string) :
  negb (bool_decide (Some g = o)) = false → o = Some g.
Proof.
  intros H. apply negb_false_iff, bool_decide_eq_true in H. done.
Qed.

Section Integrity.

Context {hmac : Hmac} {gateway : Gateway}.

Lemma pure_write_signed key_secret webhook_env st q uid :
  entries (fst (PureApi.handle key_secret webhook_env st q)) uid = entries st uid
  ∨ pure_signed key_secret q.
Proof.
  destruct q as [now r|now r|now r|r|r]; simpl.
  - left. unfold PureApi.create_user.
    destruct (accepted_id (cu_userId r)) as [userId|]; [|done].
    destruct (users st !! userId) eqn:Hu; [done|].
    destruct (inherited userId); [done|].
    simpl. by eapply entries_fresh.
  - left. unfold PureApi.create_order.
    destruct (accepted_number (co_amount r)) as [amount|]; [|done].
    destruct (accepted_id (co_userId r)) as [userId|]; [|done].
    assert (entries
              match users st !! userId with
              | Some _ => st
              | None =>
                  if inherited userId then st
                  else
                    set_budgets (insert userId PureApi.auto_budget)
                      (set_users (insert userId (PureApi.auto_user now userId))
                         st)
              end uid = entries st uid) as H.
    { destruct (users st !! userId) eqn:Hu; [done|].
      destruct (inherited userId); [done|]. by eapply entries_fresh. }
    by destruct (orders_create _).
  - unfold PureApi.verify_payment.
    destruct (negb (_ && _ && _)); [by left|].
    destruct (accepted_id (v_userId r)) as [userId|]; [|by left].
    destruct (negb (bool_decide _)) eqn:E; [by left|].
    right. by apply signature_checked.
  - left. by rewrite pure_webhook_unchanged.
  - left. unfold PureApi.set_budget.
    destruct (accepted_id (sb_userId r)); [|done].
    by destruct (accepted_number (sb_monthlyLimit r)).
Qed.

Lemma api_write_signed key_secret webhook_env st q uid :
  entries (fst (ApiServer.handle key_secret webhook_env st q)) uid = entries st uid
  ∨ api_signed key_secret webhook_env q.
Proof.
  destruct q as [now r|now r|now r|r|r]; simpl.
  - left. unfold ApiServer.create_user.
    destruct (negb _); [done|].
    destruct (users st !! _) eqn:Hu; [done|].
    destruct (inherited _); [done|].
    simpl. by eapply entries_fresh.
  - left. unfold ApiServer.create_order.
    destruct (co_amount r) as [amount|]; [|done].
    destruct (_ || _)%bool; [done|].
    destruct (negb _); [done|].
    set (userId := to_str (co_userId r)).
    assert (entries
              match users st !! userId with
              | Some _ => st
              | None =>
                  if inherited userId then st
                  else
                    set_users (insert userId (ApiServer.auto_user now userId)) st
              end uid = entries st uid) as H.
    { destruct (users st !! userId) eqn:Hu; [done|].
      destruct (inherited userId); [done|]. by eapply entries_fresh. }
    by destruct (orders_create _).
  - unfold ApiServer.verify_payment.
    destruct (negb (_ && _ && _ && _)); [by left|].
    destruct key_secret as [secret|]; [|by left].
    destruct (negb (bool_decide _)) eqn:E; [by left|].
    right. exists secret. split; [done|]. by apply signature_checked.
  - unfold ApiServer.webhook.
    destruct (negb (bool_decide _)) eqn:E; [by left|].
    right. by apply negb_false_iff, bool_decide_eq_true in E.
  - left. unfold ApiServer.set_budget.
    destruct (negb _); [done|].
    destruct (sb_monthlyLimit r); [|done].
    by destruct (_ || _)%bool.
Qed.

Lemma dash_write_signed key_secret st q uid :
  entries (fst (Dashboard.handle key_secret st q)) uid = entries st uid
  ∨ dash_signed key_secret q.
Proof.
  destruct q as [now r|now r|now r|r]; simpl.
  - left. by rewrite dash_create_order_unchanged.
  - unfold Dashboard.verify_payment.
    destruct key_secret as [secret|]; [|by left].
    destruct (bool_decide _) eqn:E; [|by left].
    right. exists secret. split; [done|].
    apply bool_decide_eq_true in E. done.
  - unfold Dashboard.webhook.
    destruct (bool_decide _) eqn:E; [|by left].
    right. by apply bool_decide_eq_true in E.
  - by left.
Qed.

Lemma render_write_signed key_secret st q uid :
  entries (fst (RenderDeploy.handle key_secret st q)) uid = entries st uid
  ∨ render_signed key_secret q.
Proof.
  destruct q as [now r|now r|now r|r]; simpl.
  - left. unfold RenderDeploy.create_user.
    destruct (negb _); [done|].
    destruct (users st !! _) eqn:Hu; [done|].
    destruct (inherited _); [done|].
    simpl. by eapply entries_fresh.
  - left. unfold RenderDeploy.create_order.
    destruct (co_amount r) as [amount|]; [|done].
    destruct (_ || _)%bool; [done|].
    set (userId := to_str (co_userId r)).
    assert (entries
              match users st !! userId with
              | Some _ => st
              | None =>
                  if inherited userId then st
                  else
                    set_users
                      (insert userId (RenderDeploy.auto_user now userId)) st
              end uid = entries st uid) as H.
    { destruct (users st !! userId) eqn:Hu; [done|].
      destruct (inherited userId); [done|]. by eapply entries_fresh. }
    by destruct (orders_create _).
  - unfold RenderDeploy.verify_payment.
    destruct (negb (_ && _ && _ && _)); [by left|].
    destruct key_secret as [secret|]; [|by left].
    destruct (negb (bool_decide _)) eqn:E; [by left|].
    right. exists secret. split; [done|]. by apply signature_checked.
  - by left.
Qed.

Lemma tracker_write_signed {razorpay : Tracker.Razorpay} key_env webhook_env
  st q :
  (Tracker.log (fst (Tracker.handle key_env webhook_env st q)) = Tracker.log st
   ∧ ∀ uid, tracked (fst (Tracker.handle key_env webhook_env st q)) uid
            ≡ₚ tracked st uid)
  ∨ tracker_signed key_env webhook_env q.
Proof.
  destruct q as [now r|now r|now d|userId|r]; simpl.
  - left. unfold Tracker.create_order.
    destruct (co_amount r) as [amount|]; [|done].
    destruct (_ || _)%bool; [done|].
    set (userId := to_str (co_userId r)).
    assert (let st' :=
              match Tracker.users st !! userId with
              | Some _ => st
              | None =>
                  if inherited userId then st
                  else
                    Tracker.set_account userId
                      {| Tracker.a_id := userId; Tracker.transactions := [];
                         Tracker.a_createdAt := now |} st
              end in
            Tracker.log st' = Tracker.log st
            ∧ ∀ uid, tracked st' uid ≡ₚ tracked st uid) as H.
    { destruct (Tracker.users st !! userId) eqn:Hu; [done|].
      destruct (inherited userId); [done|].
      split; [done|]. intros uid. unfold tracked. simpl.
      rewrite lookup_insert.
      destruct (decide (userId = uid)) as [<-|]; [|done]. by rewrite Hu. }
    by destruct (Tracker.create _).
  - unfold Tracker.verify_payment.
    destruct (bool_decide _) eqn:E; [|by left].
    right. by apply bool_decide_eq_true in E.
  - unfold Tracker.webhook.
    destruct (negb (bool_decide _)) eqn:E; [by left|].
    right. by apply negb_false_iff, bool_decide_eq_true in E.
  - left. unfold Tracker.dashboard.
    destruct (Tracker.users st !! userId) as [user|] eqn:Hu;
      [|by destruct (inherited userId)].
    split; [done|]. intros uid. unfold tracked. simpl. rewrite lookup_insert.
    destruct (decide (userId = uid)) as [<-|]; [|done].
    rewrite Hu. simpl. apply newest_first_perm.
  - by left.
Qed.

End Integrity.

(** X26: no server records a payment for a request that does not carry
    a valid signature.  In each of the five servers, a request either
    leaves every user's ledger as it was (in the second server of
    budget-tracker-pure-api.js: leaves the global list as it was and
    every user's list with the same entries), or it is a verify-payment
    request whose signature is the HMAC of [order_id|payment_id] under
    the key secret, or (API server of part_000, dashboard server, second
    server) a webhook delivery whose signature header is the HMAC of the
    body under the webhook secret in force. *)
Theorem ledger_writes_need_valid_signature {hmac : Hmac} {gateway : Gateway}
  {razorpay : Tracker.Razorpay} (pure_secret : string)
  (key_secret webhook_env : option string) :
  (∀ st q uid,
     entries (fst (PureApi.handle pure_secret webhook_env st q)) uid
     = entries st uid
     ∨ pure_signed pure_secret q)
  ∧ (∀ st q uid,
       entries (fst (ApiServer.handle key_secret webhook_env st q)) uid
       = entries st uid
       ∨ api_signed key_secret webhook_env q)
  ∧ (∀ st q uid,
       entries (fst (Dashboard.handle key_secret st q)) uid = entries st uid
       ∨ dash_signed key_secret q)
  ∧ (∀ st q uid,
       entries (fst (RenderDeploy.handle key_secret st q)) uid = entries st uid
       ∨ render_signed key_secret q)
  ∧ (∀ st q,
       (Tracker.log (fst (Tracker.handle key_secret webhook_env st q))
        = Tracker.log st
        ∧ ∀ uid, tracked (fst (Tracker.handle key_secret webhook_env st q)) uid
                 ≡ₚ tracked st uid)
       ∨ tracker_signed key_secret webhook_env q).
Proof.
  split; [intros; apply pure_write_signed|].
  split; [intros; apply api_write_signed|].
  split; [intros; apply dash_write_signed|].
  split; [intros; apply render_write_signed|].
  intros. apply tracker_write_signed.
Qed.
